(** * stylex-vscode: the partial evaluator, the cursor filter and the colour gate

    A shallow embedding of

    - [server/src/lib/evaluate.ts]       ([processArrayExpression], [evaluate]),
    - [server/src/capabilities/hover.ts] and [completions.ts] (the wildcard,
      [CallExpression] and [KeyValueProperty] handlers of the two walks),
    - [server/src/lib/color-logic.ts]    ([getColorFromValue]),

    followed by the properties the specification states about them and by
    further properties of the code.

    The evaluator runs inside a JavaScript engine and leans on it for every
    operator it folds.  The engine is split in two here.  What ECMA-262 fixes
    on primitive values (truthiness, [typeof], equality, ordering, BigInt
    arithmetic up to the size an engine holds, the 32-bit integer operators)
    is written out.  What needs the
    engine's object model or its number/string conversions is a field of the
    class [Host]; every general statement below holds for every [Host]. *)

From Stdlib Require Import ZArith String List Bool Lia Ascii.
From Stdlib Require Import PrimFloat Uint63 SpecFloat FloatOps DecimalString.
From stdpp Require Import base option strings gmap.

Set Warnings "-register-all".
Local Open Scope string_scope.
Local Open Scope Z_scope.

(* ===================================================================== *)
(** ** Spans, exceptions, completions                                     *)
(* ===================================================================== *)

(** [Span] of [@swc/types]: byte offsets into the parsed unit. *)
Record Span := mkSpan { start : Z; end_ : Z; ctxt : Z }.

(** What a JavaScript [throw] carries, as far as the evaluator can raise it. *)
Inductive Exn :=
| TypeError
| RangeError
| SyntaxError
| Error (message : string).

(** The outcome of running a piece of JavaScript: a value or a [throw]. *)
Inductive Completion (A : Type) :=
| Ok (a : A)
| Throw (e : Exn).
Arguments Ok {A} a.
Arguments Throw {A} e.

Notation "'let*' x ':=' e 'in' k" :=
  (match e with Ok x => k | Throw err => Throw err end)
  (at level 10, x name, e at level 100, k at level 200, only parsing).

(** [try { e } catch { d }] *)
Definition try_catch {A} (e : Completion A) (d : A) : A :=
  match e with Ok a => a | Throw _ => d end.

(* ===================================================================== *)
(** ** Values and results                                                 *)
(* ===================================================================== *)

(** An object of the engine that the evaluator did not build itself (a
    built-in function or prototype reached by a property read), by its
    well-known name. Two reads of one intrinsic give one object. *)
Definition HostObj := string.

(** [InnerType] and [ResultType] of evaluate.ts.

    Strings are sequences of code units, one [ascii] each. A JavaScript
    number is a binary64 [float], a bigint a [Z].

    TypeScript's [InnerType] lists what [evaluate] stores; a property read
    on a folded value ([MemberExpression]) can also return a result record
    itself ([VResult]), the span record inside it ([VSpan]) or an object of
    the engine ([VHost]), so these are values too.

    [VObject props proto]: the folded object literal. [proto] is [None]
    until an assignment to the key [__proto__] replaces the prototype.

    The variant with [static: false] always carries [value: undefined], so
    [NonStatic] has no field. *)
Inductive Value :=
| VUndefined
| VNull
| VBoolean (b : bool)
| VNumber (n : float)
| VBigInt (z : Z)
| VString (s : string)
| VRegExp (pattern flags : string)
| VArray (elems : list Result)
| VObject (props : gmap string Value) (proto : option Value)
| VResult (r : Result)
| VSpan (sp : Span)
| VHost (h : HostObj)
with Result :=
| NonStatic
| Static (value : Value) (span : Span)
| StaticId (id : string) (span : Span).

(** [result.static] *)
Definition is_static (r : Result) : bool :=
  match r with NonStatic => false | _ => true end.

(** ["id" in result] *)
Definition has_id (r : Result) : bool :=
  match r with StaticId _ _ => true | _ => false end.

Definition is_object (v : Value) : bool :=
  match v with
  | VRegExp _ _ | VArray _ | VObject _ _ | VResult _ | VSpan _ | VHost _ => true
  | _ => false
  end.

(** [v == null] *)
Definition is_nullish (v : Value) : bool :=
  match v with VUndefined | VNull => true | _ => false end.

(* --------------------------------------------------------------------- *)
(** *** Numbers                                                           *)

Definition NaN : float := PrimFloat.nan.

(** The number with the integer value [z], for [|z| < 2^63]. *)
Definition float_of_Z (z : Z) : float :=
  if z <? 0 then PrimFloat.opp (PrimFloat.of_uint63 (Uint63.of_Z (- z)))
  else PrimFloat.of_uint63 (Uint63.of_Z z).

(** A finite number cut to its integer part; [None] for NaN and the
    infinities. *)
Definition truncate (n : float) : option Z :=
  match Prim2SF n with
  | S754_zero _ => Some 0
  | S754_finite s m e =>
      let mag := if 0 <=? e then Z.pos m * 2 ^ e else Z.pos m / 2 ^ (- e) in
      Some (if s then - mag else mag)
  | _ => None
  end.

Definition ToUint32 (n : float) : Z :=
  match truncate n with Some z => z mod 2 ^ 32 | None => 0 end.

Definition ToInt32 (n : float) : Z :=
  let u := ToUint32 n in if 2 ^ 31 <=? u then u - 2 ^ 32 else u.

(** The sign of [z - n] for a bigint [z] and a number [n], taken on the
    exact values; [None] when [n] is NaN. *)
Definition compare_Z_float (z : Z) (n : float) : option comparison :=
  match Prim2SF n with
  | S754_nan => None
  | S754_infinity s => Some (if s then Gt else Lt)
  | S754_zero _ => Some (z ?= 0)
  | S754_finite s m e =>
      let sm := if s then Z.neg m else Z.pos m in
      Some (if 0 <=? e then z ?= sm * 2 ^ e else z * 2 ^ (- e) ?= sm)
  end.

Definition string_of_nat (n : nat) : string :=
  NilZero.string_of_uint (Nat.to_uint n).

(** [BigInt::toString] in radix 10. *)
Definition string_of_Z (z : Z) : string :=
  NilZero.string_of_int (Z.to_int z).

(* ===================================================================== *)
(** ** The engine                                                         *)
(* ===================================================================== *)

(** The preferred type handed to [ToPrimitive]. *)
Inductive Hint := HintDefault | HintNumber | HintString.

(** The part of the engine taken as given. Each field is total where
    ECMA-262 gives the operation no way to throw, and a [Completion] where
    user-visible code (an accessor, [valueOf], [toString]) may run.

    - [to_primitive]: [OrdinaryToPrimitive]/[@@toPrimitive] on an object;
    - [string_to_number], [number_to_string], [string_to_bigint]:
      [StringToNumber], [Number::toString], [StringToBigInt];
    - [number_remainder], [number_exponentiate]: [%] and [**] on numbers;
    - [regexp_valid]: whether [new RegExp(pattern, flags)] accepts;
    - [get_inherited], [has_inherited]: [[Get]] and [[HasProperty]] past the
      own properties written out in [own_property] (for a [VHost], all of
      them);
    - [instance_of]: [InstanceofOperator] on an object right operand;
    - [own_enumerable]: the own enumerable string-keyed properties of an
      engine object, as [Object.assign] reads them;
    - [bigint_fits]: whether the engine can hold the bigint; an operation
      whose result it cannot hold throws a RangeError. *)
Class Host := {
  is_callable : HostObj -> bool;
  to_primitive : Hint -> Value -> Completion Value;
  string_to_number : string -> float;
  number_to_string : float -> string;
  string_to_bigint : string -> option Z;
  number_remainder : float -> float -> float;
  number_exponentiate : float -> float -> float;
  regexp_valid : string -> string -> bool;
  get_inherited : Value -> string -> Completion Value;
  has_inherited : Value -> string -> bool;
  instance_of : Value -> Value -> Completion bool;
  own_enumerable : HostObj -> list (string * Value);
  bigint_fits : Z -> bool;
}.

(** The language types of ECMA-262 6.1. *)
Inductive LangType :=
| TUndefined | TNull | TBoolean | TNumber | TBigInt | TString | TObject.

Definition type_of (v : Value) : LangType :=
  match v with
  | VUndefined => TUndefined
  | VNull => TNull
  | VBoolean _ => TBoolean
  | VNumber _ => TNumber
  | VBigInt _ => TBigInt
  | VString _ => TString
  | _ => TObject
  end.

Definition same_type (x y : Value) : bool :=
  match type_of x, type_of y with
  | TUndefined, TUndefined | TNull, TNull | TBoolean, TBoolean
  | TNumber, TNumber | TBigInt, TBigInt | TString, TString
  | TObject, TObject => true
  | _, _ => false
  end.

(** A number or a bigint: the result of [ToNumeric]. *)
Inductive Numeric := NNum (n : float) | NBig (z : Z).

(** The twelve operators of [ApplyStringOrNumericBinaryOperator]. *)
Inductive NumericOp :=
| NShl | NSar | NShr | NAdd | NSub | NMul | NDiv | NRem | NExp
| NOr | NXor | NAnd.

Definition wrap_int32 (z : Z) : Z :=
  let u := z mod 2 ^ 32 in if 2 ^ 31 <=? u then u - 2 ^ 32 else u.

Section Engine.
Context {H : Host}.

(** [typeof v] *)
Definition typeof (v : Value) : string :=
  match v with
  | VUndefined => "undefined"
  | VBoolean _ => "boolean"
  | VNumber _ => "number"
  | VBigInt _ => "bigint"
  | VString _ => "string"
  | VHost h => if is_callable h then "function" else "object"
  | _ => "object"
  end.

Definition ToBoolean (v : Value) : bool :=
  match v with
  | VUndefined | VNull => false
  | VBoolean b => b
  | VNumber n => negb (PrimFloat.eqb n 0 || PrimFloat.is_nan n)
  | VBigInt z => negb (z =? 0)
  | VString s => negb (String.eqb s "")
  | _ => true
  end.

(** [ToPrimitive]: a primitive is returned as it is; what the engine
    returns for an object must be a primitive. *)
Definition ToPrimitive (hint : Hint) (v : Value) : Completion Value :=
  if is_object v then
    let* p := to_primitive hint v in
    if is_object p then Throw TypeError else Ok p
  else Ok v.

Definition number_of_bool (b : bool) : float := if b then 1 else 0.

(** [ToNumber] on a primitive. *)
Definition ToNumber_prim (p : Value) : Completion float :=
  match p with
  | VUndefined => Ok NaN
  | VNull => Ok 0%float
  | VBoolean b => Ok (number_of_bool b)
  | VNumber n => Ok n
  | VString s => Ok (string_to_number s)
  | _ => Throw TypeError
  end.

Definition ToNumber (v : Value) : Completion float :=
  let* p := ToPrimitive HintNumber v in ToNumber_prim p.

Definition ToNumeric_prim (p : Value) : Completion Numeric :=
  match p with
  | VBigInt z => Ok (NBig z)
  | _ => let* n := ToNumber_prim p in Ok (NNum n)
  end.

Definition ToNumeric (v : Value) : Completion Numeric :=
  let* p := ToPrimitive HintNumber v in ToNumeric_prim p.

Definition ToString_prim (p : Value) : Completion string :=
  match p with
  | VUndefined => Ok "undefined"
  | VNull => Ok "null"
  | VBoolean b => Ok (if b then "true" else "false")
  | VNumber n => Ok (number_to_string n)
  | VBigInt z => Ok (string_of_Z z)
  | VString s => Ok s
  | _ => Throw TypeError
  end.

Definition ToString (v : Value) : Completion string :=
  let* p := ToPrimitive HintString v in ToString_prim p.

(* ------------------------------------------------------------------- *)
(** *** Equality                                                        *)

(** [x === y]. The two operands of a folded binary expression come from
    two evaluations, each of which builds its arrays, objects, regular
    expressions and result records anew, and the span records belong to
    different nodes; so two such objects are never one object. Engine
    objects are compared by name. *)
Definition IsStrictlyEqual (x y : Value) : bool :=
  match x, y with
  | VUndefined, VUndefined | VNull, VNull => true
  | VBoolean a, VBoolean b => Bool.eqb a b
  | VNumber a, VNumber b => PrimFloat.eqb a b
  | VBigInt a, VBigInt b => a =? b
  | VString a, VString b => String.eqb a b
  | VHost a, VHost b => String.eqb a b
  | _, _ => false
  end.

Definition unbool (v : Value) : Value :=
  match v with VBoolean b => VNumber (number_of_bool b) | _ => v end.

(** [IsLooselyEqual] on two primitives neither of which is a boolean. *)
Definition loosely_equal_prim (x y : Value) : bool :=
  match x, y with
  | VUndefined, VNull | VNull, VUndefined => true
  | VNumber a, VString s => PrimFloat.eqb a (string_to_number s)
  | VString s, VNumber b => PrimFloat.eqb (string_to_number s) b
  | VBigInt a, VString s =>
      match string_to_bigint s with Some b => a =? b | None => false end
  | VString s, VBigInt b =>
      match string_to_bigint s with Some a => a =? b | None => false end
  | VBigInt a, VNumber b =>
      match compare_Z_float a b with Some Eq => true | _ => false end
  | VNumber a, VBigInt b =>
      match compare_Z_float b a with Some Eq => true | _ => false end
  | _, _ => IsStrictlyEqual x y
  end.

(** [x == y] (ECMA-262 7.2.13). *)
Definition IsLooselyEqual (x y : Value) : Completion bool :=
  if same_type x y then Ok (IsStrictlyEqual x y)
  else
    let x' := unbool x in
    let y' := unbool y in
    match is_object x', is_object y' with
    | false, false => Ok (loosely_equal_prim x' y')
    | false, true =>
        if is_nullish x' then Ok false
        else let* p := ToPrimitive HintDefault y' in
             Ok (loosely_equal_prim x' (unbool p))
    | true, false =>
        if is_nullish y' then Ok false
        else let* p := ToPrimitive HintDefault x' in
             Ok (loosely_equal_prim (unbool p) y')
    | true, true => Ok (IsStrictlyEqual x' y')
    end.

(* ------------------------------------------------------------------- *)
(** *** Ordering                                                        *)

Definition is_lt (c : comparison) : bool :=
  match c with Lt => true | _ => false end.
Definition is_gt (c : comparison) : bool :=
  match c with Gt => true | _ => false end.

Definition numeric_less_than (a b : Numeric) : option bool :=
  match a, b with
  | NNum x, NNum y =>
      if PrimFloat.is_nan x || PrimFloat.is_nan y then None
      else Some (PrimFloat.ltb x y)
  | NBig x, NBig y => Some (x <? y)
  | NBig x, NNum y => option_map is_lt (compare_Z_float x y)
  | NNum x, NBig y => option_map is_gt (compare_Z_float y x)
  end.

(** [IsLessThan] on two primitives; [None] is its [undefined]. *)
Definition less_than_prim (px py : Value) : Completion (option bool) :=
  match px, py with
  | VString a, VString b => Ok (Some (String.ltb a b))
  | VBigInt a, VString s =>
      Ok (match string_to_bigint s with
          | Some b => Some (a <? b) | None => None end)
  | VString s, VBigInt b =>
      Ok (match string_to_bigint s with
          | Some a => Some (a <? b) | None => None end)
  | _, _ =>
      let* nx := ToNumeric_prim px in
      let* ny := ToNumeric_prim py in
      Ok (numeric_less_than nx ny)
  end.

(** [IsLessThan(x, y, LeftFirst)] (ECMA-262 7.2.12). *)
Definition IsLessThan (x y : Value) (leftFirst : bool)
  : Completion (option bool) :=
  if leftFirst then
    let* px := ToPrimitive HintNumber x in
    let* py := ToPrimitive HintNumber y in
    less_than_prim px py
  else
    let* py := ToPrimitive HintNumber y in
    let* px := ToPrimitive HintNumber x in
    less_than_prim px py.

Definition is_true (r : option bool) : bool :=
  match r with Some true => true | _ => false end.
Definition is_false (r : option bool) : bool :=
  match r with Some false => true | _ => false end.

(** [x < y], [x > y], [x <= y], [x >= y] (ECMA-262 13.10.1). *)
Definition js_lt (x y : Value) : Completion bool :=
  let* r := IsLessThan x y true in Ok (is_true r).
Definition js_gt (x y : Value) : Completion bool :=
  let* r := IsLessThan y x false in Ok (is_true r).
Definition js_le (x y : Value) : Completion bool :=
  let* r := IsLessThan y x false in Ok (is_false r).
Definition js_ge (x y : Value) : Completion bool :=
  let* r := IsLessThan x y true in Ok (is_false r).

(* ------------------------------------------------------------------- *)
(** *** Arithmetic                                                      *)

Definition shift_count (b : float) : Z := ToUint32 b mod 32.

(** [Number::op]; never throws. *)
Definition number_op (op : NumericOp) (a b : float) : float :=
  match op with
  | NShl => float_of_Z (wrap_int32 (Z.shiftl (ToInt32 a) (shift_count b)))
  | NSar => float_of_Z (Z.shiftr (ToInt32 a) (shift_count b))
  | NShr => float_of_Z (Z.shiftr (ToUint32 a) (shift_count b))
  | NAdd => PrimFloat.add a b
  | NSub => PrimFloat.sub a b
  | NMul => PrimFloat.mul a b
  | NDiv => PrimFloat.div a b
  | NRem => number_remainder a b
  | NExp => number_exponentiate a b
  | NOr => float_of_Z (Z.lor (ToInt32 a) (ToInt32 b))
  | NXor => float_of_Z (Z.lxor (ToInt32 a) (ToInt32 b))
  | NAnd => float_of_Z (Z.land (ToInt32 a) (ToInt32 b))
  end.

(** A bigint the engine has computed: past the size the engine can hold,
    a RangeError. *)
Definition bigint_result (z : Z) : Completion Z :=
  if bigint_fits z then Ok z else Throw RangeError.

(** [BigInt::op]: division and remainder by [0n] and a negative exponent
    throw a RangeError, [>>>] a TypeError, and so does a result past the
    size the engine can hold. *)
Definition bigint_op (op : NumericOp) (a b : Z) : Completion Z :=
  match op with
  | NShl => bigint_result (Z.shiftl a b)
  | NSar => bigint_result (Z.shiftr a b)
  | NShr => Throw TypeError
  | NAdd => bigint_result (a + b)
  | NSub => bigint_result (a - b)
  | NMul => bigint_result (a * b)
  | NDiv => if b =? 0 then Throw RangeError else bigint_result (Z.quot a b)
  | NRem => if b =? 0 then Throw RangeError else bigint_result (Z.rem a b)
  | NExp => if b <? 0 then Throw RangeError else bigint_result (a ^ b)
  | NOr => bigint_result (Z.lor a b)
  | NXor => bigint_result (Z.lxor a b)
  | NAnd => bigint_result (Z.land a b)
  end.

Definition numeric_binary (op : NumericOp) (l r : Value)
  : Completion Value :=
  let* ln := ToNumeric l in
  let* rn := ToNumeric r in
  match ln, rn with
  | NNum a, NNum b => Ok (VNumber (number_op op a b))
  | NBig a, NBig b => let* z := bigint_op op a b in Ok (VBigInt z)
  | _, _ => Throw TypeError
  end.

Definition is_string (v : Value) : bool :=
  match v with VString _ => true | _ => false end.

(** [l op r] for the twelve operators (ECMA-262 13.15.3). *)
Definition js_binary (op : NumericOp) (l r : Value) : Completion Value :=
  match op with
  | NAdd =>
      let* lp := ToPrimitive HintDefault l in
      let* rp := ToPrimitive HintDefault r in
      if is_string lp || is_string rp then
        let* ls := ToString_prim lp in
        let* rs := ToString_prim rp in
        Ok (VString (ls ++ rs))
      else numeric_binary NAdd lp rp
  | _ => numeric_binary op l r
  end.

(** [+v], [-v], [~v], [!v] *)
Definition js_plus (v : Value) : Completion Value :=
  let* n := ToNumber v in Ok (VNumber n).

Definition js_minus (v : Value) : Completion Value :=
  let* n := ToNumeric v in
  match n with
  | NNum a => Ok (VNumber (PrimFloat.opp a))
  | NBig z => let* r := bigint_result (- z) in Ok (VBigInt r)
  end.

Definition js_bitnot (v : Value) : Completion Value :=
  let* n := ToNumeric v in
  match n with
  | NNum a => Ok (VNumber (float_of_Z (Z.lnot (ToInt32 a))))
  | NBig z => let* r := bigint_result (Z.lnot z) in Ok (VBigInt r)
  end.

Definition js_not (v : Value) : Value := VBoolean (negb (ToBoolean v)).

(* ------------------------------------------------------------------- *)
(** *** Properties                                                      *)

(** The index below [len] whose canonical decimal form is the key. *)
Definition index_of_key (k : string) (len : nat) : option nat :=
  List.find (fun i => String.eqb (string_of_nat i) k) (seq 0 len).

Definition result_fields (r : Result) : list (string * Value) :=
  match r with
  | NonStatic => [("value", VUndefined); ("static", VBoolean false)]
  | Static v sp =>
      [("value", v); ("static", VBoolean true); ("span", VSpan sp)]
  | StaticId id sp =>
      [("id", VString id); ("static", VBoolean true); ("span", VSpan sp)]
  end.

Definition span_fields (sp : Span) : list (string * Value) :=
  [("start", VNumber (float_of_Z (start sp)));
   ("end", VNumber (float_of_Z (end_ sp)));
   ("ctxt", VNumber (float_of_Z (ctxt sp)))].

Definition assoc (k : string) (l : list (string * Value)) : option Value :=
  option_map snd (List.find (fun kv => String.eqb (fst kv) k) l).

(** The own data properties of a value that are written out here. *)
Definition own_property (v : Value) (k : string) : option Value :=
  match v with
  | VString s =>
      if String.eqb k "length" then
        Some (VNumber (float_of_Z (Z.of_nat (String.length s))))
      else
        match index_of_key k (String.length s) with
        | Some i => option_map (fun c => VString (String c EmptyString))
                               (String.get i s)
        | None => None
        end
  | VArray l =>
      if String.eqb k "length" then
        Some (VNumber (float_of_Z (Z.of_nat (List.length l))))
      else
        match index_of_key k (List.length l) with
        | Some i => option_map VResult (nth_error l i)
        | None => None
        end
  | VObject props _ => props !! k
  | VRegExp _ _ =>
      if String.eqb k "lastIndex" then Some (VNumber 0) else None
  | VResult r => assoc k (result_fields r)
  | VSpan sp => assoc k (span_fields sp)
  | _ => None
  end.

(** [v[k]] for a string key [k] and [v] neither null nor undefined. *)
Definition js_get (v : Value) (k : string) : Completion Value :=
  match own_property v k with
  | Some x => Ok x
  | None => get_inherited v k
  end.

Definition has_property (v : Value) (k : string) : bool :=
  match own_property v k with
  | Some _ => true
  | None => has_inherited v k
  end.

(** [l in r] *)
Definition js_in (l r : Value) : Completion bool :=
  if is_object r then
    let* k := ToString l in Ok (has_property r k)
  else Throw TypeError.

(** [l instanceof r] *)
Definition js_instanceof (l r : Value) : Completion bool :=
  if is_object r then instance_of l r else Throw TypeError.

(* ------------------------------------------------------------------- *)
(** *** Object literals under construction                              *)

(** [acc[k] = v] on the accumulator of an object literal: an ordinary
    [[Set]], so the key [__proto__] reaches the setter of
    [Object.prototype] and replaces the prototype when [v] is an object or
    null, and does nothing otherwise. *)
Definition obj_set (acc : gmap string Value * option Value)
           (k : string) (v : Value) : gmap string Value * option Value :=
  if String.eqb k "__proto__" then
    if is_object v || match v with VNull => true | _ => false end
    then (fst acc, Some v) else acc
  else (<[k := v]> (fst acc), snd acc).

Definition string_entries (s : string) : list (string * Value) :=
  List.map (fun i => (string_of_nat i,
                      match String.get i s with
                      | Some c => VString (String c EmptyString)
                      | None => VUndefined
                      end))
           (seq 0 (String.length s)).

Definition array_entries (l : list Result) : list (string * Value) :=
  List.map (fun ir => (string_of_nat (fst ir), VResult (snd ir)))
           (combine (seq 0 (List.length l)) l).

(** The own enumerable string-keyed properties of [ToObject(v)]. *)
Definition enumerable_entries (v : Value) : list (string * Value) :=
  match v with
  | VString s => string_entries s
  | VArray l => array_entries l
  | VObject props _ => map_to_list props
  | VResult r => result_fields r
  | VSpan sp => span_fields sp
  | VHost h => own_enumerable h
  | _ => []
  end.

(** [Object.assign(acc, v)] *)
Definition object_assign (acc : gmap string Value * option Value)
           (v : Value) : gmap string Value * option Value :=
  fold_left (fun a kv => obj_set a (fst kv) (snd kv))
            (enumerable_entries v) acc.

(** [values.join("")]: [undefined] and [null] give the empty string. *)
Definition join_piece (v : Value) : Completion string :=
  if is_nullish v then Ok "" else ToString v.

Fixpoint join_empty (values : list Value) : Completion string :=
  match values with
  | [] => Ok ""
  | v :: rest =>
      let* s := join_piece v in
      let* t := join_empty rest in
      Ok (s ++ t)
  end.

End Engine.

(* ===================================================================== *)
(** ** The syntax tree                                                    *)
(* ===================================================================== *)

(** [BinaryOperator] and [UnaryOperator] of [@swc/types]. *)
Inductive BinaryOperator :=
| OpEqEq | OpNotEq | OpEqEqEq | OpNotEqEq
| OpLt | OpLtEq | OpGt | OpGtEq
| OpLShift | OpRShift | OpZeroFillRShift
| OpAdd | OpSub | OpMul | OpDiv | OpMod
| OpBitOr | OpBitXor | OpBitAnd
| OpLogicalOr | OpLogicalAnd
| OpIn | OpInstanceOf
| OpExp
| OpNullishCoalescing.

Inductive UnaryOperator :=
| UMinus | UPlus | UBang | UTilde | UTypeOf | UVoid | UDelete.

(** [TemplateElement]: [cooked] may be absent. *)
Record TemplateElementT := mkTemplateElement {
  cooked : option string;
  raw : string;
  te_span : Span;
}.

(** [ExprOrSpread] and [Argument]: [spread] is the span of the dots, when
    there are dots. *)
Record ExprOrSpread_ (N : Type) := mkExprOrSpread {
  spread : option Span;
  expression : N;
}.
Arguments mkExprOrSpread {N} spread expression.
Arguments spread {N} _.
Arguments expression {N} _.

(** A member of [ObjectExpression.properties]: a [SpreadElement] or one of
    the [Property] kinds. [ShorthandProperty] is the [Identifier] kind. *)
Inductive Property_ (N : Type) :=
| SpreadElement (arguments : N)
| KeyValueProperty (key value : N)
| AssignmentProperty (key value : N)
| GetterProperty
| SetterProperty
| MethodProperty
| ShorthandProperty (value : string) (span : Span).
Arguments SpreadElement {N} arguments.
Arguments KeyValueProperty {N} key value.
Arguments AssignmentProperty {N} key value.
Arguments GetterProperty {N}.
Arguments SetterProperty {N}.
Arguments MethodProperty {N}.
Arguments ShorthandProperty {N} value span.

(** The nodes [evaluate] is called on, one constructor per [case] label of
    its [switch], with the fields the function reads. [OtherNode] is any
    node kind that reaches [default]. A [TemplateLiteral] is the expression
    or the type of that name; the latter has no [expressions]. The value of
    a [BigIntLiteral] is declared a bigint by [@swc/types], but the trees of
    the parser hold an array of a sign and digits there, which is an object
    of the engine to [evaluate]; the node carries the value it was given,
    and [evaluate] hands it on as it is. *)
Inductive Node :=
| StringLiteral (value : string) (span : Span)
| NumericLiteral (value : float) (span : Span)
| BooleanLiteral (value : bool) (span : Span)
| BigIntLiteral (value : Value) (span : Span)
| NullLiteral (span : Span)
| RegExpLiteral (pattern flags : string) (span : Span)
| Invalid (span : Span)
| Identifier (value : string) (span : Span)
| ArrayExpression (elements : list (option (ExprOrSpread_ Node)))
                  (span : Span)
| ObjectExpression (properties : list (Property_ Node)) (span : Span)
| ArrowFunctionExpression
| FunctionExpression
| AwaitExpression (argument : Node)
| BinaryExpression (operator : BinaryOperator) (left right : Node)
                   (span : Span)
| JSXElement | JSXFragment | JSXEmptyExpression | JSXMemberExpression
| JSXNamespacedName | JSXText
| TsAsExpression (expression : Node)
| TsNonNullExpression (expression : Node)
| TsConstAssertion (expression : Node)
| TsTypeAssertion (expression : Node)
| TsInstantiation (expression : Node)
| ParenthesisExpression (expression : Node)
| UnaryExpression (operator : UnaryOperator) (argument : Node) (span : Span)
| AssignmentExpression (right : Node)
| ThisExpression
| ConditionalExpression (test consequent alternate : Node)
| SuperPropExpression
| TaggedTemplateExpression
| TemplateLiteral (quasis : option (list TemplateElementT))
                  (expressions : option (list Node)) (span : Span)
| TemplateElement (element : TemplateElementT)
| NewExpression
| ClassExpression
| CallExpression (callee : Node) (arguments : list (ExprOrSpread_ Node))
                 (span : Span)
| Computed (expression : Node)
| MemberExpression (object property : Node) (span : Span)
| OptionalChainingExpression
| UpdateExpression
| YieldExpression
| MetaProperty
| PrivateName (id : Node)
| SequenceExpression (expressions : list Node)
| OtherNode (type : string).

Definition ExprOrSpread := ExprOrSpread_ Node.
Definition Property := Property_ Node.

(** What [evaluate] asks of the [StateManager]. The class lives in
    state-manager.ts; [evaluate] only calls these two lookups, which read the
    import table and change nothing. *)
Record StateManager := mkStateManager {
  verifyStylexIdentifier : string -> bool;
  verifyNamedImport : string -> option string;
}.

(* ===================================================================== *)
(** ** evaluate.ts                                                        *)
(* ===================================================================== *)

Section Evaluate.
Context {H : Host}.

(** [Array.prototype.reduce] with a callback that may throw. *)
Definition reduce {A B} (f : B -> A -> Completion B)
  : list A -> B -> Completion B :=
  fix go (l : list A) (accumulator : B) : Completion B :=
    match l with
    | [] => Ok accumulator
    | x :: rest => let* next := f accumulator x in go rest next
    end.

(** The [Identifier] case of [evaluate]. *)
Definition evaluateIdentifier (value : string) (span : Span) : Result :=
  if String.eqb value "undefined" then Static VUndefined span
  else StaticId value span.

(** The [TemplateElement] case: [node.cooked || node.raw]. *)
Definition evaluateTemplateElement (node : TemplateElementT) : Result :=
  let text :=
    match cooked node with
    | Some c => if String.eqb c "" then raw node else c
    | None => raw node
    end in
  Static (VString text) (te_span node).

(** What the callback of [processArrayExpression] pushes after a spread
    operand has been evaluated to [result]. The test that chooses between
    [...result] and [...[result]] looks at [result], the record with the
    keys [value]/[id], [static] and [span]: it is an object, not an array,
    and has no [Symbol.iterator]; so the choice is always [[result]]. *)
Definition spread_items (result : Result) : list Result := [result].

(** The callback handed to [reduce] in [processArrayExpression]; [ev] is
    [evaluate] with its [stateManager]. *)
Definition arrayCallback (ev : Node -> Completion Result)
           (accumulator : list Result)
           (exprOrSpread : option ExprOrSpread)
  : Completion (list Result) :=
  match exprOrSpread with
  | None => Ok accumulator
  | Some eos =>
      match spread eos with
      | Some _ =>
          let* result := ev (expression eos) in
          let accumulator :=
            if negb (is_static result) then (accumulator ++ [result])%list
            else accumulator in
          Ok (accumulator ++ spread_items result)%list
      | None =>
          let* result := ev (expression eos) in
          Ok (accumulator ++ [result])%list
      end
  end.

(** [processArrayExpression]. [view] reads a member of [elements] as
    [ExprOrSpread | undefined]: the identity for the elements of an array
    literal, [Some] for the arguments of a call, which have no holes. *)
Definition processArrayExpressionWith {A} (view : A -> option ExprOrSpread)
           (ev : Node -> Completion Result)
           (elements : list A) (span : Span)
  : Completion Result :=
  let* result :=
    reduce (fun accumulator x => arrayCallback ev accumulator (view x))
           elements [] in
  Ok (Static (VArray result) span).

(** The key an object literal stores under, when [keyVal] has a [value]
    that is a string or a number. *)
Definition property_key (keyVal : Result) : option string :=
  match keyVal with
  | Static (VString s) _ => Some s
  | Static (VNumber n) _ => Some (number_to_string n)
  | _ => None
  end.

(** The callback handed to [reduce] in the [ObjectExpression] case. *)
Definition objectCallback (ev : Node -> Completion Result)
           (accumulator : gmap string Value * option Value)
           (property : Property)
  : Completion (gmap string Value * option Value) :=
  match property with
  | SpreadElement arguments =>
      let* result := ev arguments in
      match result with
      | NonStatic => Ok accumulator
      | Static v _ => Ok (object_assign accumulator v)
      | StaticId _ _ => Ok accumulator
      end
  | KeyValueProperty key value
  | AssignmentProperty key value =>
      let* keyVal := ev key in
      match property_key keyVal with
      | Some k =>
          let* v := ev value in Ok (obj_set accumulator k (VResult v))
      | None => Ok accumulator
      end
  | GetterProperty | SetterProperty | MethodProperty => Ok accumulator
  | ShorthandProperty value span =>
      let result := evaluateIdentifier value span in
      if negb (is_static result) then Ok accumulator
      else Ok (obj_set accumulator value (VResult result))
  end.

Definition evaluateObjectWith (ev : Node -> Completion Result)
           (properties : list Property) (span : Span)
  : Completion Result :=
  let* result := reduce (objectCallback ev) properties (∅, None) in
  Ok (Static (VObject (fst result) (snd result)) span).

(** The first [switch] of the [BinaryExpression] case: the value of
    [result] after it ([undefined] when no label matches). *)
Definition binaryFirstSwitch (operator : BinaryOperator) (l r : Value)
  : Completion Value :=
  match operator with
  | OpEqEq => let* b := IsLooselyEqual l r in Ok (VBoolean b)
  | OpNotEq => let* b := IsLooselyEqual l r in Ok (VBoolean (negb b))
  | OpEqEqEq => Ok (VBoolean (IsStrictlyEqual l r))
  | OpNotEqEq => Ok (VBoolean (negb (IsStrictlyEqual l r)))
  | OpLt =>
      if is_nullish l || is_nullish r then Ok (VBoolean false)
      else let* b := js_lt l r in Ok (VBoolean b)
  | OpLtEq =>
      if is_nullish l || is_nullish r then Ok (VBoolean false)
      else let* b := js_le l r in Ok (VBoolean b)
  | OpGt =>
      if is_nullish l || is_nullish r then Ok (VBoolean false)
      else let* b := js_gt l r in Ok (VBoolean b)
  | OpGtEq =>
      if is_nullish l || is_nullish r then Ok (VBoolean false)
      else let* b := js_ge l r in Ok (VBoolean b)
  | OpIn => Ok (VBoolean (try_catch (js_in l r) false))
  | OpInstanceOf => Ok (VBoolean (try_catch (js_instanceof l r) false))
  | OpLogicalAnd => Ok (if ToBoolean l then r else l)
  | OpLogicalOr => Ok (if ToBoolean l then l else r)
  | OpNullishCoalescing => Ok (if is_nullish l then r else l)
  | _ => Ok VUndefined
  end.

(** The test before the second [switch]: some operand is not a number,
    bigint or string, or the two differ in [typeof]. *)
Definition mismatched (l r : Value) : bool :=
  (negb (String.eqb (typeof l) "number")
   && negb (String.eqb (typeof l) "bigint")
   && negb (String.eqb (typeof l) "string"))
  || (negb (String.eqb (typeof r) "number")
      && negb (String.eqb (typeof r) "bigint")
      && negb (String.eqb (typeof r) "string"))
  || negb (String.eqb (typeof l) (typeof r)).

(** The second [switch] of the [BinaryExpression] case. *)
Definition binarySecondSwitch (operator : BinaryOperator) (l r : Value)
  : Completion Value :=
  match operator with
  | OpLShift => js_binary NShl l r
  | OpRShift => js_binary NSar l r
  | OpZeroFillRShift => js_binary NShr l r
  | OpAdd => js_binary NAdd l r
  | OpSub => js_binary NSub l r
  | OpMul => js_binary NMul l r
  | OpDiv => js_binary NDiv l r
  | OpMod => js_binary NRem l r
  | OpExp => js_binary NExp l r
  | OpBitOr => js_binary NOr l r
  | OpBitXor => js_binary NXor l r
  | OpBitAnd => js_binary NAnd l r
  | _ => Throw (Error "Unknown binary operator")
  end.

(** The [BinaryExpression] case once both operands are evaluated. *)
Definition evaluateBinary (operator : BinaryOperator)
           (left_ right_ : Result) (span : Span) : Completion Result :=
  if negb (is_static left_) || negb (is_static right_) then Ok NonStatic
  else
    match left_, right_ with
    | Static l _, Static r _ =>
        let* result := binaryFirstSwitch operator l r in
        if negb (String.eqb (typeof result) "undefined")
        then Ok (Static result span)
        else if mismatched l r then Ok (Static VUndefined span)
        else
          let* result := binarySecondSwitch operator l r in
          Ok (Static result span)
    | _, _ => Ok NonStatic
    end.

(** The [UnaryExpression] case once the operand is evaluated. *)
Definition evaluateUnary (operator : UnaryOperator) (result : Result)
           (span : Span) : Completion Result :=
  match result with
  | Static v _ =>
      if is_nullish v then Ok (Static VUndefined span)
      else
        match operator with
        | UPlus => Ok (Static (try_catch (js_plus v) VUndefined) span)
        | UMinus => let* x := js_minus v in Ok (Static x span)
        | UBang => Ok (Static (js_not v) span)
        | UTilde => let* x := js_bitnot v in Ok (Static x span)
        | UTypeOf => Ok (Static (VString (typeof v)) span)
        | UVoid => Ok (Static VUndefined span)
        | UDelete => Ok NonStatic
        end
  | _ => Ok NonStatic
  end.

(** The loop of the [TemplateLiteral] case: one quasi, then one
    expression, until the kind whose turn it is has run out. [None] is the
    early [return] of the non-static result. *)
Definition templateLoopWith (ev : Node -> Completion Result)
  : list Node -> list TemplateElementT -> list Value
    -> Completion (option (list Value)) :=
  fix loop (expressions : list Node) (quasis : list TemplateElementT)
           (values : list Value) {struct expressions} :=
    match quasis with
    | [] => Ok (Some values)
    | quasi :: quasis' =>
        match evaluateTemplateElement quasi with
        | Static text _ =>
            let values := (values ++ [text])%list in
            match expressions with
            | [] => Ok (Some values)
            | e :: expressions' =>
                let* result := ev e in
                match result with
                | NonStatic => Ok None
                | StaticId id _ =>
                    loop expressions' quasis'
                         (values ++ [VString ("var(--" ++ id ++ ")")])%list
                | Static v _ => loop expressions' quasis' (values ++ [v])%list
                end
            end
        | _ => Ok None
        end
    end.

Definition evaluateTemplateWith (ev : Node -> Completion Result)
           (quasis : option (list TemplateElementT))
           (expressions : option (list Node)) (span : Span)
  : Completion Result :=
  match quasis with
  | None => Ok NonStatic
  | Some quasis =>
      let* values :=
        match expressions with
        | Some expressions => templateLoopWith ev expressions quasis []
        | None => templateLoopWith ev [] quasis []
        end in
      match values with
      | None => Ok NonStatic
      | Some values =>
          let* text := join_empty values in
          Ok (Static (VString text) span)
      end
  end.

(** The callee test of the [CallExpression] case. *)
Definition isFirstThatWorks (stateManager : StateManager) (callee : Node)
  : bool :=
  match callee with
  | MemberExpression (Identifier object _) (Identifier property _) _ =>
      verifyStylexIdentifier stateManager object
      && String.eqb property "firstThatWorks"
  | Identifier value _ =>
      match verifyNamedImport stateManager value with
      | Some name => String.eqb name "firstThatWorks"
      | None => false
      end
  | _ => false
  end.

(** [result.value = result.value.reverse()] *)
Definition reverse_value (result : Result) : Result :=
  match result with
  | Static (VArray l) span => Static (VArray (rev l)) span
  | _ => result
  end.

(** The [MemberExpression] case once object and property are evaluated
    and both are static. *)
Definition evaluateMember (object property : Result) (span : Span)
  : Completion Result :=
  let propertyKey :=
    match property with
    | StaticId id _ => VString id
    | Static v _ => v
    | NonStatic => VUndefined
    end in
  match object with
  | StaticId id _ =>
      let* k := ToString propertyKey in
      Ok (StaticId (id ++ "." ++ k) span)
  | Static v _ =>
      if is_nullish v then Ok (Static v span)
      else
        match propertyKey with
        | VString k => let* x := js_get v k in Ok (Static x span)
        | _ => Ok (Static VUndefined span)
        end
  | NonStatic => Ok NonStatic
  end.

(** [node.expressions[node.expressions.length - 1]], evaluated; with no
    expression the read of [.type] on [undefined] throws. *)
Definition evaluateLastWith (ev : Node -> Completion Result)
  : list Node -> Completion Result :=
  fix last (l : list Node) :=
    match l with
    | [] => Throw TypeError
    | e :: rest => match rest with [] => ev e | _ :: _ => last rest end
    end.

(** Evaluates an expression statically and returns the result. *)
Fixpoint evaluate (node : Node) (stateManager : StateManager) {struct node}
  : Completion Result :=
  match node with
  | StringLiteral value span => Ok (Static (VString value) span)
  | NumericLiteral value span => Ok (Static (VNumber value) span)
  | BooleanLiteral value span => Ok (Static (VBoolean value) span)
  | BigIntLiteral value span => Ok (Static value span)
  | NullLiteral span => Ok (Static VNull span)
  | RegExpLiteral pattern flags span =>
      if regexp_valid pattern flags
      then Ok (Static (VRegExp pattern flags) span)
      else Throw SyntaxError
  | Invalid _ => Throw (Error "Invalid expression")
  | Identifier value span => Ok (evaluateIdentifier value span)
  | ArrayExpression elements span =>
      processArrayExpressionWith (fun x => x)
                                 (fun n => evaluate n stateManager)
                                 elements span
  | ObjectExpression properties span =>
      evaluateObjectWith (fun n => evaluate n stateManager) properties span
  | ArrowFunctionExpression | FunctionExpression => Ok NonStatic
  | AwaitExpression argument =>
      let* result := evaluate argument stateManager in
      if negb (is_static result) then Ok NonStatic else Ok result
  | BinaryExpression operator leftNode rightNode span =>
      let* left_ := evaluate leftNode stateManager in
      let* right_ := evaluate rightNode stateManager in
      evaluateBinary operator left_ right_ span
  | JSXElement | JSXFragment | JSXEmptyExpression | JSXMemberExpression
  | JSXNamespacedName | JSXText => Ok NonStatic
  | TsAsExpression expression
  | TsNonNullExpression expression
  | TsConstAssertion expression
  | TsTypeAssertion expression
  | TsInstantiation expression => evaluate expression stateManager
  | ParenthesisExpression expression => evaluate expression stateManager
  | UnaryExpression operator argument span =>
      let* result := evaluate argument stateManager in
      evaluateUnary operator result span
  | AssignmentExpression rightNode => evaluate rightNode stateManager
  | ThisExpression => Ok NonStatic
  | ConditionalExpression test consequent alternate =>
      let* test := evaluate test stateManager in
      match test with
      | Static v _ =>
          if ToBoolean v then evaluate consequent stateManager
          else evaluate alternate stateManager
      | _ => Ok NonStatic
      end
  | SuperPropExpression => Ok NonStatic
  | TaggedTemplateExpression => Ok NonStatic
  | TemplateLiteral quasis expressions span =>
      evaluateTemplateWith (fun n => evaluate n stateManager)
                           quasis expressions span
  | TemplateElement element => Ok (evaluateTemplateElement element)
  | NewExpression => Ok NonStatic
  | ClassExpression => Ok NonStatic
  | CallExpression callee arguments span =>
      if isFirstThatWorks stateManager callee then
        let* result :=
          processArrayExpressionWith Some
                                     (fun n => evaluate n stateManager)
                                     arguments span in
        Ok (reverse_value result)
      else Ok NonStatic
  | Computed expression => evaluate expression stateManager
  | MemberExpression object property span =>
      let* object := evaluate object stateManager in
      if negb (is_static object) then Ok NonStatic
      else
        let* property := evaluate property stateManager in
        if negb (is_static property) then Ok NonStatic
        else evaluateMember object property span
  | OptionalChainingExpression => Ok NonStatic
  | UpdateExpression => Ok NonStatic
  | YieldExpression => Ok NonStatic
  | MetaProperty => Ok NonStatic
  | PrivateName id => evaluate id stateManager
  | SequenceExpression expressions =>
      evaluateLastWith (fun n => evaluate n stateManager) expressions
  | OtherNode _ => Ok NonStatic
  end.

Definition processArrayExpression (elements : list (option ExprOrSpread))
           (span : Span) (stateManager : StateManager)
  : Completion Result :=
  processArrayExpressionWith (fun x => x)
                             (fun n => evaluate n stateManager)
                             elements span.

End Evaluate.

(* ===================================================================== *)
(** ** A host to run the definitions on                                   *)
(* ===================================================================== *)

(** The closed examples below need some [Host]. This one tabulates a small
    part of ECMA-262, named in the comments of its fields, and answers
    everything else in a fixed way. It is not a model of the engine: no
    statement quantified over [Host] depends on it, and the closed examples
    touch it only where the comments say what ECMA-262 prescribes. *)
Module SampleHost.

Definition constructors : list HostObj :=
  ["%String%"; "%Number%"; "%Boolean%"; "%BigInt%"; "%Array%"; "%Object%";
   "%RegExp%"; "%Function%"].

Definition is_callable (h : HostObj) : bool :=
  existsb (String.eqb h) constructors.

(** An array of result records joins their [[object Object]] texts with
    commas; a result record, a span record and an object literal without
    an own [toString] give [[object Object]]; with a stored [toString],
    which is a record and not a function, the conversion fails. *)
Definition to_primitive (_ : Hint) (v : Value) : Completion Value :=
  match v with
  | VArray l =>
      Ok (VString (String.concat "," (List.map (fun _ => "[object Object]") l)))
  | VObject props None =>
      match props !! "toString" with
      | None => Ok (VString "[object Object]")
      | Some _ => Throw TypeError
      end
  | VResult _ | VSpan _ => Ok (VString "[object Object]")
  | _ => Throw TypeError
  end.

Fixpoint digits_value (s : string) (acc : Z) : option Z :=
  match s with
  | EmptyString => Some acc
  | String c rest =>
      let n := Z.of_nat (nat_of_ascii c) in
      if (48 <=? n) && (n <=? 57) then digits_value rest (10 * acc + (n - 48))
      else None
  end.

(** Strings of decimal digits (the empty string is [0]); the rest of the
    numeric-string grammar is answered [NaN]. *)
Definition string_to_number (s : string) : float :=
  match digits_value s 0 with
  | Some z => if z <? 2 ^ 53 then float_of_Z z else NaN
  | None => NaN
  end.

(** Integers below [2^53] in absolute value, in decimal. *)
Definition number_to_string (n : float) : string :=
  if PrimFloat.is_nan n then "NaN"
  else match truncate n with
       | Some z => string_of_Z z
       | None => if PrimFloat.ltb n 0 then "-Infinity" else "Infinity"
       end.

Definition string_to_bigint (s : string) : option Z := digits_value s 0.

(** The constructor of each kind of value, found on its prototype; the
    accessors [caller] and [arguments] that [%Function.prototype%] carries
    (ECMA-262 10.2.4, [AddRestrictedFunctionProperties]), whose getter is
    [%ThrowTypeError%]; any other inherited read is answered
    [undefined]. *)
Definition constructor_of (v : Value) : Value :=
  match v with
  | VString _ => VHost "%String%"
  | VNumber _ => VHost "%Number%"
  | VBoolean _ => VHost "%Boolean%"
  | VBigInt _ => VHost "%BigInt%"
  | VArray _ => VHost "%Array%"
  | VRegExp _ _ => VHost "%RegExp%"
  | VHost h => if is_callable h then VHost "%Function%" else VHost "%Object%"
  | _ => VHost "%Object%"
  end.

Definition get_inherited (v : Value) (k : string) : Completion Value :=
  if String.eqb k "constructor" then Ok (constructor_of v)
  else
    match v with
    | VHost h =>
        if is_callable h
           && (String.eqb k "caller" || String.eqb k "arguments")
        then Throw TypeError else Ok VUndefined
    | _ => Ok VUndefined
    end.

(** Of the inherited properties, only [constructor] is known here. *)
Definition has_inherited (v : Value) (k : string) : bool :=
  String.eqb k "constructor".

(** The prototype chains of the values above; a right operand that is not
    callable has no [@@hasInstance] either, and throws. *)
Definition instance_of (l r : Value) : Completion bool :=
  match r with
  | VHost h =>
      if is_callable h then
        Ok (match l, h with
            | VArray _, "%Array%" | VRegExp _ _, "%RegExp%" => true
            | VHost g, "%Function%" => is_callable g
            | _, "%Object%" => is_object l
            | _, _ => false
            end)
      else Throw TypeError
  | _ => Throw TypeError
  end.

(** [%] and [**] on numbers are not needed by any example: [NaN]. No
    pattern is rejected, an engine object has no enumerable property, and
    no bigint is too large. *)
Definition host : Host :=
  Build_Host is_callable to_primitive string_to_number number_to_string
             string_to_bigint (fun _ _ => NaN) (fun _ _ => NaN)
             (fun _ _ => true) get_inherited has_inherited instance_of
             (fun _ => []) (fun _ => true).
End SampleHost.

(* ===================================================================== *)
(** ** hover.ts and completions.ts: the wildcard handler                  *)
(* ===================================================================== *)

(** A node as the wildcard handler sees it: its [type] and, when it has
    one, its [span]. *)
Record WalkNode := mkWalkNode {
  node_type : string;
  node_span : option Span;
}.

(** What a handler hands back to the walker: [return false], or nothing. *)
Inductive HandlerResult := ReturnsFalse | ReturnsNothing.

(** Modelled from the spec: the walker (walk.ts) is not among the sources;
    "returning [false] skips descending into this node's children". *)
Definition skips_children (r : HandlerResult) : bool :=
  match r with ReturnsFalse => true | ReturnsNothing => false end.

Module Hover.
(** The ["*"] handler of [onHover]; [paramByte] is the byte offset of the
    cursor, [moduleStart] the offset set by the [Module] handler. *)
Definition wildcard (paramByte moduleStart : Z) (node : WalkNode)
  : HandlerResult :=
  match node_span node with
  | Some span =>
      if negb (String.eqb (node_type node) "VariableDeclaration")
         && (paramByte <? start span - moduleStart)
         && (paramByte >? end_ span - moduleStart)
      then ReturnsFalse
      else ReturnsNothing
  | None => ReturnsNothing
  end.
End Hover.

Module Completions.
(** The ["*"] handler of [onCompletion]. *)
Definition wildcard (paramByte moduleStart : Z) (node : WalkNode)
  : HandlerResult :=
  match node_span node with
  | Some span =>
      if negb (String.eqb (node_type node) "VariableDeclaration")
         && (paramByte <? start span - moduleStart)
         && (paramByte >? end_ span - moduleStart)
      then ReturnsFalse
      else ReturnsNothing
  | None => ReturnsNothing
  end.
End Completions.

(* ===================================================================== *)
(** ** color-logic.ts                                                     *)
(* ===================================================================== *)

Module ColorLogic.

(** Code units are one byte here, so the white space and line terminators
    of ECMA-262 that fit are TAB, LF, VT, FF, CR, SP and NBSP. *)
Definition is_space (c : ascii) : bool :=
  let n := nat_of_ascii c in
  ((9 <=? n) && (n <=? 13) || (n =? 32) || (n =? 160))%nat.

Fixpoint trimStart (s : string) : string :=
  match s with
  | String c rest => if is_space c then trimStart rest else s
  | EmptyString => EmptyString
  end.

(** [trimEnd], right to left: a space is dropped when all that follows it
    has been dropped. *)
Fixpoint trimEnd (s : string) : string :=
  match s with
  | EmptyString => EmptyString
  | String c rest =>
      match trimEnd rest with
      | EmptyString => if is_space c then EmptyString
                       else String c EmptyString
      | kept => String c kept
      end
  end.

(** [String.prototype.trim] *)
Definition trim (s : string) : string := trimEnd (trimStart s).

(** The lower-case mapping on one-byte code units: A-Z, and the
    upper-case letters of the Latin-1 range (C0-DE without D7). *)
Definition lower_char (c : ascii) : ascii :=
  let n := nat_of_ascii c in
  if ((65 <=? n) && (n <=? 90)
      || (192 <=? n) && (n <=? 222) && negb (n =? 215))%nat
  then ascii_of_nat (n + 32) else c.

(** [String.prototype.toLowerCase] *)
Fixpoint toLowerCase (s : string) : string :=
  match s with
  | EmptyString => EmptyString
  | String c rest => String (lower_char c) (toLowerCase rest)
  end.

(** Regular expressions over code units, matched by derivatives. Both
    patterns of the file are anchored with [^] and [$] and have neither
    groups that capture nor look-around, so [RegExp.prototype.test] is
    membership of the whole string in the language. *)
Inductive Regex :=
| Nothing
| Empty
| Class (p : ascii -> bool)
| Seq (a b : Regex)
| Alt (a b : Regex)
| Star (a : Regex).

Fixpoint nullable (r : Regex) : bool :=
  match r with
  | Nothing => false
  | Empty => true
  | Class _ => false
  | Seq a b => nullable a && nullable b
  | Alt a b => nullable a || nullable b
  | Star _ => true
  end.

Fixpoint derive (c : ascii) (r : Regex) : Regex :=
  match r with
  | Nothing | Empty => Nothing
  | Class p => if p c then Empty else Nothing
  | Seq a b =>
      if nullable a then Alt (Seq (derive c a) b) (derive c b)
      else Seq (derive c a) b
  | Alt a b => Alt (derive c a) (derive c b)
  | Star a => Seq (derive c a) (Star a)
  end.

Fixpoint test (r : Regex) (s : string) : bool :=
  match s with
  | EmptyString => nullable r
  | String c rest => test (derive c r) rest
  end.

Definition Plus (r : Regex) : Regex := Seq r (Star r).
Definition Opt (r : Regex) : Regex := Alt r Empty.
Definition Chr (c : ascii) : Regex := Class (Ascii.eqb c).
Fixpoint Lit (s : string) : Regex :=
  match s with
  | EmptyString => Empty
  | String c rest => Seq (Chr c) (Lit rest)
  end.

Definition is_hex_digit (c : ascii) : bool :=
  let n := nat_of_ascii c in
  ((48 <=? n) && (n <=? 57) || (97 <=? n) && (n <=? 102)
   || (65 <=? n) && (n <=? 70))%nat.

(** [/^\s*(?:rgba?|hsla?)\s*\([^)]+\)\s*$/] *)
Definition functional_form : Regex :=
  Seq (Star (Class is_space))
 (Seq (Alt (Seq (Lit "rgb") (Opt (Chr "a")))
           (Seq (Lit "hsl") (Opt (Chr "a"))))
 (Seq (Star (Class is_space))
 (Seq (Chr "(")
 (Seq (Plus (Class (fun c => negb (Ascii.eqb c ")"))))
 (Seq (Chr ")")
      (Star (Class is_space))))))).

(** [/^\s*#[0-9a-f]+\s*$/i] *)
Definition hex_form : Regex :=
  Seq (Star (Class is_space))
 (Seq (Chr "#")
 (Seq (Plus (Class is_hex_digit))
      (Star (Class is_space)))).

(** [KeywordColor], or a colour as [culori] represents it. *)
Inductive ColorResult (Color : Type) :=
| Transparent
| CurrentColor
| Parsed (color : Color).
Arguments Transparent {Color}.
Arguments CurrentColor {Color}.
Arguments Parsed {Color} color.

Section GetColor.
(** The keys of the [color-name] table and [culori.parse], neither of
    which is part of this repository. *)
Variable namedColors : list string.
Variable Color : Type.
Variable culori_parse : string -> option Color.

(** [getColorFromValue]; [None] is [null]. *)
Definition getColorFromValue (value : Value)
  : option (ColorResult Color) :=
  match value with
  | VString value =>
      let trimmedValue := trim value in
      if String.eqb (toLowerCase trimmedValue) "transparent"
      then Some Transparent
      else if String.eqb (toLowerCase trimmedValue) "currentcolor"
      then Some CurrentColor
      else if negb (test functional_form trimmedValue)
              && negb (test hex_form trimmedValue)
              && negb (existsb (String.eqb trimmedValue) namedColors)
      then None
      else
        match culori_parse trimmedValue with
        | Some color => Some (Parsed color)
        | None => None
        end
  | _ => None
  end.
End GetColor.

(** Equality of two strings up to the case of their letters. *)
Definition equal_ignoring_case (a b : string) : bool :=
  String.eqb (toLowerCase a) (toLowerCase b).

End ColorLogic.

(* ===================================================================== *)
(** ** The vocabulary of the specification                                *)
(* ===================================================================== *)

(** The spans and the state manager of the closed examples. *)
Definition sp (a b : Z) : Span := mkSpan a b 0.

Definition stylexImported : StateManager :=
  mkStateManager (fun name => String.eqb name "stylex") (fun _ => None).

Definition plainElement (n : Node) : option ExprOrSpread :=
  Some (mkExprOrSpread None n).
Definition spreadElement (dots : Span) (n : Node) : option ExprOrSpread :=
  Some (mkExprOrSpread (Some dots) n).

(** An argument without dots. *)
Definition plain (a : ExprOrSpread) : bool :=
  match spread a with None => true | Some _ => false end.

(** The nodes a property of an object literal may have evaluated. *)
Definition property_nodes (p : Property) : list Node :=
  match p with
  | SpreadElement a => [a]
  | KeyValueProperty k v | AssignmentProperty k v => [k; v]
  | _ => []
  end.

(** The operators of the second [switch]: bit, shift and arithmetic. *)
Definition numeric_operator (op : BinaryOperator) : bool :=
  match op with
  | OpLShift | OpRShift | OpZeroFillRShift
  | OpAdd | OpSub | OpMul | OpDiv | OpMod | OpExp
  | OpBitOr | OpBitXor | OpBitAnd => true
  | _ => false
  end.

(** Two values of one type among number, bigint and string. *)
Definition homogeneous (l r : Value) : bool :=
  match l, r with
  | VNumber _, VNumber _ | VBigInt _, VBigInt _ | VString _, VString _ => true
  | _, _ => false
  end.



Section HostValues.
Context {H : Host}.



(** The text an embedded expression contributes to a template: for a
    symbolic reference the read of the custom property, for [undefined] and
    [null] nothing, for any other value its conversion to a string. *)
Definition expression_text (r : Result) : Completion string :=
  match r with
  | StaticId id _ => Ok ("var(--" ++ id ++ ")")
  | Static (VUndefined | VNull) _ => Ok ""
  | Static v _ => ToString v
  | NonStatic => Ok ""
  end.
End HostValues.


(** The pieces of a string, put one after the other. *)
Definition concat_all (pieces : list string) : string :=
  fold_right String.append "" pieces.

(** The value the loop of the template case pushes for a static result. *)
Definition pushed (r : Result) : Value :=
  match r with
  | StaticId id _ => VString ("var(--" ++ id ++ ")")
  | Static v _ => v
  | NonStatic => VUndefined
  end.

(** The text of a quasi. *)
Definition quasi_text (q : TemplateElementT) : string :=
  match cooked q with
  | Some c => if String.eqb c "" then raw q else c
  | None => raw q
  end.

(** Quasi, expression, quasi, ... in source order. *)
Fixpoint interleave (quasis expressions : list string) : list string :=
  match quasis with
  | [] => []
  | q :: quasis' =>
      q :: match expressions with
           | [] => []
           | e :: expressions' => e :: interleave quasis' expressions'
           end
  end.

(** A callee recognised as [firstThatWorks]: a member of a verified stylex
    namespace identifier, or a verified named import. *)
Definition recognized (stateManager : StateManager) (callee : Node) : Prop :=
  (exists object s1 s2 s3,
      callee = MemberExpression (Identifier object s1)
                                (Identifier "firstThatWorks" s2) s3
      /\ verifyStylexIdentifier stateManager object = true)
  \/ (exists name s,
         callee = Identifier name s
         /\ verifyNamedImport stateManager name = Some "firstThatWorks").

(** Inputs of the closed examples. *)
Definition number (n : float) : Node := NumericLiteral n (sp 0 1).

(** [[1, ...(test ? [2, 3] : [4]), 5]] *)
Definition spreadOfConditional (test : Node) : Node :=
  ArrayExpression
    [plainElement (number 1);
     spreadElement (sp 4 7)
       (ConditionalExpression test
          (ArrayExpression [plainElement (number 2); plainElement (number 3)]
                           (sp 14 20))
          (ArrayExpression [plainElement (number 4)] (sp 23 26)));
     plainElement (number 5)]
    (sp 0 30).

(** ["abc".constructor.caller] *)
Definition callerOfConstructor : Node :=
  MemberExpression
    (MemberExpression (StringLiteral "abc" (sp 0 5))
                      (Identifier "constructor" (sp 6 17)) (sp 0 17))
    (Identifier "caller" (sp 18 24)) (sp 0 24).

(* ===================================================================== *)
(** ** Further vocabulary                                                 *)
(* ===================================================================== *)

(** The elements of an array literal that are not holes. *)
Fixpoint present (elements : list (option ExprOrSpread)) : list ExprOrSpread :=
  match elements with
  | [] => []
  | Some e :: rest => e :: present rest
  | None :: rest => present rest
  end.

(** [base.p1.p2...]: one member expression per name, each with the span of
    its identifier and the span of the member expression. *)
Fixpoint memberChain (base : Node) (names : list (string * Span * Span))
  : Node :=
  match names with
  | [] => base
  | (name, idSpan, span) :: rest =>
      memberChain (MemberExpression base (Identifier name idSpan) span) rest
  end.

(** The dotted path and the span of the outermost node of a chain. *)
Fixpoint dotted (id : string) (names : list (string * Span * Span)) : string :=
  match names with
  | [] => id
  | (name, _, _) :: rest => dotted (id ++ "." ++ name) rest
  end.

Fixpoint outerSpan (span : Span) (names : list (string * Span * Span))
  : Span :=
  match names with
  | [] => span
  | (_, _, s) :: rest => outerSpan s rest
  end.

(** A property that an object literal drops whatever its value: one whose
    key is an identifier, or an accessor or method. *)
Definition dropped_property (p : Property) : bool :=
  match p with
  | KeyValueProperty (Identifier _ _) _
  | AssignmentProperty (Identifier _ _) _
  | GetterProperty | SetterProperty | MethodProperty => true
  | _ => false
  end.

(** A result that a spread in an object literal copies nothing from: one
    that is not static, a symbolic reference, or a static value with no
    enumerable property of its own. *)
Definition nothing_to_spread (r : Result) : bool :=
  match r with
  | NonStatic | StaticId _ _ => true
  | Static (VUndefined | VNull | VBoolean _ | VNumber _ | VBigInt _
            | VRegExp _ _) _ => true
  | Static _ _ => false
  end.

(** The operator of [ApplyStringOrNumericBinaryOperator] behind a bit,
    shift or arithmetic operator of the syntax tree. *)
Definition numeric_op_of (op : BinaryOperator) : option NumericOp :=
  match op with
  | OpLShift => Some NShl
  | OpRShift => Some NSar
  | OpZeroFillRShift => Some NShr
  | OpAdd => Some NAdd
  | OpSub => Some NSub
  | OpMul => Some NMul
  | OpDiv => Some NDiv
  | OpMod => Some NRem
  | OpExp => Some NExp
  | OpBitOr => Some NOr
  | OpBitXor => Some NXor
  | OpBitAnd => Some NAnd
  | _ => None
  end.

(* --------------------------------------------------------------------- *)
(** *** Expressions that cannot throw                                     *)

(** What is known of the result of an expression before it is evaluated:
    - [Ref]: it is never a value (not static, or a symbolic reference);
    - [Scalar]: if it is a value, the value is undefined, null, a boolean, a
      number or a string;
    - [Safe]: nothing, except that there is a result;
    - [Unsafe]: nothing at all. *)
Inductive Grade := Unsafe | Safe | Scalar | Ref.

Definition tame (v : Value) : bool :=
  match v with
  | VUndefined | VNull | VBoolean _ | VNumber _ | VString _ => true
  | _ => false
  end.

Definition conforms (g : Grade) (r : Result) : bool :=
  match g with
  | Unsafe => false
  | Safe => true
  | Scalar => match r with Static v _ => tame v | _ => true end
  | Ref => match r with Static _ _ => false | _ => true end
  end.

Definition safe (g : Grade) : bool :=
  match g with Unsafe => false | _ => true end.

Definition scalar_or_ref (g : Grade) : bool :=
  match g with Scalar | Ref => true | _ => false end.

(** The grade of an expression that folds to one of two expressions. *)
Definition either (g1 g2 : Grade) : Grade :=
  match g1, g2 with
  | Unsafe, _ | _, Unsafe => Unsafe
  | Safe, _ | _, Safe => Safe
  | Scalar, _ | _, Scalar => Scalar
  | Ref, Ref => Ref
  end.

(** The operators whose folding has no way to throw on any two values, and
    on any one value. *)
Definition total_binary (op : BinaryOperator) : bool :=
  match op with
  | OpEqEqEq | OpNotEqEq | OpIn | OpInstanceOf
  | OpLogicalAnd | OpLogicalOr | OpNullishCoalescing => true
  | _ => false
  end.

Definition total_unary (op : UnaryOperator) : bool :=
  match op with
  | UPlus | UBang | UTypeOf | UVoid | UDelete => true
  | _ => false
  end.

Definition grade_binary (op : BinaryOperator) (gl gr : Grade) : Grade :=
  match gl, gr with
  | Unsafe, _ | _, Unsafe => Unsafe
  | Ref, _ | _, Ref => Ref
  | Scalar, Scalar => Scalar
  | _, _ => if total_binary op then Safe else Unsafe
  end.

Definition grade_unary (op : UnaryOperator) (g : Grade) : Grade :=
  match g with
  | Safe => if total_unary op then Safe else Unsafe
  | _ => g
  end.

Definition grade_member (go gp : Grade) : Grade :=
  match go with
  | Ref => if scalar_or_ref gp then Ref else Unsafe
  | _ => Unsafe
  end.

(** The grade of an expression, read off its shape. *)
Fixpoint grade (node : Node) : Grade :=
  match node with
  | StringLiteral _ _ | NumericLiteral _ _ | BooleanLiteral _ _
  | NullLiteral _ | TemplateElement _ => Scalar
  | BigIntLiteral _ _ => Safe
  | RegExpLiteral _ _ _ | Invalid _ => Unsafe
  | Identifier value _ =>
      if String.eqb value "undefined" then Scalar else Ref
  | ArrayExpression elements _ =>
      if forallb (fun x => match x with
                           | Some e => safe (grade (expression e))
                           | None => true
                           end) elements
      then Safe else Unsafe
  | ObjectExpression properties _ =>
      if forallb (fun p => match p with
                           | SpreadElement a => safe (grade a)
                           | KeyValueProperty k v
                           | AssignmentProperty k v =>
                               safe (grade k) && safe (grade v)
                           | _ => true
                           end) properties
      then Safe else Unsafe
  | AwaitExpression argument => grade argument
  | BinaryExpression op l r _ => grade_binary op (grade l) (grade r)
  | TsAsExpression e | TsNonNullExpression e | TsConstAssertion e
  | TsTypeAssertion e | TsInstantiation e | ParenthesisExpression e
  | AssignmentExpression e | Computed e | PrivateName e => grade e
  | UnaryExpression op argument _ => grade_unary op (grade argument)
  | ConditionalExpression test consequent alternate =>
      match grade test with
      | Unsafe => Unsafe
      | Ref => Ref
      | _ => either (grade consequent) (grade alternate)
      end
  | TemplateLiteral quasis expressions _ =>
      match quasis, expressions with
      | None, _ => Ref
      | Some _, None => Scalar
      | Some _, Some es =>
          if forallb (fun e => scalar_or_ref (grade e)) es
          then Scalar else Unsafe
      end
  | CallExpression _ args _ =>
      if forallb (fun a => safe (grade (expression a))) args
      then Safe else Unsafe
  | MemberExpression object property _ =>
      grade_member (grade object) (grade property)
  | SequenceExpression expressions =>
      (fix last (l : list Node) : Grade :=
         match l with
         | [] => Unsafe
         | e :: rest => match rest with [] => grade e | _ :: _ => last rest end
         end) expressions
  | _ => Ref
  end.

(** The nodes directly below a node. *)
Definition children (node : Node) : list Node :=
  match node with
  | ArrayExpression elements _ => List.map expression (present elements)
  | ObjectExpression properties _ => flat_map property_nodes properties
  | AwaitExpression e | TsAsExpression e | TsNonNullExpression e
  | TsConstAssertion e | TsTypeAssertion e | TsInstantiation e
  | ParenthesisExpression e | AssignmentExpression e | Computed e
  | PrivateName e | UnaryExpression _ e _ => [e]
  | BinaryExpression _ l r _ => [l; r]
  | ConditionalExpression t c a => [t; c; a]
  | TemplateLiteral _ (Some es) _ => es
  | CallExpression callee args _ => callee :: List.map expression args
  | MemberExpression o p _ => [o; p]
  | SequenceExpression es => es
  | _ => []
  end.

(* ===================================================================== *)
(** ** hover.ts and completions.ts: the handlers of the two walks         *)
(* ===================================================================== *)

(** What one of these handlers hands back to the walker: nothing, a state
    for the children, a state with child positions to leave out, or
    [States.EXIT]. [found] is what the handler assigned to the variable of
    the enclosing function ([hover]) just before it returned [EXIT]. *)
Inductive Action (S Found : Type) :=
| ReturnsUndefined
| ReturnsState (state : S)
| ReturnsStateIgnoring (state : S) (ignore : list string)
| ReturnsExit (found : option Found).
Arguments ReturnsUndefined {S Found}.
Arguments ReturnsState {S Found} state.
Arguments ReturnsStateIgnoring {S Found} state ignore.
Arguments ReturnsExit {S Found} found.

(** A string in a condition: the empty string counts as false. *)
Definition truthy (s : string) : bool := negb (String.eqb s "").

(** [s.startsWith(p)], [s.repeat(n)], [s.slice(1)], [lines.join(sep)] *)
Definition startsWith (s p : string) : bool := String.prefix p s.

Fixpoint repeat_string (s : string) (n : nat) : string :=
  match n with
  | O => ""
  | S m => s ++ repeat_string s m
  end.

Definition slice1 (s : string) : string :=
  match s with
  | EmptyString => EmptyString
  | String _ rest => rest
  end.

Fixpoint join (sep : string) (l : list string) : string :=
  match l with
  | [] => ""
  | [x] => x
  | x :: rest => x ++ sep ++ join sep rest
  end.

(** [Array.prototype.sort] on strings with no comparator: ascending in the
    order of code units. Equal strings cannot be told apart, so the result
    does not depend on the algorithm; this one inserts. *)
Fixpoint insert_sorted (x : string) (l : list string) : list string :=
  match l with
  | [] => [x]
  | y :: rest => if String.leb x y then x :: l else y :: insert_sorted x rest
  end.

Fixpoint sort_strings (l : list string) : list string :=
  match l with
  | [] => []
  | x :: rest => insert_sorted x (sort_strings rest)
  end.

(** The node of a [VariableDeclarator] above a call, as the handler of the
    hover walk reads it: [id] is the name when the pattern is an
    identifier. Any other parent, or none, is [OtherParent]. *)
Inductive Parent :=
| VariableDeclarator (id : option string)
| OtherParent.

(** A [KeyValueProperty] node: its key with the span of the key, and its
    value. *)
Record KeyValueNode := mkKeyValueNode {
  kv_key : Node;
  kv_key_span : Span;
  kv_value : Node;
}.

(** The test that opens the [CallExpression] handlers: the name bound to
    [verifiedImport] when the test holds. [names] is the list of the named
    imports the handler looks for. *)
Definition verifiedImport (stateManager : StateManager) (names : list string)
           (callee : Node) : option string :=
  match callee with
  | MemberExpression (Identifier object _) (Identifier property _) _ =>
      if verifyStylexIdentifier stateManager object && truthy property
      then Some property else None
  | Identifier value _ =>
      match verifyNamedImport stateManager value with
      | Some name =>
          if existsb (String.eqb name) names && truthy name
          then Some name else None
      | None => None
      end
  | _ => None
  end.

Module HoverHandlers.

(** The state threaded through the hover walk. [null] and [undefined] are
    both [None]: the code only tests these fields for truth and compares
    them with strings. *)
Record State := mkState {
  parentClass : list string;
  callInside : option string;
  callerIdentifier : option string;
}.

(** The hover a handler found: the CSS lines it hands to the formatter,
    joined, and the byte offsets of the range. *)
Record Found := mkFound {
  css : string;
  range_start : Z;
  range_end : Z;
}.

(** What the handlers take from outside this repository's sources:
    [dashify] and [transformValue] of stylex-utils.ts,
    [stateManager.getConstantFromScope(name)?.toString()], and, for a folded
    value that is an object of the engine, what [Array.isArray] and the loop
    over its elements make of it: [None] when it is no array, else the
    lines the loop adds for the given indentation and property name. *)
Record Environment := mkEnvironment {
  dashify : string -> string;
  transformValue : string -> Value -> string;
  constantText : string -> Completion (option string);
  engineArrayLines :
    string -> string -> HostObj -> Completion (option (list string));
}.

Definition apiNames : list string :=
  ["create"; "createTheme"; "defineVars"; "keyframes"].

Definition is_one_of (a b : string) (o : option string) : bool :=
  match o with
  | Some s => String.eqb s a || String.eqb s b
  | None => false
  end.

Definition truthy_option (o : option string) : bool :=
  match o with Some s => truthy s | None => false end.

(** [callerID?.type === "Identifier" ? callerID.value : null] *)
Definition callerName (state : State) (parent : Parent) : option string :=
  match parent with
  | VariableDeclarator id => id
  | OtherParent =>
      match callerIdentifier state with
      | Some caller =>
          if truthy caller && startsWith caller "1"
          then Some (slice1 caller) else None
      | None => None
      end
  end.

(** The [CallExpression] handler. *)
Definition callExpression (stateManager : StateManager) (callee : Node)
           (state : State) (parent : Parent) : Action State Found :=
  let outside :=
    ReturnsState (mkState (parentClass state) None
                          (callerIdentifier state)) in
  match verifiedImport stateManager apiNames callee with
  | Some name =>
      let inside :=
        mkState (parentClass state) (Some name) (callerName state parent) in
      if String.eqb name "create" || String.eqb name "keyframes"
      then ReturnsState inside
      else if String.eqb name "createTheme" || String.eqb name "defineVars"
      then ReturnsStateIgnoring
             inside
             [if String.eqb name "createTheme" then "arguments.0" else "";
              "callee"]
      else outside
  | None => outside
  end.

(** [key] in the [KeyValueProperty] handler. *)
Definition keyOf (env : Environment) (key : Node)
  : Completion (option string) :=
  match key with
  | Identifier value _ | StringLiteral value _ => Ok (Some value)
  | Computed (StringLiteral value _) => Ok (Some value)
  | Computed (Identifier value _) => constantText env value
  | _ => Ok None
  end.

(** The test on a value that is a call of [keyframes]. *)
Definition isKeyframesCall (stateManager : StateManager) (value : Node)
  : bool :=
  match value with
  | CallExpression (Identifier name _) _ _ =>
      match verifyNamedImport stateManager name with
      | Some api => String.eqb api "keyframes"
      | None => false
      end
  | CallExpression
      (MemberExpression (Identifier object _) (Identifier property _) _) _ _ =>
      verifyStylexIdentifier stateManager object
      && String.eqb property "keyframes"
  | _ => false
  end.

Definition inRule (state : State) : bool :=
  is_one_of "create" "keyframes" (callInside state).

(** [classLine] *)
Definition classLine (state : State) (key : string) : list string :=
  let root :=
    match callerIdentifier state with
    | Some caller => if truthy caller then "." ++ caller else ":root"
    | None => ":root"
    end in
  ((if inRule state then [] else [root])
     ++ (if inRule state then parentClass state else tl (parentClass state))
     ++ [key])%list.

(** [atIncluded] *)
Definition atIncluded (state : State) (key : string) : list string :=
  let ats := filter (fun className => startsWith className "@")
                    (classLine state key) in
  if is_one_of "keyframes" "keyframes" (callInside state)
  then ("@keyframes "
          ++ match callerIdentifier state with
             | Some caller => if truthy caller then caller else "unknown"
             | None => "unknown"
             end) :: ats
  else ats.

(** The callback of the [filter] in [parentSelector], with the index. *)
Fixpoint selectorParts (index : nat) (l : list string) : list string :=
  match l with
  | [] => []
  | className :: rest =>
      let keep :=
        Nat.eqb index 0
        || (negb (String.eqb className "default")
            && startsWith className ":") in
      if keep then className :: selectorParts (S index) rest
      else selectorParts (S index) rest
  end.

(** [parentSelector] *)
Definition parentSelector (state : State) (key : string) : string :=
  if is_one_of "create" "create" (callInside state) then
    let joined :=
      join "" (rev (sort_strings (selectorParts 0 (classLine state key)))) in
    "." ++ (if truthy joined then joined else "unknown")
  else hd "undefined" (classLine state key).

(** The callback of the [find] in [propertyName]. *)
Definition names_a_property (className : string) : bool :=
  negb (startsWith className ":" || startsWith className "@"
        || String.eqb className "default").

(** [propertyName] *)
Definition propertyName (state : State) (key : string) : string :=
  let found :=
    if inRule state
    then match find names_a_property (rev (classLine state key)) with
         | Some className => className
         | None => ""
         end
    else "--" ++ match parentClass state with
                 | first :: _ => if truthy first then first else key
                 | [] => key
                 end in
  if truthy found then found else "unknown".

(** The lines that open and close the at-rules, with the counter
    [indentSize] of the two loops. *)
Fixpoint openLines (ats : list string) (indentSize : nat) : list string :=
  match ats with
  | [] => []
  | atInclude :: rest =>
      (repeat_string "  " indentSize ++ atInclude ++ " {")
        :: openLines rest (S indentSize)
  end.

Fixpoint closeLines (indentSize : nat) : list string :=
  match indentSize with
  | O => []
  | S m => (repeat_string "  " m ++ "}") :: closeLines m
  end.

Section Declarations.
Variable env : Environment.
Variable indentation : string.
Variable name : string.

Definition declaration (text : string) : string :=
  indentation ++ dashify env name ++ ": " ++ text ++ ";".

Definition reference (id : string) : string :=
  if String.eqb name "animation" || String.eqb name "animationName"
  then id else "var(--" ++ id ++ ")".

(** The lines one element of a folded array adds. *)
Definition elementLines (element : Result) : list string :=
  match element with
  | Static (VString s) _ => [declaration (transformValue env name (VString s))]
  | Static (VUndefined | VNull) _ => [declaration "initial"]
  | Static (VNumber n) _ => [declaration (transformValue env name (VNumber n))]
  | Static _ _ => []
  | StaticId id _ => [declaration (reference id)]
  | NonStatic => []
  end.

(** The lines of the declarations for a folded value; [None] where the
    handler returns [States.EXIT] instead. *)
Definition declarations (staticValue : Result)
  : Completion (option (list string)) :=
  match staticValue with
  | Static (VUndefined | VNull) _ => Ok (Some [declaration "initial"])
  | Static (VString s) _ =>
      Ok (Some [declaration (transformValue env name (VString s))])
  | Static (VArray elements) _ => Ok (Some (flat_map elementLines elements))
  | Static (VHost h) _ => engineArrayLines env indentation name h
  | Static (VNumber n) _ =>
      Ok (Some [declaration (transformValue env name (VNumber n))])
  | Static _ _ => Ok None
  | StaticId id _ => Ok (Some [declaration (reference id)])
  | NonStatic => Ok None
  end.
End Declarations.

(** [cssLines] at the test of its length, for the declaration lines
    [lines]. *)
Definition cssLines (state : State) (key : string) (lines : list string)
  : list string :=
  let ats := atIncluded state key in
  let inner := repeat_string "  " (List.length ats) in
  let selector := inner ++ parentSelector state key ++ " {" in
  let closing := inner ++ "}" in
  (openLines ats 0 ++ [selector] ++ lines ++ [closing]
     ++ closeLines (List.length ats))%list.

(** [cssLines.join("\n")] *)
Definition join_lines (lines : list string) : string :=
  join (String "010" "") lines.

Section Handler.
Context {H : Host}.
Variable env : Environment.
Variable stateManager : StateManager.
Variable paramByte moduleStart : Z.

(** The [KeyValueProperty] handler. *)
Definition keyValueProperty (node : KeyValueNode) (state : State)
  : Completion (Action State Found) :=
  if truthy_option (callInside state) then
    let* key := keyOf env (kv_key node) in
    match key with
    | None => Ok ReturnsUndefined
    | Some key =>
        if negb (truthy key) then Ok ReturnsUndefined
        else
          match kv_value node with
          | ObjectExpression _ _ | ArrowFunctionExpression =>
              Ok (ReturnsState
                    (mkState (parentClass state ++ [key])%list
                             (callInside state) (callerIdentifier state)))
          | value =>
              if isKeyframesCall stateManager value then
                Ok (ReturnsState
                      (mkState [] (Some "keyframes") (Some ("1" ++ key))))
              else if (paramByte >? end_ (kv_key_span node) - moduleStart)
                      || (paramByte
                          <? start (kv_key_span node) - moduleStart)
              then Ok (ReturnsState state)
              else
                let indentation :=
                  repeat_string
                    "  " (List.length (atIncluded state key) + 1) in
                let* staticValue := evaluate value stateManager in
                let* lines :=
                  declarations env indentation (propertyName state key)
                               staticValue in
                match lines with
                | None => Ok (ReturnsExit None)
                | Some lines =>
                    let all := cssLines state key lines in
                    if (2 <? List.length all)%nat then
                      Ok (ReturnsExit
                            (Some (mkFound
                                     (join_lines all)
                                     (start (kv_key_span node) - moduleStart)
                                     (end_ (kv_key_span node) - moduleStart))))
                    else Ok (ReturnsState state)
                end
          end
    end
  else Ok (ReturnsState state).
End Handler.

End HoverHandlers.

Module CompletionHandlers.

(** The state threaded through the completion walk. *)
Record State := mkState {
  propertyName : option string;
  callInside : option string;
  propertyDeep : Z;
}.

Definition apiNames : list string :=
  ["create"; "createTheme"; "defineVars"; "keyframes"; "firstThatWorks"].

(** The [CallExpression] handler; it finds nothing itself. *)
Definition callExpression (stateManager : StateManager) (callee : Node)
           (state : State) : Action State unit :=
  let outside :=
    ReturnsState (mkState (propertyName state) None (propertyDeep state)) in
  match verifiedImport stateManager apiNames callee with
  | Some name =>
      let inside := mkState (propertyName state) (Some name) 1 in
      if String.eqb name "create" || String.eqb name "keyframes"
      then ReturnsState inside
      else if String.eqb name "createTheme" || String.eqb name "defineVars"
      then ReturnsStateIgnoring
             inside
             [if String.eqb name "createTheme" then "arguments.0" else "";
              "callee"]
      else if String.eqb name "firstThatWorks" then ReturnsUndefined
      else outside
  | None => outside
  end.

Section Handler.
(** [calculateKeyValue(node, stateManager)] of parser.ts and
    [ServerState.STYLEX_CUSTOM_PROPERTY] of server-state.ts, neither among
    the sources. *)
Variable calculateKeyValue : KeyValueNode -> option string.
Variable STYLEX_CUSTOM_PROPERTY : string.

(** The [KeyValueProperty] handler: the state object it was given, as it
    leaves it (one branch adds to [propertyDeep] in place), and what it
    returns. *)
Definition keyValueProperty (node : KeyValueNode) (state : State)
  : State * Action State unit :=
  if HoverHandlers.truthy_option (callInside state) then
    if HoverHandlers.is_one_of "create" "keyframes" (callInside state)
       && (propertyDeep state =? 2)
    then (state,
          ReturnsState (mkState (calculateKeyValue node) (callInside state) 3))
    else if HoverHandlers.is_one_of "createTheme" "defineVars"
                                    (callInside state)
    then
      let state' :=
        match kv_value node with
        | ObjectExpression _ _ =>
            mkState (propertyName state) (callInside state)
                    (propertyDeep state + 1)
        | _ => state
        end in
      (state',
       ReturnsState (mkState (Some STYLEX_CUSTOM_PROPERTY)
                             (callInside state') (propertyDeep state')))
    else (state,
          ReturnsState (mkState (propertyName state) (callInside state)
                                (propertyDeep state + 1)))
  else (state, ReturnsUndefined).

(** The state below a chain of nested properties, outermost first: each
    handler's state is the state of the next. [None] when a handler returns
    no state. *)
Fixpoint descend (path : list KeyValueNode) (state : State) : option State :=
  match path with
  | [] => Some state
  | node :: rest =>
      match snd (keyValueProperty node state) with
      | ReturnsState next => descend rest next
      | _ => None
      end
  end.
End Handler.

End CompletionHandlers.

(** An environment for closed examples: property names that are already
    dashed, string values that need no unit, numbers printed by the sample
    host, no constants in scope and no arrays of the engine's own. *)
Module SampleEnvironment.

Definition transformValue (_ : string) (v : Value) : string :=
  match v with
  | VString s => s
  | VNumber n => SampleHost.number_to_string n
  | _ => ""
  end.

Definition env : HoverHandlers.Environment :=
  HoverHandlers.mkEnvironment
    (fun name => name) transformValue (fun _ => Ok None)
    (fun _ _ _ => Ok None).

End SampleEnvironment.

(* ===================================================================== *)
(** ** An object that cannot be converted                                 *)
(* ===================================================================== *)

(** [{"toString": 1}]: the literal stores the result of [1] under
    [toString], so the object has an own [toString] that is no function. *)
Definition unprintable : Node :=
  ObjectExpression
    [KeyValueProperty (StringLiteral "toString" (sp 2 12))
                      (NumericLiteral 1 (sp 14 15))]
    (sp 1 16).

Definition unprintable_value : Value :=
  VObject (<["toString" := VResult (Static (VNumber 1) (sp 14 15))]> ∅) None.

(** [`${e}px`] *)
Definition pixels (e : Node) : Node :=
  TemplateLiteral
    (Some [mkTemplateElement (Some "") "" (sp 1 1);
           mkTemplateElement (Some "px") "px" (sp 20 22)])
    (Some [e]) (sp 0 23).

(* ===================================================================== *)
(** * Properties                                                          *)
(* ===================================================================== *)

Section ReduceFacts.
Context {A B : Type}.

Lemma reduce_app (f : B -> A -> Completion B) (l1 l2 : list A) (acc : B) :
  reduce f (l1 ++ l2)%list acc =
  match reduce f l1 acc with
  | Ok mid => reduce f l2 mid
  | Throw e => Throw e
  end.
Proof.
  revert acc. induction l1 as [|x l1 IH]; intros acc; simpl.
  - reflexivity.
  - destruct (f acc x) as [next|e]; [apply IH | reflexivity].
Qed.
End ReduceFacts.

Section ArrayFacts.
Context {H : Host}.
Variable ev : Node -> Completion Result.

(** What one element adds to the accumulator. *)
Lemma arrayCallback_returns acc (e : ExprOrSpread) r :
  ev (expression e) = Ok r ->
  exists added,
    arrayCallback ev acc (Some e) = Ok (acc ++ added)%list /\ In r added.
Proof.
  intros Hev. unfold arrayCallback. rewrite Hev.
  destruct (spread e) as [dots|].
  - destruct (is_static r); simpl.
    + exists [r]. split; [reflexivity | now left].
    + exists [r; r]. rewrite <- app_assoc. split; [reflexivity | now left].
  - exists [r]. split; [reflexivity | now left].
Qed.

(** What a spread element adds: its result once when static, whatever the
    value, and twice when not. *)
Lemma arrayCallback_spread acc (e : ExprOrSpread) (dots : Span) r :
  spread e = Some dots ->
  ev (expression e) = Ok r ->
  arrayCallback ev acc (Some e)
  = Ok (acc ++ (if is_static r then [r] else [r; r]))%list.
Proof.
  intros Hdots Hev. unfold arrayCallback. rewrite Hdots, Hev.
  destruct (is_static r); simpl; [reflexivity|].
  now rewrite <- app_assoc.
Qed.

(** When every element present evaluates, the fold returns, and what each
    element evaluates to is among the entries. *)
Lemma reduce_array_returns (elements : list (option ExprOrSpread)) :
  (forall e, In (Some e) elements -> exists r, ev (expression e) = Ok r) ->
  forall acc, exists added,
    reduce (fun a x => arrayCallback ev a x) elements acc
    = Ok (acc ++ added)%list
    /\ forall e r, In (Some e) elements -> ev (expression e) = Ok r ->
                   In r added.
Proof.
  induction elements as [|x elements IH]; intros Hall acc.
  - exists []. rewrite app_nil_r. split; [reflexivity | intros ? ? []].
  - assert (Hrest : forall e, In (Some e) elements ->
                              exists r, ev (expression e) = Ok r)
      by (intros e He; apply Hall; now right).
    destruct x as [e|]; simpl.
    + destruct (Hall e (or_introl eq_refl)) as [r Hr].
      destruct (arrayCallback_returns acc e r Hr) as [a1 [Ha1 Hin1]].
      simpl in Ha1. rewrite Ha1.
      destruct (IH Hrest (acc ++ a1)%list) as [a2 [Ha2 Hin2]].
      exists (a1 ++ a2)%list. rewrite app_assoc. split; [exact Ha2|].
      intros e' r' [Heq | Hin] Hev'.
      * injection Heq as <-. rewrite Hr in Hev'. injection Hev' as <-.
        apply in_or_app. now left.
      * apply in_or_app. right. eapply Hin2; eassumption.
    + destruct (IH Hrest acc) as [a2 [Ha2 Hin2]].
      exists a2. split; [exact Ha2|].
      intros e' r' [Heq | Hin] Hev'; [discriminate|].
      eapply Hin2; eassumption.
Qed.

(** Arguments without dots: one entry each, in order. *)
Lemma reduce_plain (args : list ExprOrSpread) (rs : list Result) :
  forallb plain args = true ->
  Forall2 (fun a r => ev (expression a) = Ok r) args rs ->
  forall acc,
    reduce (fun a x => arrayCallback ev a (Some x)) args acc
    = Ok (acc ++ rs)%list.
Proof.
  intros Hplain Hall. induction Hall as [|a r args rs Hr _ IH]; intros acc.
  - simpl. now rewrite app_nil_r.
  - simpl in Hplain. apply andb_prop in Hplain as [Ha Hargs].
    simpl. unfold plain in Ha. destruct (spread a); [discriminate|].
    rewrite Hr. rewrite (IH Hargs). now rewrite <- app_assoc.
Qed.
End ArrayFacts.

Section ObjectFacts.
Context {H : Host}.
Variable ev : Node -> Completion Result.

Lemma objectCallback_returns acc (p : Property) :
  (forall n, In n (property_nodes p) -> exists r, ev n = Ok r) ->
  exists acc', objectCallback ev acc p = Ok acc'.
Proof.
  intros Hall. destruct p as [a|k v|k v| | | |name s]; simpl in *.
  - destruct (Hall a (or_introl eq_refl)) as [r ->].
    destruct r; eauto.
  - destruct (Hall k (or_introl eq_refl)) as [rk ->].
    destruct (property_key rk); [|eauto].
    destruct (Hall v (or_intror (or_introl eq_refl))) as [rv ->]. eauto.
  - destruct (Hall k (or_introl eq_refl)) as [rk ->].
    destruct (property_key rk); [|eauto].
    destruct (Hall v (or_intror (or_introl eq_refl))) as [rv ->]. eauto.
  - eauto.
  - eauto.
  - eauto.
  - destruct (negb _); eauto.
Qed.

Lemma reduce_object_returns (properties : list Property) :
  (forall p n, In p properties -> In n (property_nodes p) ->
               exists r, ev n = Ok r) ->
  forall acc, exists acc',
    reduce (objectCallback ev) properties acc = Ok acc'.
Proof.
  induction properties as [|p properties IH]; intros Hall acc; simpl.
  - eauto.
  - destruct (objectCallback_returns acc p) as [mid ->].
    + intros n Hn. apply (Hall p n); [now left | exact Hn].
    + apply IH. intros q n Hq Hn. apply (Hall q n); [now right | exact Hn].
Qed.
End ObjectFacts.

Section BinaryFacts.
Context {H : Host}.

Lemma typeof_undefined (v : Value) :
  String.eqb (typeof v) "undefined" = true <-> v = VUndefined.
Proof.
  split.
  - destruct v; simpl; try discriminate; try reflexivity.
    destruct (is_callable h); discriminate.
  - intros ->. reflexivity.
Qed.

(** The test of the code is the negation of [homogeneous]. *)
Lemma mismatched_homogeneous (l r : Value) :
  mismatched l r = negb (homogeneous l r).
Proof.
  unfold mismatched.
  destruct l, r; simpl; try reflexivity;
    repeat match goal with
           | |- context [is_callable ?h] => destruct (is_callable h); simpl
           end; reflexivity.
Qed.

Lemma numeric_first_switch (op : BinaryOperator) (l r : Value) :
  numeric_operator op = true -> binaryFirstSwitch op l r = Ok VUndefined.
Proof. destruct op; simpl; (discriminate || reflexivity). Qed.
End BinaryFacts.

Section EvaluateFacts.
Context {H : Host}.
Variable stateManager : StateManager.

Local Abbreviation ev := (fun n => evaluate n stateManager).

Lemma evaluate_binary (op : BinaryOperator) (l r : Node) (span : Span) :
  evaluate (BinaryExpression op l r span) stateManager =
  match evaluate l stateManager with
  | Ok left_ =>
      match evaluate r stateManager with
      | Ok right_ => evaluateBinary op left_ right_ span
      | Throw e => Throw e
      end
  | Throw e => Throw e
  end.
Proof. reflexivity. Qed.

Lemma evaluate_unary (op : UnaryOperator) (argument : Node) (span : Span) :
  evaluate (UnaryExpression op argument span) stateManager =
  match evaluate argument stateManager with
  | Ok result => evaluateUnary op result span
  | Throw e => Throw e
  end.
Proof. reflexivity. Qed.

Lemma evaluate_array (elements : list (option ExprOrSpread)) (span : Span) :
  evaluate (ArrayExpression elements span) stateManager =
  match reduce (fun a x => arrayCallback ev a x) elements [] with
  | Ok result => Ok (Static (VArray result) span)
  | Throw e => Throw e
  end.
Proof. reflexivity. Qed.

Lemma evaluate_object (properties : list Property) (span : Span) :
  evaluate (ObjectExpression properties span) stateManager =
  match reduce (objectCallback ev) properties (∅, None) with
  | Ok result => Ok (Static (VObject (fst result) (snd result)) span)
  | Throw e => Throw e
  end.
Proof. reflexivity. Qed.

Lemma evaluate_call (callee : Node) (args : list ExprOrSpread)
      (span : Span) :
  evaluate (CallExpression callee args span) stateManager =
  if isFirstThatWorks stateManager callee then
    match reduce (fun a x => arrayCallback ev a (Some x)) args [] with
    | Ok result => Ok (Static (VArray (rev result)) span)
    | Throw e => Throw e
    end
  else Ok NonStatic.
Proof.
  cbn [evaluate]. destruct (isFirstThatWorks stateManager callee);
    [|reflexivity].
  unfold processArrayExpressionWith.
  destruct (reduce _ args []); reflexivity.
Qed.

Lemma evaluate_member (object property : Node) (span : Span) :
  evaluate (MemberExpression object property span) stateManager =
  match evaluate object stateManager with
  | Ok o =>
      if negb (is_static o) then Ok NonStatic
      else match evaluate property stateManager with
           | Ok p => if negb (is_static p) then Ok NonStatic
                     else evaluateMember o p span
           | Throw e => Throw e
           end
  | Throw e => Throw e
  end.
Proof. reflexivity. Qed.

Lemma evaluate_template (quasis : list TemplateElementT)
      (expressions : list Node) (span : Span) :
  evaluate (TemplateLiteral (Some quasis) (Some expressions) span)
           stateManager =
  match templateLoopWith ev expressions quasis [] with
  | Ok (Some values) =>
      match join_empty values with
      | Ok text => Ok (Static (VString text) span)
      | Throw e => Throw e
      end
  | Ok None => Ok NonStatic
  | Throw e => Throw e
  end.
Proof. reflexivity. Qed.

(** A binary expression with an operand that is not static, or that is a
    symbolic reference, is not static. *)
Lemma binary_not_static (op : BinaryOperator) (rl rr : Result)
      (span : Span) :
  is_static rl = false \/ has_id rl = true
  \/ is_static rr = false \/ has_id rr = true ->
  evaluateBinary op rl rr span = Ok NonStatic.
Proof.
  unfold evaluateBinary.
  destruct rl, rr; simpl; try reflexivity.
  intros [F|[F|[F|F]]]; discriminate.
Qed.

(** The [MemberExpression] case on a static, non-symbolic object. *)
Lemma member_of_value (object property : Node) (span so : Span)
      (v : Value) (p : Result) :
  evaluate object stateManager = Ok (Static v so) ->
  evaluate property stateManager = Ok p ->
  is_static p = true ->
  evaluate (MemberExpression object property span) stateManager =
  if is_nullish v then Ok (Static v span)
  else match (match p with
              | StaticId id _ => VString id
              | Static k _ => k
              | NonStatic => VUndefined
              end) with
       | VString k =>
           match js_get v k with
           | Ok x => Ok (Static x span)
           | Throw e => Throw e
           end
       | _ => Ok (Static VUndefined span)
       end.
Proof.
  intros Ho Hp Hs. rewrite evaluate_member, Ho, Hp. simpl. rewrite Hs.
  reflexivity.
Qed.

(** A recognised callee passes the test of the code. *)
Lemma recognized_isFirstThatWorks (callee : Node) :
  recognized stateManager callee ->
  isFirstThatWorks stateManager callee = true.
Proof.
  intros [(o & s1 & s2 & s3 & -> & Hv) | (name & s & -> & Hn)]; simpl.
  - now rewrite Hv.
  - now rewrite Hn.
Qed.

(** Calls whose arguments have no dots fold to the evaluations of the
    arguments, last first. *)
Lemma call_plain_arguments (callee : Node) (args : list ExprOrSpread)
      (rs : list Result) (span : Span) :
  recognized stateManager callee ->
  forallb plain args = true ->
  Forall2 (fun a r => evaluate (expression a) stateManager = Ok r) args rs ->
  evaluate (CallExpression callee args span) stateManager
  = Ok (Static (VArray (rev rs)) span).
Proof.
  intros Hc Hplain Hall.
  rewrite evaluate_call, (recognized_isFirstThatWorks callee Hc).
  now rewrite (reduce_plain ev args rs Hplain Hall []).
Qed.

End EvaluateFacts.

(* --------------------------------------------------------------------- *)
(** ** C1, C2: where the code leaves the specification                    *)

(** C1 (the code departs from the claim). For the array
    [[1, ...(c ? [2,3] : [4]), 5]]: with [c] the literal [true], the spread
    operand folds to the static sequence [[2,3]] and the code stores that
    sequence as one entry, so the result has three entries, not the four of
    [[1,2,3,5]]; with [c] an identifier, the operand is not static and the
    code stores it twice, so the spread contributes two non-static entries,
    not one. *)
Theorem C1_spread_is_not_flattened (H : Host) (stateManager : StateManager) :
  evaluate (spreadOfConditional (BooleanLiteral true (sp 4 8))) stateManager
  = Ok (Static
          (VArray
             [Static (VNumber 1) (sp 0 1);
              Static (VArray [Static (VNumber 2) (sp 0 1);
                              Static (VNumber 3) (sp 0 1)]) (sp 14 20);
              Static (VNumber 5) (sp 0 1)])
          (sp 0 30))
  /\ evaluate (spreadOfConditional (Identifier "cond" (sp 4 8))) stateManager
     = Ok (Static
             (VArray [Static (VNumber 1) (sp 0 1); NonStatic; NonStatic;
                      Static (VNumber 5) (sp 0 1)])
             (sp 0 30)).
Proof. split; reflexivity. Qed.

Lemma minus_unprintable_throws (H : Host) (stateManager : StateManager)
      (span : Span) :
  to_primitive HintNumber unprintable_value = Throw TypeError ->
  evaluate (UnaryExpression UMinus (ParenthesisExpression unprintable) span)
           stateManager
  = Throw TypeError.
Proof.
  intros Hthrow. rewrite evaluate_unary.
  change (evaluate (ParenthesisExpression unprintable) stateManager)
    with (Ok (Static unprintable_value (sp 1 16))).
  unfold evaluateUnary, js_minus, ToNumeric, ToPrimitive.
  change (is_nullish unprintable_value) with false.
  change (is_object unprintable_value) with true.
  cbv iota. now rewrite Hthrow.
Qed.

(** C2 (the code departs from the claim). No node of [-({"toString": 1})],
    [~({"toString": 1})] and [({"toString": 1}) < 1] is [Invalid], and the
    operand [{"toString": 1}] folds to a static object; yet in any engine
    that throws a TypeError when it converts to a number an object whose
    [toString] is no function (ECMA-262 7.1.1.1), folding each of the three
    throws that TypeError: the operators are applied outside any
    [try]. *)
Theorem C2_operator_folding_throws (H : Host) (stateManager : StateManager) :
  to_primitive HintNumber unprintable_value = Throw TypeError ->
  evaluate unprintable stateManager
  = Ok (Static unprintable_value (sp 1 16))
  /\ evaluate (UnaryExpression UMinus (ParenthesisExpression unprintable)
                               (sp 0 17)) stateManager
     = Throw TypeError
  /\ evaluate (UnaryExpression UTilde (ParenthesisExpression unprintable)
                               (sp 0 17)) stateManager
     = Throw TypeError
  /\ evaluate (BinaryExpression OpLt (ParenthesisExpression unprintable)
                                (number 1) (sp 0 21)) stateManager
     = Throw TypeError.
Proof.
  intros Hthrow.
  assert (Hobject : evaluate unprintable stateManager
                    = Ok (Static unprintable_value (sp 1 16)))
    by reflexivity.
  split; [exact Hobject|].
  repeat split.
  - now apply minus_unprintable_throws.
  - rewrite evaluate_unary.
    change (evaluate (ParenthesisExpression unprintable) stateManager)
      with (evaluate unprintable stateManager).
    rewrite Hobject. unfold evaluateUnary, js_bitnot, ToNumeric, ToPrimitive.
    change (is_nullish unprintable_value) with false.
    change (is_object unprintable_value) with true.
    cbv iota. now rewrite Hthrow.
  - rewrite evaluate_binary.
    change (evaluate (ParenthesisExpression unprintable) stateManager)
      with (evaluate unprintable stateManager).
    rewrite Hobject.
    change (evaluate (number 1) stateManager)
      with (Ok (Static (VNumber 1) (sp 0 1))).
    cbv iota. unfold evaluateBinary. cbn [is_static has_id orb negb].
    unfold binaryFirstSwitch.
    change (is_nullish unprintable_value) with false.
    cbn [is_nullish orb].
    unfold js_lt, IsLessThan, ToPrimitive.
    change (is_object unprintable_value) with true.
    cbv iota. now rewrite Hthrow.
Qed.

Lemma C2_witness :
  evaluate (H := SampleHost.host) unprintable stylexImported
  = Ok (Static unprintable_value (sp 1 16))
  /\ evaluate (H := SampleHost.host)
              (UnaryExpression UMinus (ParenthesisExpression unprintable)
                               (sp 0 17)) stylexImported
     = Throw TypeError
  /\ evaluate (H := SampleHost.host)
              (UnaryExpression UTilde (ParenthesisExpression unprintable)
                               (sp 0 17)) stylexImported
     = Throw TypeError
  /\ evaluate (H := SampleHost.host)
              (BinaryExpression OpLt (ParenthesisExpression unprintable)
                                (number 1) (sp 0 21)) stylexImported
     = Throw TypeError.
Proof.
  apply (C2_operator_folding_throws SampleHost.host stylexImported).
  reflexivity.
Defined.

(* --------------------------------------------------------------------- *)
(** ** C4: operands of different types                                    *)

(** C4. A binary expression with a bit, shift or arithmetic operator whose
    operands evaluate to static values that are not two numbers, two
    bigints or two strings evaluates, without raising, to the static value
    [undefined] with the span of the node. *)
Theorem C4_mismatched_operands_fold_to_undefined
        (H : Host) (stateManager : StateManager)
        (op : BinaryOperator) (l r : Node) (span sl sr : Span)
        (lv rv : Value) :
  numeric_operator op = true ->
  evaluate l stateManager = Ok (Static lv sl) ->
  evaluate r stateManager = Ok (Static rv sr) ->
  homogeneous lv rv = false ->
  evaluate (BinaryExpression op l r span) stateManager
  = Ok (Static VUndefined span).
Proof.
  intros Hop Hl Hr Hmis.
  rewrite evaluate_binary, Hl, Hr. unfold evaluateBinary. simpl.
  rewrite (numeric_first_switch op lv rv Hop). simpl.
  now rewrite mismatched_homogeneous, Hmis.
Qed.

Lemma C4_witness :
  evaluate (H := SampleHost.host)
           (BinaryExpression OpAdd (number 1) (StringLiteral "px" (sp 4 8))
                             (sp 0 8)) stylexImported
  = Ok (Static VUndefined (sp 0 8)).
Proof.
  apply (C4_mismatched_operands_fold_to_undefined
           SampleHost.host stylexImported OpAdd _ _ (sp 0 8) (sp 0 1) (sp 4 8)
           (VNumber 1) (VString "px")); reflexivity.
Defined.

(* --------------------------------------------------------------------- *)
(** ** C7: what a non-static part does to the whole                       *)

(** C7 (the code departs from the claim). (1) An operand that throws makes
    the binary expression throw, also beside an operand that evaluates to a
    non-static result: in any engine that throws a TypeError when it
    converts to a number an object whose [toString] is no function,
    [this + -({"toString": 1})] throws and is not folded to a non-static
    result. (2) An object expression does not keep its non-static children:
    a property whose key is an identifier is dropped with its value,
    whatever the value, and so is a spread of a non-static operand, so
    [{color: this}], [{...this}] and [{color: this, ...this}] all fold to
    the empty object. *)
Theorem C7_non_static_children_are_lost
        (H : Host) (stateManager : StateManager) :
  (to_primitive HintNumber unprintable_value = Throw TypeError ->
   evaluate ThisExpression stateManager = Ok NonStatic
   /\ evaluate (BinaryExpression
                  OpAdd ThisExpression
                  (UnaryExpression UMinus (ParenthesisExpression unprintable)
                                   (sp 7 24))
                  (sp 0 24)) stateManager
      = Throw TypeError)
  /\ (forall name key_span value span,
         evaluate (ObjectExpression
                     [KeyValueProperty (Identifier name key_span) value] span)
                  stateManager
         = Ok (Static (VObject ∅ None) span))
  /\ (forall span,
         evaluate (ObjectExpression [SpreadElement ThisExpression] span)
                  stateManager
         = Ok (Static (VObject ∅ None) span))
  /\ (forall name key_span span,
         evaluate (ObjectExpression
                     [KeyValueProperty (Identifier name key_span)
                                       ThisExpression;
                      SpreadElement ThisExpression] span)
                  stateManager
         = Ok (Static (VObject ∅ None) span)).
Proof.
  split; [|split; [|split]].
  - intros Hthrow. split; [reflexivity|].
    rewrite evaluate_binary.
    now rewrite (minus_unprintable_throws H stateManager (sp 7 24) Hthrow).
  - intros name key_span value span. rewrite evaluate_object. simpl.
    unfold evaluateIdentifier.
    destruct (String.eqb name "undefined"); reflexivity.
  - intros span. reflexivity.
  - intros name key_span span. rewrite evaluate_object. simpl.
    unfold evaluateIdentifier.
    destruct (String.eqb name "undefined"); reflexivity.
Qed.

Lemma C7_witness :
  (evaluate (H := SampleHost.host) ThisExpression stylexImported
   = Ok NonStatic
   /\ evaluate (H := SampleHost.host)
               (BinaryExpression
                  OpAdd ThisExpression
                  (UnaryExpression UMinus (ParenthesisExpression unprintable)
                                   (sp 7 24))
                  (sp 0 24)) stylexImported
      = Throw TypeError)
  /\ evaluate (H := SampleHost.host)
              (ObjectExpression
                 [KeyValueProperty (Identifier "color" (sp 1 6))
                                   ThisExpression;
                  SpreadElement ThisExpression] (sp 0 23))
              stylexImported
     = Ok (Static (VObject ∅ None) (sp 0 23)).
Proof.
  destruct (C7_non_static_children_are_lost SampleHost.host stylexImported)
    as (Hbinary & _ & _ & Hobject).
  split; [apply Hbinary; reflexivity | apply Hobject].
Defined.

(** X25. (1) A binary expression both of whose operands return, one of them
    a non-static result or a symbolic reference, evaluates to a non-static
    result, whatever the operator. (2) An array expression whose elements
    return is static with the span of the node, and the result of every
    element, non-static ones included, is among its entries. (3) An object
    expression whose parts return is static with the span of the node. *)
Theorem X25_non_static_parts_when_all_parts_return
        (H : Host) (stateManager : StateManager) :
  (forall op l r span rl rr,
      evaluate l stateManager = Ok rl ->
      evaluate r stateManager = Ok rr ->
      is_static rl = false \/ has_id rl = true
      \/ is_static rr = false \/ has_id rr = true ->
      evaluate (BinaryExpression op l r span) stateManager = Ok NonStatic)
  /\ (forall elements span,
         (forall e, In (Some e) elements ->
                    exists r, evaluate (expression e) stateManager = Ok r) ->
         exists entries,
           evaluate (ArrayExpression elements span) stateManager
           = Ok (Static (VArray entries) span)
           /\ forall e r, In (Some e) elements ->
                          evaluate (expression e) stateManager = Ok r ->
                          In r entries)
  /\ (forall properties span,
         (forall p n, In p properties -> In n (property_nodes p) ->
                      exists r, evaluate n stateManager = Ok r) ->
         exists props proto,
           evaluate (ObjectExpression properties span) stateManager
           = Ok (Static (VObject props proto) span)).
Proof.
  split; [|split].
  - intros op l r span rl rr Hl Hr Hns.
    rewrite evaluate_binary, Hl, Hr. now apply binary_not_static.
  - intros elements span Hall.
    destruct (reduce_array_returns (fun n => evaluate n stateManager)
                                   elements Hall [])
      as [entries [Hred Hin]].
    exists entries. rewrite evaluate_array, Hred. split; [reflexivity|exact Hin].
  - intros properties span Hall.
    destruct (reduce_object_returns (fun n => evaluate n stateManager)
                                    properties Hall (∅, None))
      as [acc Hred].
    exists (fst acc), (snd acc). now rewrite evaluate_object, Hred.
Qed.

Lemma X25_witness :
  evaluate (H := SampleHost.host)
           (BinaryExpression OpAdd ThisExpression (number 1) (sp 0 8))
           stylexImported
  = Ok NonStatic
  /\ (exists entries,
      evaluate (H := SampleHost.host)
               (ArrayExpression [plainElement ThisExpression;
                                 plainElement (number 1)] (sp 0 9))
               stylexImported
      = Ok (Static (VArray entries) (sp 0 9))
      /\ In NonStatic entries)
  /\ exists props proto,
      evaluate (H := SampleHost.host)
               (ObjectExpression
                  [KeyValueProperty (StringLiteral "color" (sp 2 9))
                                    ThisExpression] (sp 0 17))
               stylexImported
      = Ok (Static (VObject props proto) (sp 0 17)).
Proof.
  destruct (X25_non_static_parts_when_all_parts_return
              SampleHost.host stylexImported)
    as (Hbinary & Harray & Hobject).
  split; [|split].
  - apply (Hbinary OpAdd ThisExpression (number 1) (sp 0 8)
                   NonStatic (Static (VNumber 1) (sp 0 1)));
      [reflexivity | reflexivity | left; reflexivity].
  - destruct (Harray [plainElement ThisExpression; plainElement (number 1)]
                     (sp 0 9)) as [entries [Heval Hin]].
    + intros e [He | [He | []]]; injection He as <-; eexists; reflexivity.
    + exists entries. split; [exact Heval|].
      apply (Hin (mkExprOrSpread None ThisExpression));
        [left; reflexivity | reflexivity].
  - apply (Hobject [KeyValueProperty (StringLiteral "color" (sp 2 9))
                                     ThisExpression] (sp 0 17)).
    intros p n [Hp | []] Hn. subst p.
    destruct Hn as [Hn | [Hn | []]]; subst n; eexists; reflexivity.
Defined.

(* --------------------------------------------------------------------- *)
(** ** C3: the operators of the first switch                              *)

Section FirstSwitchFacts.
Context {H : Host}.

(** When [result] is one of the operands, the code returns it: if it is
    [undefined], the test on the operand types sends it back too. *)
Lemma operand_result (l r v : Value) (span : Span)
      (rest : Completion Result) :
  v = l \/ v = r ->
  (if negb (String.eqb (typeof v) "undefined") then Ok (Static v span)
   else if mismatched l r then Ok (Static VUndefined span) else rest)
  = Ok (Static v span).
Proof.
  intros Hv. destruct (String.eqb (typeof v) "undefined") eqn:E; simpl.
  - apply typeof_undefined in E. subst v.
    rewrite mismatched_homogeneous.
    destruct Hv as [<- | <-]; [reflexivity | now destruct l].
  - reflexivity.
Qed.
End FirstSwitchFacts.




(* --------------------------------------------------------------------- *)
(** ** C5: firstThatWorks                                                 *)

(** C5 (the code departs from the claim). In [stylex.firstThatWorks(1, 2,
    ...f())] the third argument evaluates to one non-static result, and the
    folded sequence holds it twice: four entries for three arguments. *)
Theorem C5_non_static_spread_argument_is_doubled (H : Host) :
  let call :=
    CallExpression
      (MemberExpression (Identifier "stylex" (sp 0 6))
                        (Identifier "firstThatWorks" (sp 7 21)) (sp 0 21))
      [mkExprOrSpread None (number 1);
       mkExprOrSpread None (number 2);
       mkExprOrSpread (Some (sp 28 31))
                      (CallExpression (Identifier "f" (sp 31 32)) []
                                      (sp 31 34))]
      (sp 0 35) in
  evaluate (CallExpression (Identifier "f" (sp 31 32)) [] (sp 31 34))
           stylexImported
  = Ok NonStatic
  /\ evaluate call stylexImported
     = Ok (Static (VArray [NonStatic; NonStatic;
                           Static (VNumber 2) (sp 0 1);
                           Static (VNumber 1) (sp 0 1)])
                  (sp 0 35)).
Proof. split; reflexivity. Qed.

(* --------------------------------------------------------------------- *)
(** ** C6: template literals                                              *)

Section TemplateFacts.
Context {H : Host}.

Lemma pushed_text (r : Result) :
  is_static r = true -> join_piece (pushed r) = expression_text r.
Proof.
  destruct r as [|value span|id span]; simpl;
    [discriminate | | reflexivity].
  intros _. destruct value; reflexivity.
Qed.

(** The loop on a well-formed template whose expressions are static: it
    runs to the end, and the values it pushed join to the interleaving. *)
Lemma templateLoop_static (ev : Node -> Completion Result)
      (expressions : list Node) :
  forall (quasis : list TemplateElementT) (results : list Result)
         (texts : list string) (values : list Value),
    List.length quasis = S (List.length expressions) ->
    Forall2 (fun e r => ev e = Ok r /\ is_static r = true)
            expressions results ->
    Forall2 (fun r t => expression_text r = Ok t) results texts ->
    exists pushed_values,
      templateLoopWith ev expressions quasis values
      = Ok (Some (values ++ pushed_values)%list)
      /\ join_empty pushed_values
         = Ok (concat_all (interleave (List.map quasi_text quasis) texts)).
Proof.
  induction expressions as [|e expressions IH];
    intros quasis results texts values Hlen Hev Htext.
  - destruct quasis as [|q [|q' quasis]]; try discriminate Hlen.
    inversion Hev; subst. inversion Htext; subst.
    exists [VString (quasi_text q)]. split; reflexivity.
  - destruct quasis as [|q quasis]; [discriminate Hlen|].
    injection Hlen as Hlen.
    inversion Hev as [|e' r es rs [Hr Hs] Hrest]; subst.
    inversion Htext as [|r' t rs' ts Ht Htexts]; subst.
    destruct (IH quasis rs ts
                 ((values ++ [VString (quasi_text q)]) ++ [pushed r])%list
                 Hlen Hrest Htexts)
      as [pv [Hloop Hjoin]].
    exists (VString (quasi_text q) :: pushed r :: pv). split.
    + simpl. rewrite Hr.
      destruct r; [discriminate Hs | |];
        simpl in Hloop |- *; fold (quasi_text q);
        rewrite Hloop; now rewrite <- !app_assoc.
    + cbn [join_empty].
      change (join_piece (VString (quasi_text q))) with (Ok (A:=string) (quasi_text q)).
      rewrite (pushed_text r Hs), Ht, Hjoin. reflexivity.
Qed.
End TemplateFacts.

(** C6 (the code departs from the claim). The quasis of [`${e}px`] fold to
    static strings, and with [e] the literal [{"toString": 1}] the embedded
    expression folds to a static object; yet in any engine that throws a
    TypeError when it converts to a string an object whose [toString] is no
    function, the template throws that TypeError: [values.join("")] is
    called outside any [try]. And the join leaves [undefined] out:
    [`${undefined}px`] folds to [px]. *)
Theorem C6_template_join_throws (H : Host) (stateManager : StateManager) :
  to_primitive HintString unprintable_value = Throw TypeError ->
  evaluate unprintable stateManager
  = Ok (Static unprintable_value (sp 1 16))
  /\ evaluate (pixels unprintable) stateManager = Throw TypeError
  /\ evaluate (pixels (Identifier "undefined" (sp 3 12))) stateManager
     = Ok (Static (VString "px") (sp 0 23)).
Proof.
  intros Hthrow. split; [reflexivity|]. split; [|reflexivity].
  unfold pixels. rewrite evaluate_template.
  assert (Hloop :
    templateLoopWith (fun n => evaluate n stateManager) [unprintable]
                     [mkTemplateElement (Some "") "" (sp 1 1);
                      mkTemplateElement (Some "px") "px" (sp 20 22)] []
    = Ok (Some [VString ""; unprintable_value; VString "px"]))
    by reflexivity.
  rewrite Hloop. cbv iota.
  unfold join_empty, join_piece at 2, ToString, ToPrimitive.
  change (is_nullish unprintable_value) with false.
  change (is_object unprintable_value) with true.
  cbv iota. rewrite Hthrow. reflexivity.
Qed.

Lemma C6_witness :
  evaluate (H := SampleHost.host) unprintable stylexImported
  = Ok (Static unprintable_value (sp 1 16))
  /\ evaluate (H := SampleHost.host) (pixels unprintable) stylexImported
     = Throw TypeError
  /\ evaluate (H := SampleHost.host)
              (pixels (Identifier "undefined" (sp 3 12))) stylexImported
     = Ok (Static (VString "px") (sp 0 23)).
Proof.
  apply (C6_template_join_throws SampleHost.host stylexImported).
  reflexivity.
Defined.

(** X24. A template literal with one quasi more than it has expressions, all
    of whose expressions evaluate to static results whose values the engine
    converts to strings, evaluates to the static string that puts the quasi
    texts and the texts of the expressions one after the other in source
    order, with the span of the node: a symbolic reference [id] contributes
    [var(--id)], [undefined] and [null] nothing, any other value its
    conversion to a string. *)
Theorem X24_template_interleaves
        (H : Host) (stateManager : StateManager)
        (quasis : list TemplateElementT) (expressions : list Node)
        (span : Span) (results : list Result) (texts : list string) :
  List.length quasis = S (List.length expressions) ->
  Forall2 (fun e r => evaluate e stateManager = Ok r /\ is_static r = true)
          expressions results ->
  Forall2 (fun r t => expression_text r = Ok t) results texts ->
  evaluate (TemplateLiteral (Some quasis) (Some expressions) span)
           stateManager
  = Ok (Static
          (VString (concat_all
                      (interleave (List.map quasi_text quasis) texts)))
          span).
Proof.
  intros Hlen Hev Htext. rewrite evaluate_template.
  destruct (templateLoop_static (fun n => evaluate n stateManager)
                                expressions quasis results texts []
                                Hlen Hev Htext)
    as [pv [Hloop Hjoin]].
  rewrite Hloop. simpl. now rewrite Hjoin.
Qed.

(** [`${color}px`] with [color] a symbolic reference. *)
Lemma X24_witness :
  evaluate (H := SampleHost.host)
           (TemplateLiteral
              (Some [mkTemplateElement (Some "") "" (sp 1 1);
                     mkTemplateElement (Some "px") "px" (sp 9 11)])
              (Some [Identifier "color" (sp 3 8)]) (sp 0 12))
           stylexImported
  = Ok (Static (VString "var(--color)px") (sp 0 12)).
Proof.
  refine (X24_template_interleaves
            SampleHost.host stylexImported
            [mkTemplateElement (Some "") "" (sp 1 1);
             mkTemplateElement (Some "px") "px" (sp 9 11)]
            [Identifier "color" (sp 3 8)] (sp 0 12)
            [StaticId "color" (sp 3 8)] ["var(--color)"] _ _ _).
  - reflexivity.
  - repeat constructor.
  - repeat constructor.
Defined.

(* --------------------------------------------------------------------- *)
(** ** C9: member expressions on folded values                            *)

(** C9 (the code departs from the claim). The read [v[k]] is not guarded:
    where the engine's getter throws, so does [evaluate]. In any engine that
    finds the constructor [f] of a string on its prototype and whose
    inherited accessor [caller] of [f] throws a TypeError, the object
    ["abc".constructor] evaluates to a static value, the property [caller]
    to a static key, and ["abc".constructor.caller] throws. *)
Theorem C9_member_read_can_throw
        (H : Host) (stateManager : StateManager) (f : HostObj) :
  get_inherited (VString "abc") "constructor" = Ok (VHost f) ->
  get_inherited (VHost f) "caller" = Throw TypeError ->
  evaluate (MemberExpression (StringLiteral "abc" (sp 0 5))
                             (Identifier "constructor" (sp 6 17)) (sp 0 17))
           stateManager
  = Ok (Static (VHost f) (sp 0 17))
  /\ evaluate (Identifier "caller" (sp 18 24)) stateManager
     = Ok (StaticId "caller" (sp 18 24))
  /\ evaluate callerOfConstructor stateManager = Throw TypeError.
Proof.
  intros Hconstructor Hcaller.
  assert (Hobject :
            evaluate (MemberExpression (StringLiteral "abc" (sp 0 5))
                                       (Identifier "constructor" (sp 6 17))
                                       (sp 0 17)) stateManager
            = Ok (Static (VHost f) (sp 0 17))).
  { rewrite (member_of_value stateManager _ _ (sp 0 17) (sp 0 5)
                             (VString "abc")
                             (StaticId "constructor" (sp 6 17)));
      try reflexivity.
    simpl. unfold js_get. simpl. now rewrite Hconstructor. }
  split; [exact Hobject | split; [reflexivity|]].
  unfold callerOfConstructor.
  rewrite (member_of_value stateManager _ _ (sp 0 24) (sp 0 17) (VHost f)
                           (StaticId "caller" (sp 18 24)) Hobject);
    try reflexivity.
  simpl. unfold js_get. simpl. now rewrite Hcaller.
Qed.

Lemma C9_witness :
  evaluate (H := SampleHost.host)
           (MemberExpression (StringLiteral "abc" (sp 0 5))
                             (Identifier "constructor" (sp 6 17)) (sp 0 17))
           stylexImported
  = Ok (Static (VHost "%String%") (sp 0 17))
  /\ evaluate (H := SampleHost.host) (Identifier "caller" (sp 18 24))
              stylexImported
     = Ok (StaticId "caller" (sp 18 24))
  /\ evaluate (H := SampleHost.host) callerOfConstructor stylexImported
     = Throw TypeError.
Proof.
  apply (C9_member_read_can_throw SampleHost.host stylexImported "%String%");
    reflexivity.
Defined.

(* --------------------------------------------------------------------- *)
(** ** C8: the wildcard handler of the two walks                          *)

(** C8. On a node whose span does not start after it ends, the condition of
    the wildcard handler asks the cursor to lie before the start and after
    the end at once; it never holds, so the handler of the hover walk and
    the handler of the completion walk return nothing, and neither makes the
    walker skip the children of the node. *)
Theorem C8_wildcard_never_prunes
        (paramByte moduleStart : Z) (node : WalkNode) :
  (forall span, node_span node = Some span -> start span <= end_ span) ->
  (forall span, node_span node = Some span ->
                (paramByte <? start span - moduleStart)
                && (paramByte >? end_ span - moduleStart) = false)
  /\ Hover.wildcard paramByte moduleStart node = ReturnsNothing
  /\ Completions.wildcard paramByte moduleStart node = ReturnsNothing
  /\ skips_children (Hover.wildcard paramByte moduleStart node) = false
  /\ skips_children (Completions.wildcard paramByte moduleStart node) = false.
Proof.
  intros Hspan.
  assert (Hcond : forall span, node_span node = Some span ->
                    (paramByte <? start span - moduleStart)
                    && (paramByte >? end_ span - moduleStart) = false).
  { intros span Hs. specialize (Hspan span Hs).
    apply andb_false_iff.
    destruct (Z.ltb_spec paramByte (start span - moduleStart));
      [right | now left].
    rewrite Z.gtb_ltb. apply Z.ltb_ge. lia. }
  assert (Hhover : Hover.wildcard paramByte moduleStart node = ReturnsNothing).
  { unfold Hover.wildcard. destruct (node_span node) as [span|] eqn:E;
      [|reflexivity].
    rewrite <- andb_assoc, (Hcond span eq_refl), andb_false_r. reflexivity. }
  assert (Hcompletion :
            Completions.wildcard paramByte moduleStart node = ReturnsNothing).
  { unfold Completions.wildcard. destruct (node_span node) as [span|] eqn:E;
      [|reflexivity].
    rewrite <- andb_assoc, (Hcond span eq_refl), andb_false_r. reflexivity. }
  repeat split; try assumption.
  - now rewrite Hhover.
  - now rewrite Hcompletion.
Qed.

Lemma C8_witness :
  Hover.wildcard 5 0 (mkWalkNode "Identifier" (Some (sp 10 20)))
  = ReturnsNothing
  /\ Completions.wildcard 25 0 (mkWalkNode "Identifier" (Some (sp 10 20)))
     = ReturnsNothing.
Proof.
  split.
  - apply (C8_wildcard_never_prunes
             5 0 (mkWalkNode "Identifier" (Some (sp 10 20)))).
    intros span E. injection E as <-. simpl. lia.
  - apply (C8_wildcard_never_prunes
             25 0 (mkWalkNode "Identifier" (Some (sp 10 20)))).
    intros span E. injection E as <-. simpl. lia.
Defined.

(* --------------------------------------------------------------------- *)
(** ** C10: the gate in front of the colour parser                        *)

Lemma existsb_eqb_not_in (x : string) (l : list string) :
  ~ In x l -> existsb (String.eqb x) l = false.
Proof.
  induction l as [|y l IH]; intros Hnot; simpl; [reflexivity|].
  destruct (String.eqb_spec x y) as [->|_]; simpl.
  - exfalso. apply Hnot. now left.
  - apply IH. intros Hin. apply Hnot. now right.
Qed.

(** C10. [getColorFromValue] returns null for every value that is not a
    string; for a string whose trimmed form is [transparent] or
    [currentcolor] up to case it returns the keyword [transparent] or
    [currentColor]; and for any other string whose trimmed form matches
    neither the functional pattern nor the hexadecimal pattern and is not a
    key of the table of named colours it returns null, whatever the parser
    would have answered. *)
Theorem C10_getColorFromValue_gate
        (namedColors : list string) (Color : Type)
        (culori_parse : string -> option Color) :
  let getColor := ColorLogic.getColorFromValue namedColors Color culori_parse in
  (forall value, is_string value = false -> getColor value = None)
  /\ (forall s,
         ColorLogic.equal_ignoring_case (ColorLogic.trim s) "transparent"
         = true ->
         getColor (VString s) = Some ColorLogic.Transparent)
  /\ (forall s,
         ColorLogic.equal_ignoring_case (ColorLogic.trim s) "currentcolor"
         = true ->
         getColor (VString s) = Some ColorLogic.CurrentColor)
  /\ (forall s,
         ColorLogic.equal_ignoring_case (ColorLogic.trim s) "transparent"
         = false ->
         ColorLogic.equal_ignoring_case (ColorLogic.trim s) "currentcolor"
         = false ->
         ColorLogic.test ColorLogic.functional_form (ColorLogic.trim s)
         = false ->
         ColorLogic.test ColorLogic.hex_form (ColorLogic.trim s) = false ->
         ~ In (ColorLogic.trim s) namedColors ->
         getColor (VString s) = None).
Proof.
  intros getColor. subst getColor. unfold ColorLogic.equal_ignoring_case.
  change (ColorLogic.toLowerCase "transparent") with "transparent".
  change (ColorLogic.toLowerCase "currentcolor") with "currentcolor".
  split; [|split; [|split]].
  - intros value Hs. destruct value; try reflexivity. discriminate Hs.
  - intros s Ht. unfold ColorLogic.getColorFromValue. now rewrite Ht.
  - intros s Hc. unfold ColorLogic.getColorFromValue. rewrite Hc.
    destruct (String.eqb_spec
                (ColorLogic.toLowerCase (ColorLogic.trim s)) "transparent")
      as [E|_]; [|reflexivity].
    rewrite E in Hc. discriminate Hc.
  - intros s Ht Hc Hf Hh Hn. unfold ColorLogic.getColorFromValue.
    rewrite Ht, Hc, Hf, Hh, (existsb_eqb_not_in _ _ Hn). reflexivity.
Qed.

Lemma C10_witness :
  let getColor :=
    ColorLogic.getColorFromValue ["red"; "blue"] nat (fun _ => Some 7%nat) in
  getColor (VNumber 1) = None
  /\ getColor (VString "  TransParent ") = Some ColorLogic.Transparent
  /\ getColor (VString "CURRENTCOLOR") = Some ColorLogic.CurrentColor
  /\ getColor (VString " Red ") = None.
Proof.
  destruct (C10_getColorFromValue_gate ["red"; "blue"] nat
                                       (fun _ => Some 7%nat))
    as (Hother & Htransparent & Hcurrent & Hgate).
  split; [|split; [|split]].
  - apply Hother. reflexivity.
  - apply Htransparent. reflexivity.
  - apply Hcurrent. reflexivity.
  - apply Hgate; try reflexivity.
    intros [E | [E | []]]; discriminate E.
Defined.

(* ===================================================================== *)
(** * Further properties of evaluate.ts                                   *)
(* ===================================================================== *)

Section MoreEvaluateFacts.
Context {H : Host}.
Variable stateManager : StateManager.

Local Abbreviation ev := (fun n => evaluate n stateManager).

Lemma evaluate_sequence (expressions : list Node) :
  evaluate (SequenceExpression expressions) stateManager
  = evaluateLastWith ev expressions.
Proof. reflexivity. Qed.

(** Elements without dots: one entry each, holes none. *)
Lemma reduce_plain_elements (elements : list (option ExprOrSpread))
      (rs : list Result) :
  forallb plain (present elements) = true ->
  Forall2 (fun e r => ev (expression e) = Ok r) (present elements) rs ->
  forall acc,
    reduce (fun a x => arrayCallback ev a x) elements acc
    = Ok (acc ++ rs)%list.
Proof.
  revert rs. induction elements as [|x elements IH]; intros rs Hplain Hall acc.
  - inversion Hall. simpl. now rewrite app_nil_r.
  - destruct x as [e|]; simpl in *.
    + apply andb_prop in Hplain as [He Hrest].
      inversion Hall as [|e' r es rs' Hr Hrs]; subst.
      unfold plain in He. destruct (spread e); [discriminate|].
      rewrite Hr, (IH rs' Hrest Hrs). now rewrite <- app_assoc.
    + apply IH; assumption.
Qed.

Lemma evaluateLast_snoc (init : list Node) (e : Node) :
  evaluateLastWith ev (init ++ [e]) = evaluate e stateManager.
Proof.
  induction init as [|x init IH]; simpl; [reflexivity|].
  destruct (init ++ [e])%list as [|y rest] eqn:E.
  - destruct init; discriminate E.
  - exact IH.
Qed.

Lemma memberChain_symbolic (names : list (string * Span * Span)) :
  forall (base : Node) (id : string) (span : Span),
    evaluate base stateManager = Ok (StaticId id span) ->
    evaluate (memberChain base names) stateManager
    = Ok (StaticId (dotted id names) (outerSpan span names)).
Proof.
  induction names as [|[[name idSpan] s] names IH]; intros base id span Hbase.
  - exact Hbase.
  - simpl. apply IH. rewrite evaluate_member, Hbase. simpl.
    unfold evaluateIdentifier.
    destruct (String.eqb_spec name "undefined") as [->|_]; reflexivity.
Qed.

(** A step of the fold over the properties that leaves the accumulator
    alone can be taken out of the list. *)
Lemma reduce_skip {A B} (f : B -> A -> Completion B) (l1 l2 : list A)
      (x : A) (acc : B) :
  (forall a, f a x = Ok a) ->
  reduce f (l1 ++ x :: l2)%list acc = reduce f (l1 ++ l2)%list acc.
Proof.
  intros Hskip. rewrite !reduce_app.
  destruct (reduce f l1 acc) as [mid|e]; [|reflexivity].
  simpl. now rewrite Hskip.
Qed.

Lemma dropped_property_skips (p : Property) acc :
  dropped_property p = true -> objectCallback ev acc p = Ok acc.
Proof.
  destruct p as [a|k v|k v| | | |name s]; try discriminate; try reflexivity;
    destruct k; try discriminate; intros _; simpl;
    unfold evaluateIdentifier; destruct (String.eqb _ "undefined"); reflexivity.
Qed.

Lemma nothing_to_spread_skips (a : Node) (r : Result) acc :
  evaluate a stateManager = Ok r ->
  nothing_to_spread r = true ->
  objectCallback ev acc (SpreadElement a) = Ok acc.
Proof.
  intros Ha Hr. simpl. rewrite Ha.
  destruct r as [|v s|id s]; try reflexivity.
  destruct v; try discriminate Hr; reflexivity.
Qed.

(** [obj_set] never stores under [__proto__]. *)
Lemma obj_set_no_proto acc (k : string) (v : Value) :
  fst acc !! "__proto__" = None ->
  fst (obj_set acc k v) !! "__proto__" = None.
Proof.
  intros Hacc. unfold obj_set.
  destruct (String.eqb_spec k "__proto__") as [->|Hk].
  - destruct (is_object v || _); exact Hacc.
  - simpl. rewrite lookup_insert_ne; [exact Hacc | exact Hk].
Qed.

Lemma object_assign_no_proto acc (v : Value) :
  fst acc !! "__proto__" = None ->
  fst (object_assign acc v) !! "__proto__" = None.
Proof.
  unfold object_assign. generalize (enumerable_entries v) as l.
  intros l. revert acc. induction l as [|[k x] l IH]; intros acc Hacc; simpl.
  - exact Hacc.
  - apply IH. now apply obj_set_no_proto.
Qed.

Lemma objectCallback_no_proto acc acc' (p : Property) :
  fst acc !! "__proto__" = None ->
  objectCallback ev acc p = Ok acc' ->
  fst acc' !! "__proto__" = None.
Proof.
  intros Hacc. destruct p as [a|k v|k v| | | |name s]; simpl.
  - destruct (evaluate a stateManager) as [[|x sx|id sx]|e];
      intros E; inversion E; subst; auto using object_assign_no_proto.
  - destruct (evaluate k stateManager) as [rk|e]; [|discriminate].
    destruct (property_key rk) as [key|].
    + destruct (evaluate v stateManager) as [rv|e]; [|discriminate].
      intros E; inversion E; subst. now apply obj_set_no_proto.
    + intros E; inversion E; subst; exact Hacc.
  - destruct (evaluate k stateManager) as [rk|e]; [|discriminate].
    destruct (property_key rk) as [key|].
    + destruct (evaluate v stateManager) as [rv|e]; [|discriminate].
      intros E; inversion E; subst. now apply obj_set_no_proto.
    + intros E; inversion E; subst; exact Hacc.
  - intros E; inversion E; subst; exact Hacc.
  - intros E; inversion E; subst; exact Hacc.
  - intros E; inversion E; subst; exact Hacc.
  - destruct (negb _); intros E; inversion E; subst;
      auto using obj_set_no_proto.
Qed.

Lemma reduce_object_no_proto (properties : list Property) :
  forall acc acc',
    fst acc !! "__proto__" = None ->
    reduce (objectCallback ev) properties acc = Ok acc' ->
    fst acc' !! "__proto__" = None.
Proof.
  induction properties as [|p properties IH]; intros acc acc' Hacc; simpl.
  - intros E; inversion E; subst; exact Hacc.
  - destruct (objectCallback ev acc p) as [mid|e] eqn:Ep; [|discriminate].
    apply IH. eapply objectCallback_no_proto; eassumption.
Qed.

(** Copying a list of entries with distinct keys, none of them
    [__proto__], is a union that prefers the entries. *)
Lemma fold_obj_set_union (l : list (string * Value)) :
  forall acc,
    NoDup l.*1 ->
    "__proto__" ∉ l.*1 ->
    fold_left (fun a kv => obj_set a (fst kv) (snd kv)) l acc
    = (list_to_map l ∪ fst acc, snd acc).
Proof.
  induction l as [|[k v] l IH]; intros [fields proto] Hnodup Hproto; simpl.
  - now rewrite (left_id_L ∅ (∪)).
  - inversion Hnodup as [|k' ks Hk Hks]; subst.
    assert (Hkp : k <> "__proto__").
    { intros ->. apply Hproto. simpl. now left. }
    assert (Hlp : "__proto__" ∉ l.*1).
    { intros Hin. apply Hproto. simpl. now right. }
    unfold obj_set at 2. simpl.
    destruct (String.eqb_spec k "__proto__") as [E|_]; [contradiction|].
    rewrite (IH _ Hks Hlp). simpl. f_equal.
    rewrite <- insert_union_l. symmetry. apply insert_union_r.
    now apply not_elem_of_list_to_map_1.
Qed.

Lemma object_assign_object acc (props : gmap string Value)
      (proto : option Value) :
  props !! "__proto__" = None ->
  object_assign acc (VObject props proto) = (props ∪ fst acc, snd acc).
Proof.
  intros Hproto. unfold object_assign. simpl.
  rewrite fold_obj_set_union.
  - now rewrite list_to_map_to_list.
  - apply NoDup_fst_map_to_list.
  - intros Hin. apply list_elem_of_fmap in Hin as [[k v] [Hk Hkv]].
    simpl in Hk. subst k. apply elem_of_map_to_list in Hkv. congruence.
Qed.

End MoreEvaluateFacts.

(* --------------------------------------------------------------------- *)
(** ** Arrays, sequences and member chains                                *)

(** X1. An array literal none of whose elements is a spread folds to one
    entry per element that is present, in source order: holes add nothing,
    and the sequence has the span of the literal. *)
Theorem X1_array_without_spread
        (H : Host) (stateManager : StateManager)
        (elements : list (option ExprOrSpread)) (span : Span)
        (results : list Result) :
  forallb plain (present elements) = true ->
  Forall2 (fun e r => evaluate (expression e) stateManager = Ok r)
          (present elements) results ->
  evaluate (ArrayExpression elements span) stateManager
  = Ok (Static (VArray results) span).
Proof.
  intros Hplain Hall. rewrite evaluate_array.
  now rewrite (reduce_plain_elements stateManager elements results
                                     Hplain Hall []).
Qed.

(** [[1, , f]] *)
Lemma X1_witness :
  evaluate (H := SampleHost.host)
           (ArrayExpression [plainElement (number 1); None;
                             plainElement (Identifier "f" (sp 6 7))]
                            (sp 0 8))
           stylexImported
  = Ok (Static (VArray [Static (VNumber 1) (sp 0 1);
                        StaticId "f" (sp 6 7)]) (sp 0 8)).
Proof.
  refine (X1_array_without_spread
            SampleHost.host stylexImported
            [plainElement (number 1); None;
             plainElement (Identifier "f" (sp 6 7))] (sp 0 8)
            [Static (VNumber 1) (sp 0 1); StaticId "f" (sp 6 7)] _ _).
  - reflexivity.
  - repeat constructor.
Defined.

(** X2. A unary expression does not look at its operator when the operand
    folds to null or undefined, or does not fold to a value: in the first
    case the result is the static [undefined] with the span of the node (so
    for [!null], [typeof undefined] and [delete null] too), in the second it
    is not static (so for [void x] and [typeof x] with [x] an identifier
    too). *)
Theorem X2_unary_edge_operands
        (H : Host) (stateManager : StateManager)
        (op : UnaryOperator) (argument : Node) (span : Span) :
  (forall v s,
      evaluate argument stateManager = Ok (Static v s) ->
      is_nullish v = true ->
      evaluate (UnaryExpression op argument span) stateManager
      = Ok (Static VUndefined span))
  /\ (forall r,
         evaluate argument stateManager = Ok r ->
         is_static r = false \/ has_id r = true ->
         evaluate (UnaryExpression op argument span) stateManager
         = Ok NonStatic).
Proof.
  split.
  - intros v s Harg Hnull. rewrite evaluate_unary, Harg. simpl.
    now rewrite Hnull.
  - intros r Harg Hr. rewrite evaluate_unary, Harg.
    destruct r; simpl in *; try reflexivity.
    destruct Hr; discriminate.
Qed.

(** [!null] and [typeof x] *)
Lemma X2_witness :
  evaluate (H := SampleHost.host)
           (UnaryExpression UBang (NullLiteral (sp 1 5)) (sp 0 5))
           stylexImported
  = Ok (Static VUndefined (sp 0 5))
  /\ evaluate (H := SampleHost.host)
              (UnaryExpression UTypeOf (Identifier "x" (sp 7 8)) (sp 0 8))
              stylexImported
     = Ok NonStatic.
Proof.
  split.
  - apply (proj1 (X2_unary_edge_operands SampleHost.host stylexImported
                    UBang (NullLiteral (sp 1 5)) (sp 0 5)) VNull (sp 1 5));
      reflexivity.
  - apply (proj2 (X2_unary_edge_operands SampleHost.host stylexImported
                    UTypeOf (Identifier "x" (sp 7 8)) (sp 0 8))
                 (StaticId "x" (sp 7 8)));
      [reflexivity | right; reflexivity].
Defined.

(** X3. A sequence expression folds to what its last expression folds to;
    the expressions before it are not evaluated, so nothing in them can
    make the evaluation throw. With no expression at all it throws. *)
Theorem X3_sequence_is_its_last_expression
        (H : Host) (stateManager : StateManager)
        (init : list Node) (e : Node) :
  evaluate (SequenceExpression (init ++ [e])) stateManager
  = evaluate e stateManager
  /\ evaluate (SequenceExpression []) stateManager = Throw TypeError.
Proof.
  split; [|reflexivity].
  rewrite evaluate_sequence. apply evaluateLast_snoc.
Qed.

(** X4. Member accesses on a symbolic reference extend its dotted path:
    when [base] folds to the reference [id], [base.p1. ... .pn] folds to the
    reference [id.p1. ... .pn] with the span of the outermost member
    expression, whatever the names are. *)
Theorem X4_member_chain_extends_path
        (H : Host) (stateManager : StateManager)
        (base : Node) (id : string) (span : Span)
        (names : list (string * Span * Span)) :
  evaluate base stateManager = Ok (StaticId id span) ->
  evaluate (memberChain base names) stateManager
  = Ok (StaticId (dotted id names) (outerSpan span names)).
Proof. apply memberChain_symbolic. Qed.

(** [vars.color.undefined] *)
Lemma X4_witness :
  evaluate (H := SampleHost.host)
           (memberChain (Identifier "vars" (sp 0 4))
                        [("color", sp 5 10, sp 0 10);
                         ("undefined", sp 11 20, sp 0 20)])
           stylexImported
  = Ok (StaticId "vars.color.undefined" (sp 0 20)).
Proof.
  apply (X4_member_chain_extends_path
           SampleHost.host stylexImported (Identifier "vars" (sp 0 4))
           "vars" (sp 0 4)
           [("color", sp 5 10, sp 0 10); ("undefined", sp 11 20, sp 0 20)]).
  reflexivity.
Defined.

(** X5. A member expression on a folded value reads nothing when the key
    folds to a value that is not a string: the result is the static
    [undefined]. A numeric index is such a key, so [[a, b][0]] does not fold
    to the first element. *)
Theorem X5_member_with_non_string_key
        (H : Host) (stateManager : StateManager)
        (object property : Node) (span so sk : Span) (v k : Value) :
  evaluate object stateManager = Ok (Static v so) ->
  is_nullish v = false ->
  evaluate property stateManager = Ok (Static k sk) ->
  is_string k = false ->
  evaluate (MemberExpression object property span) stateManager
  = Ok (Static VUndefined span).
Proof.
  intros Ho Hv Hp Hk.
  rewrite (member_of_value stateManager object property span so v
                           (Static k sk) Ho Hp eq_refl), Hv.
  destruct k; try reflexivity. discriminate Hk.
Qed.

(** [["a", "b"][0]] *)
Lemma X5_witness :
  evaluate (H := SampleHost.host)
           (MemberExpression
              (ArrayExpression [plainElement (StringLiteral "a" (sp 1 4));
                                plainElement (StringLiteral "b" (sp 6 9))]
                               (sp 0 10))
              (Computed (number 0)) (sp 0 13))
           stylexImported
  = Ok (Static VUndefined (sp 0 13)).
Proof.
  apply (X5_member_with_non_string_key
           SampleHost.host stylexImported _ _ (sp 0 13) (sp 0 10) (sp 0 1)
           (VArray [Static (VString "a") (sp 1 4);
                    Static (VString "b") (sp 6 9)])
           (VNumber 0)); reflexivity.
Defined.

(* --------------------------------------------------------------------- *)
(** ** Object literals                                                    *)

(** X6. A property whose key is an identifier, and an accessor or a method,
    adds nothing to a folded object literal, wherever it stands; the value
    of such a property is not evaluated. So [{a: 1}] folds to the empty
    object, and only string, numeric and computed keys are kept. *)
Theorem X6_identifier_keys_are_dropped
        (H : Host) (stateManager : StateManager)
        (before after : list Property) (p : Property) (span : Span) :
  dropped_property p = true ->
  evaluate (ObjectExpression (before ++ p :: after) span) stateManager
  = evaluate (ObjectExpression (before ++ after) span) stateManager.
Proof.
  intros Hp. rewrite !evaluate_object.
  rewrite (reduce_skip (objectCallback (fun n => evaluate n stateManager))
                       before after p (∅, None)); [reflexivity|].
  intros acc. now apply dropped_property_skips.
Qed.

(** [{color: <invalid>}] *)
Lemma X6_witness :
  evaluate (H := SampleHost.host)
           (ObjectExpression
              [KeyValueProperty (Identifier "color" (sp 1 6))
                                (Invalid (sp 8 9))] (sp 0 10))
           stylexImported
  = Ok (Static (VObject ∅ None) (sp 0 10)).
Proof.
  apply (X6_identifier_keys_are_dropped
           SampleHost.host stylexImported [] []
           (KeyValueProperty (Identifier "color" (sp 1 6)) (Invalid (sp 8 9)))
           (sp 0 10)).
  reflexivity.
Defined.

(** X7. A spread in an object literal whose operand folds to a result that
    is not static, to a symbolic reference, or to undefined, null, a
    boolean, a number, a bigint or a regular expression adds nothing: the
    literal folds as if the spread were not written. *)
Theorem X7_empty_spread_is_ignored
        (H : Host) (stateManager : StateManager)
        (before after : list Property) (operand : Node) (r : Result)
        (span : Span) :
  evaluate operand stateManager = Ok r ->
  nothing_to_spread r = true ->
  evaluate (ObjectExpression (before ++ SpreadElement operand :: after) span)
           stateManager
  = evaluate (ObjectExpression (before ++ after) span) stateManager.
Proof.
  intros Ho Hr. rewrite !evaluate_object.
  rewrite (reduce_skip (objectCallback (fun n => evaluate n stateManager))
                       before after (SpreadElement operand) (∅, None));
    [reflexivity|].
  intros acc. eapply nothing_to_spread_skips; eassumption.
Qed.

(** [{...theme, "color": "red"}] with [theme] an identifier *)
Lemma X7_witness :
  evaluate (H := SampleHost.host)
           (ObjectExpression
              [SpreadElement (Identifier "theme" (sp 4 9));
               KeyValueProperty (StringLiteral "color" (sp 11 18))
                                (StringLiteral "red" (sp 20 25))]
              (sp 0 26))
           stylexImported
  = evaluate (H := SampleHost.host)
             (ObjectExpression
                [KeyValueProperty (StringLiteral "color" (sp 11 18))
                                  (StringLiteral "red" (sp 20 25))]
                (sp 0 26))
             stylexImported.
Proof.
  apply (X7_empty_spread_is_ignored
           SampleHost.host stylexImported []
           [KeyValueProperty (StringLiteral "color" (sp 11 18))
                             (StringLiteral "red" (sp 20 25))]
           (Identifier "theme" (sp 4 9)) (StaticId "theme" (sp 4 9))
           (sp 0 26)); reflexivity.
Defined.

(** X8. Writing [key: value] after the properties of an object literal,
    with a key that folds to the string [k] other than [__proto__], stores
    the result of the value under [k] and changes no other key nor the
    prototype; an earlier entry under [k] is replaced. *)
Theorem X8_property_store
        (H : Host) (stateManager : StateManager)
        (properties : list Property) (key value : Node)
        (k : string) (sk span0 span : Span) (r : Result)
        (props : gmap string Value) (proto : option Value) :
  evaluate (ObjectExpression properties span0) stateManager
  = Ok (Static (VObject props proto) span0) ->
  evaluate key stateManager = Ok (Static (VString k) sk) ->
  String.eqb k "__proto__" = false ->
  evaluate value stateManager = Ok r ->
  exists stored,
    evaluate (ObjectExpression (properties ++ [KeyValueProperty key value])
                               span) stateManager
    = Ok (Static (VObject stored proto) span)
    /\ stored !! k = Some (VResult r)
    /\ forall k', k' <> k -> stored !! k' = props !! k'.
Proof.
  intros Hps Hk Hproto Hv. rewrite evaluate_object in Hps.
  destruct (reduce _ properties (∅, None)) as [[fields p]|e] eqn:Hred;
    [|discriminate].
  injection Hps as <- <-.
  exists (<[k := VResult r]> fields).
  rewrite evaluate_object, reduce_app, Hred. simpl.
  rewrite Hk. simpl. rewrite Hv. unfold obj_set. rewrite Hproto. simpl.
  split; [reflexivity | split].
  - apply lookup_insert_eq.
  - intros k' Hne. now apply lookup_insert_ne.
Qed.

(** [{"color": "red", "color": f}] *)
Lemma X8_witness :
  exists stored,
    evaluate (H := SampleHost.host)
             (ObjectExpression
                ([KeyValueProperty (StringLiteral "color" (sp 1 8))
                                   (StringLiteral "red" (sp 10 15))]
                   ++ [KeyValueProperty (StringLiteral "color" (sp 17 24))
                                        (Identifier "f" (sp 26 27))])
                (sp 0 28))
             stylexImported
    = Ok (Static (VObject stored None) (sp 0 28))
    /\ stored !! "color" = Some (VResult (StaticId "f" (sp 26 27)))
    /\ forall k', k' <> "color" ->
                  stored !! k'
                  = ({["color" := VResult (Static (VString "red") (sp 10 15))]}
                     : gmap string Value) !! k'.
Proof.
  apply (X8_property_store
           SampleHost.host stylexImported
           [KeyValueProperty (StringLiteral "color" (sp 1 8))
                             (StringLiteral "red" (sp 10 15))]
           (StringLiteral "color" (sp 17 24)) (Identifier "f" (sp 26 27))
           "color" (sp 17 24) (sp 0 15) (sp 0 28)
           (StaticId "f" (sp 26 27))
           {["color" := VResult (Static (VString "red") (sp 10 15))]} None);
    reflexivity.
Defined.

(** X9. Spreading an object literal at the end of another merges the two:
    the result has the entries of the spread literal and, for the keys the
    spread literal does not have, the entries written before it; the
    prototype is that of the outer literal, and the result never has an
    entry under [__proto__]. *)
Theorem X9_spread_of_object_merges
        (H : Host) (stateManager : StateManager)
        (outer inner : list Property) (spanOuter spanInner span : Span)
        (propsOuter propsInner : gmap string Value)
        (protoOuter protoInner : option Value) :
  evaluate (ObjectExpression outer spanOuter) stateManager
  = Ok (Static (VObject propsOuter protoOuter) spanOuter) ->
  evaluate (ObjectExpression inner spanInner) stateManager
  = Ok (Static (VObject propsInner protoInner) spanInner) ->
  evaluate (ObjectExpression
              (outer ++ [SpreadElement (ObjectExpression inner spanInner)])
              span) stateManager
  = Ok (Static (VObject (propsInner ∪ propsOuter) protoOuter) span)
  /\ (propsInner ∪ propsOuter) !! "__proto__" = None.
Proof.
  intros Houter Hinner.
  pose proof Hinner as Hinner'.
  rewrite evaluate_object in Houter, Hinner'.
  destruct (reduce _ outer (∅, None)) as [[fo po]|e] eqn:Ho; [|discriminate].
  destruct (reduce _ inner (∅, None)) as [[fi pi]|e] eqn:Hi; [|discriminate].
  injection Houter as <- <-. injection Hinner' as <- <-.
  assert (Hfo : fo !! "__proto__" = None).
  { apply (reduce_object_no_proto stateManager outer (∅, None) (fo, po));
      [apply lookup_empty | exact Ho]. }
  assert (Hfi : fi !! "__proto__" = None).
  { apply (reduce_object_no_proto stateManager inner (∅, None) (fi, pi));
      [apply lookup_empty | exact Hi]. }
  split.
  - rewrite evaluate_object, reduce_app, Ho.
    cbn [reduce objectCallback]. rewrite Hinner.
    now rewrite (object_assign_object (fo, po) fi pi Hfi).
  - apply lookup_union_None. now split.
Qed.

(** [{"color": "red", "top": 0, ...{"color": "blue"}}] *)
Lemma X9_witness :
  let red := VResult (Static (VString "red") (sp 10 15)) in
  let zero := VResult (Static (VNumber 0) (sp 0 1)) in
  let blue := VResult (Static (VString "blue") (sp 40 46)) in
  evaluate (H := SampleHost.host)
           (ObjectExpression
              ([KeyValueProperty (StringLiteral "color" (sp 1 8))
                                 (StringLiteral "red" (sp 10 15));
                KeyValueProperty (StringLiteral "top" (sp 17 22)) (number 0)]
                 ++ [SpreadElement
                       (ObjectExpression
                          [KeyValueProperty (StringLiteral "color" (sp 31 38))
                                            (StringLiteral "blue" (sp 40 46))]
                          (sp 30 47))])
              (sp 0 48))
           stylexImported
  = Ok (Static (VObject ({["color" := blue]}
                           ∪ <["top" := zero]> {["color" := red]}) None)
               (sp 0 48))
  /\ (({["color" := blue]} : gmap string Value)
        ∪ <["top" := zero]> {["color" := red]}) !! "__proto__" = None.
Proof.
  intros red zero blue.
  apply (X9_spread_of_object_merges
           SampleHost.host stylexImported
           [KeyValueProperty (StringLiteral "color" (sp 1 8))
                             (StringLiteral "red" (sp 10 15));
            KeyValueProperty (StringLiteral "top" (sp 17 22)) (number 0)]
           [KeyValueProperty (StringLiteral "color" (sp 31 38))
                             (StringLiteral "blue" (sp 40 46))]
           (sp 0 27) (sp 30 47) (sp 0 48)
           (<["top" := zero]> {["color" := red]}) {["color" := blue]}
           None None); reflexivity.
Defined.

(* --------------------------------------------------------------------- *)
(** ** Arithmetic                                                         *)

Section ArithmeticFacts.
Context {H : Host}.
Variable stateManager : StateManager.

Lemma numeric_op_of_operator (op : BinaryOperator) (nop : NumericOp) :
  numeric_op_of op = Some nop -> numeric_operator op = true.
Proof. destruct op; simpl; (discriminate || reflexivity). Qed.

Lemma second_switch_numeric (op : BinaryOperator) (nop : NumericOp)
      (l r : Value) :
  numeric_op_of op = Some nop ->
  binarySecondSwitch op l r = js_binary nop l r.
Proof.
  destruct op; simpl; intros E; try discriminate E;
    injection E as <-; reflexivity.
Qed.

(** The [BinaryExpression] case on two operands of one type among number,
    bigint and string, for an operator of the second [switch]. *)
Lemma binary_homogeneous (op : BinaryOperator) (nop : NumericOp)
      (l r : Node) (span sl sr : Span) (lv rv : Value) :
  numeric_op_of op = Some nop ->
  evaluate l stateManager = Ok (Static lv sl) ->
  evaluate r stateManager = Ok (Static rv sr) ->
  homogeneous lv rv = true ->
  evaluate (BinaryExpression op l r span) stateManager
  = match js_binary nop lv rv with
    | Ok v => Ok (Static v span)
    | Throw e => Throw e
    end.
Proof.
  intros Hop Hl Hr Hh. rewrite evaluate_binary, Hl, Hr.
  unfold evaluateBinary. simpl.
  rewrite (numeric_first_switch op lv rv (numeric_op_of_operator op nop Hop)).
  simpl. rewrite mismatched_homogeneous, Hh. simpl.
  now rewrite (second_switch_numeric op nop lv rv Hop).
Qed.

Lemma js_binary_numbers (nop : NumericOp) (a b : float) :
  js_binary nop (VNumber a) (VNumber b) = Ok (VNumber (number_op nop a b)).
Proof. destruct nop; reflexivity. Qed.

Lemma js_binary_strings (nop : NumericOp) (a b : string) :
  js_binary nop (VString a) (VString b)
  = Ok (match nop with
        | NAdd => VString (a ++ b)
        | _ => VNumber (number_op nop (string_to_number a)
                                  (string_to_number b))
        end).
Proof. destruct nop; reflexivity. Qed.

End ArithmeticFacts.

(** X10. A bit, shift or arithmetic operator on two operands that fold to
    numbers never throws: it folds to a static number with the span of the
    node, the engine's result for that operator on the two numbers. *)
Theorem X10_number_arithmetic
        (H : Host) (stateManager : StateManager)
        (op : BinaryOperator) (nop : NumericOp) (l r : Node)
        (span sl sr : Span) (a b : float) :
  numeric_op_of op = Some nop ->
  evaluate l stateManager = Ok (Static (VNumber a) sl) ->
  evaluate r stateManager = Ok (Static (VNumber b) sr) ->
  evaluate (BinaryExpression op l r span) stateManager
  = Ok (Static (VNumber (number_op nop a b)) span).
Proof.
  intros Hop Hl Hr.
  rewrite (binary_homogeneous stateManager op nop l r span sl sr
                              (VNumber a) (VNumber b) Hop Hl Hr eq_refl).
  now rewrite js_binary_numbers.
Qed.

(** [6 * 7] and [1 << 33] *)
Lemma X10_witness :
  evaluate (H := SampleHost.host)
           (BinaryExpression OpMul (number 6) (number 7) (sp 0 5))
           stylexImported
  = Ok (Static (VNumber 42) (sp 0 5))
  /\ evaluate (H := SampleHost.host)
              (BinaryExpression OpLShift (number 1) (number 33) (sp 0 7))
              stylexImported
     = Ok (Static (VNumber 2) (sp 0 7)).
Proof.
  split.
  - apply (X10_number_arithmetic SampleHost.host stylexImported OpMul NMul
             (number 6) (number 7) (sp 0 5) (sp 0 1) (sp 0 1) 6 7);
      reflexivity.
  - apply (X10_number_arithmetic SampleHost.host stylexImported OpLShift NShl
             (number 1) (number 33) (sp 0 7) (sp 0 1) (sp 0 1) 1 33);
      reflexivity.
Defined.

(** X11. On two operands that fold to strings, [+] folds to their
    concatenation; every other bit, shift or arithmetic operator converts
    both strings to numbers and folds to the engine's result on those
    numbers. Neither throws. *)
Theorem X11_string_operands
        (H : Host) (stateManager : StateManager)
        (op : BinaryOperator) (nop : NumericOp) (l r : Node)
        (span sl sr : Span) (a b : string) :
  numeric_op_of op = Some nop ->
  evaluate l stateManager = Ok (Static (VString a) sl) ->
  evaluate r stateManager = Ok (Static (VString b) sr) ->
  evaluate (BinaryExpression op l r span) stateManager
  = Ok (Static
          (match op with
           | OpAdd => VString (a ++ b)
           | _ => VNumber (number_op nop (string_to_number a)
                                     (string_to_number b))
           end) span).
Proof.
  intros Hop Hl Hr.
  rewrite (binary_homogeneous stateManager op nop l r span sl sr
                              (VString a) (VString b) Hop Hl Hr eq_refl).
  rewrite js_binary_strings.
  destruct op; simpl in Hop; try discriminate Hop;
    injection Hop as <-; reflexivity.
Qed.

(** ["1px " + "solid"] and ["4" * "2"] *)
Lemma X11_witness :
  evaluate (H := SampleHost.host)
           (BinaryExpression OpAdd (StringLiteral "1px " (sp 0 6))
                             (StringLiteral "solid" (sp 9 16)) (sp 0 16))
           stylexImported
  = Ok (Static (VString "1px solid") (sp 0 16))
  /\ evaluate (H := SampleHost.host)
              (BinaryExpression OpMul (StringLiteral "4" (sp 0 3))
                                (StringLiteral "2" (sp 6 9)) (sp 0 9))
              stylexImported
     = Ok (Static (VNumber 8) (sp 0 9)).
Proof.
  split.
  - apply (X11_string_operands SampleHost.host stylexImported OpAdd NAdd
             _ _ (sp 0 16) (sp 0 6) (sp 9 16) "1px " "solid"); reflexivity.
  - apply (X11_string_operands SampleHost.host stylexImported OpMul NMul
             _ _ (sp 0 9) (sp 0 3) (sp 6 9) "4" "2"); reflexivity.
Defined.

(* --------------------------------------------------------------------- *)
(** ** Calls and templates                                                *)

Section CallFacts.
Context {H : Host}.
Variable stateManager : StateManager.

(** The test of the code accepts recognised callees only. *)
Lemma isFirstThatWorks_recognized (callee : Node) :
  isFirstThatWorks stateManager callee = true ->
  recognized stateManager callee.
Proof.
  destruct callee; simpl; try discriminate.
  - intros E. right.
    destruct (verifyNamedImport stateManager value) as [name|] eqn:En;
      [|discriminate].
    apply String.eqb_eq in E. subst name. eauto.
  - destruct callee1; try discriminate. destruct callee2; try discriminate.
    intros E. apply andb_prop in E as [Hv Hp].
    apply String.eqb_eq in Hp. subst. left. eauto 10.
Qed.

Lemma reduce_map {A B C} (f : B -> A -> Completion B) (g : C -> A)
      (l : list C) (acc : B) :
  reduce (fun a x => f a (g x)) l acc = reduce f (List.map g l) acc.
Proof.
  revert acc. induction l as [|x l IH]; intros acc; simpl.
  - reflexivity.
  - destruct (f acc (g x)); [apply IH | reflexivity].
Qed.

(** The loop of a template stops at the first expression that is not
    static, when all before it are. *)
Lemma templateLoop_non_static (ev : Node -> Completion Result)
      (e : Node) (after : list Node) (before : list Node) :
  forall (quasis : list TemplateElementT) (results : list Result)
         (values : list Value),
    (List.length before < List.length quasis)%nat ->
    Forall2 (fun x r => ev x = Ok r /\ is_static r = true) before results ->
    ev e = Ok NonStatic ->
    templateLoopWith ev (before ++ e :: after) quasis values = Ok None.
Proof.
  induction before as [|x before IH];
    intros quasis results values Hlen Hall He.
  - destruct quasis as [|q quasis]; [simpl in Hlen; lia|].
    simpl. now rewrite He.
  - destruct quasis as [|q quasis]; [simpl in Hlen; lia|].
    simpl in Hlen.
    inversion Hall as [|x' r xs rs [Hr Hs] Hrest]; subst.
    simpl. rewrite Hr.
    destruct r; [discriminate Hs | |];
      (eapply IH; [lia | eassumption | assumption]).
Qed.

End CallFacts.

(** X13. A call whose callee is not recognised as [firstThatWorks] folds to
    a non-static result without evaluating its arguments: nothing in the
    arguments can make the evaluation throw. *)
Theorem X13_other_calls_are_not_static
        (H : Host) (stateManager : StateManager)
        (callee : Node) (args : list ExprOrSpread) (span : Span) :
  ~ recognized stateManager callee ->
  evaluate (CallExpression callee args span) stateManager = Ok NonStatic.
Proof.
  intros Hnot. rewrite evaluate_call.
  destruct (isFirstThatWorks stateManager callee) eqn:E; [|reflexivity].
  exfalso. apply Hnot. now apply isFirstThatWorks_recognized.
Qed.

(** [stylex.create(<invalid>)] *)
Lemma X13_witness :
  evaluate (H := SampleHost.host)
           (CallExpression
              (MemberExpression (Identifier "stylex" (sp 0 6))
                                (Identifier "create" (sp 7 13)) (sp 0 13))
              [mkExprOrSpread None (Invalid (sp 14 15))] (sp 0 16))
           stylexImported
  = Ok NonStatic.
Proof.
  apply (X13_other_calls_are_not_static SampleHost.host stylexImported).
  intros [(o & s1 & s2 & s3 & E & _) | (name & s & E & _)]; discriminate E.
Defined.

(** X14. A call recognised as [firstThatWorks] folds like the array literal
    with the same elements and the span of the call, reversed: it returns
    when the literal does, with the entries of the literal last first, and
    throws when the literal throws. *)
Theorem X14_firstThatWorks_is_the_reversed_array
        (H : Host) (stateManager : StateManager)
        (callee : Node) (args : list ExprOrSpread) (span : Span) :
  recognized stateManager callee ->
  evaluate (CallExpression callee args span) stateManager
  = match evaluate (ArrayExpression (List.map Some args) span) stateManager
    with
    | Ok result => Ok (reverse_value result)
    | Throw e => Throw e
    end.
Proof.
  intros Hc.
  rewrite evaluate_call, (recognized_isFirstThatWorks stateManager callee Hc).
  rewrite evaluate_array.
  rewrite <- (reduce_map
                (arrayCallback (fun n => evaluate n stateManager)) Some).
  destruct (reduce _ args []); reflexivity.
Qed.

(** [stylex.firstThatWorks("a", ...["b", "c"])] *)
Lemma X14_witness :
  evaluate (H := SampleHost.host)
           (CallExpression
              (MemberExpression (Identifier "stylex" (sp 0 6))
                                (Identifier "firstThatWorks" (sp 7 21))
                                (sp 0 21))
              [mkExprOrSpread None (StringLiteral "a" (sp 22 25));
               mkExprOrSpread (Some (sp 27 30))
                 (ArrayExpression
                    [plainElement (StringLiteral "b" (sp 31 34));
                     plainElement (StringLiteral "c" (sp 36 39))]
                    (sp 30 40))]
              (sp 0 41))
           stylexImported
  = Ok (Static
          (VArray [Static (VArray [Static (VString "b") (sp 31 34);
                                   Static (VString "c") (sp 36 39)])
                          (sp 30 40);
                   Static (VString "a") (sp 22 25)])
          (sp 0 41)).
Proof.
  refine (X14_firstThatWorks_is_the_reversed_array
            SampleHost.host stylexImported
            (MemberExpression (Identifier "stylex" (sp 0 6))
                              (Identifier "firstThatWorks" (sp 7 21))
                              (sp 0 21))
            [mkExprOrSpread None (StringLiteral "a" (sp 22 25));
             mkExprOrSpread (Some (sp 27 30))
               (ArrayExpression
                  [plainElement (StringLiteral "b" (sp 31 34));
                   plainElement (StringLiteral "c" (sp 36 39))]
                  (sp 30 40))]
            (sp 0 41) _).
  left. exists "stylex", (sp 0 6), (sp 7 21), (sp 0 21).
  split; reflexivity.
Defined.

(** X15. A template literal is not static as soon as one of its expressions
    is not: when the expressions before it fold to static results and there
    is a quasi in front of it, the literal folds to a non-static result, and
    the expressions after it are not evaluated. *)
Theorem X15_template_with_non_static_expression
        (H : Host) (stateManager : StateManager)
        (quasis : list TemplateElementT) (before after : list Node)
        (e : Node) (results : list Result) (span : Span) :
  (List.length before < List.length quasis)%nat ->
  Forall2 (fun x r => evaluate x stateManager = Ok r /\ is_static r = true)
          before results ->
  evaluate e stateManager = Ok NonStatic ->
  evaluate (TemplateLiteral (Some quasis) (Some (before ++ e :: after)%list) span)
           stateManager
  = Ok NonStatic.
Proof.
  intros Hlen Hall He. rewrite evaluate_template.
  now rewrite (templateLoop_non_static
                 (fun n => evaluate n stateManager) e after before
                 quasis results [] Hlen Hall He).
Qed.

(** [`${a}-${f()}-${<invalid>}`] *)
Lemma X15_witness :
  evaluate (H := SampleHost.host)
           (TemplateLiteral
              (Some [mkTemplateElement (Some "") "" (sp 1 1);
                     mkTemplateElement (Some "-") "-" (sp 5 6);
                     mkTemplateElement (Some "-") "-" (sp 12 13);
                     mkTemplateElement (Some "") "" (sp 17 17)])
              (Some ([Identifier "a" (sp 3 4)]
                       ++ CallExpression (Identifier "f" (sp 8 9)) []
                                         (sp 8 11)
                       :: [Invalid (sp 15 16)])%list)
              (sp 0 18))
           stylexImported
  = Ok NonStatic.
Proof.
  apply (X15_template_with_non_static_expression
           SampleHost.host stylexImported _ [Identifier "a" (sp 3 4)]
           [Invalid (sp 15 16)]
           (CallExpression (Identifier "f" (sp 8 9)) [] (sp 8 11))
           [StaticId "a" (sp 3 4)] (sp 0 18)).
  - simpl. lia.
  - repeat constructor.
  - reflexivity.
Defined.

(* --------------------------------------------------------------------- *)
(** ** Expressions that cannot throw                                      *)

(** Induction on a node with the property at hand for the nodes below. *)
Lemma Node_children_ind (P : Node -> Prop) :
  (forall n, Forall P (children n) -> P n) -> forall n, P n.
Proof.
  intros Hstep. fix IH 1. intros n. apply Hstep.
  destruct n; simpl; try (repeat constructor; apply IH).
  - induction elements as [|[e|] elements IHe]; simpl.
    + constructor.
    + constructor; [apply IH | exact IHe].
    + exact IHe.
  - induction properties as [|p properties IHp]; simpl.
    + constructor.
    + apply Forall_app. split; [|exact IHp].
      destruct p; simpl; repeat constructor; apply IH.
  - destruct expressions as [l|]; [|constructor].
    induction l as [|e l IHl]; constructor; [apply IH | exact IHl].
  - constructor; [apply IH|].
    induction arguments as [|a arguments IHa]; simpl; constructor;
      [apply IH | exact IHa].
  - induction expressions as [|e l IHl]; constructor; [apply IH | exact IHl].
Qed.

Lemma conforms_safe (g : Grade) (r : Result) :
  conforms g r = true -> safe g = true.
Proof. destruct g; simpl; (discriminate || reflexivity). Qed.

Lemma conforms_non_static (g : Grade) :
  safe g = true -> conforms g NonStatic = true.
Proof. destruct g; simpl; (discriminate || reflexivity). Qed.

Lemma conforms_either_l (g1 g2 : Grade) (r : Result) :
  safe g2 = true -> conforms g1 r = true -> conforms (either g1 g2) r = true.
Proof.
  destruct g1, g2, r; simpl; try discriminate; try reflexivity; auto.
Qed.

Lemma conforms_either_r (g1 g2 : Grade) (r : Result) :
  safe g1 = true -> conforms g2 r = true -> conforms (either g1 g2) r = true.
Proof.
  destruct g1, g2, r; simpl; try discriminate; try reflexivity; auto.
Qed.

Lemma either_safe (g1 g2 : Grade) :
  safe (either g1 g2) = true -> safe g1 = true /\ safe g2 = true.
Proof. destruct g1, g2; simpl; try discriminate; auto. Qed.

Section TotalOperators.
Context {H : Host}.

Lemma tame_to_string (v : Value) :
  tame v = true -> exists s, ToString v = Ok s.
Proof. destruct v; try discriminate; intros _; simpl; eauto. Qed.

Lemma tame_join (values : list Value) :
  forallb tame values = true -> exists s, join_empty values = Ok s.
Proof.
  induction values as [|v values IH]; simpl; [eauto|].
  intros Hv. apply andb_prop in Hv as [Hv Hrest].
  destruct (IH Hrest) as [t ->].
  unfold join_piece. destruct (is_nullish v); [eauto|].
  destruct (tame_to_string v Hv) as [s ->]. eauto.
Qed.

(** Every binary operator on two tame values folds to a tame value. *)
Lemma binary_on_tame (op : BinaryOperator) (l r : Value) (s1 s2 span : Span) :
  tame l = true -> tame r = true ->
  exists v,
    evaluateBinary op (Static l s1) (Static r s2) span = Ok (Static v span)
    /\ tame v = true.
Proof.
  intros Hl Hr. unfold evaluateBinary. cbn [is_static negb orb].
  assert (Hlogical : forall x, x = l \/ x = r ->
            exists v,
              (if negb (String.eqb (typeof x) "undefined")
               then Ok (Static x span)
               else if mismatched l r then Ok (Static VUndefined span)
                    else match binarySecondSwitch op l r with
                         | Ok result => Ok (Static result span)
                         | Throw e => Throw e
                         end)
              = Ok (Static v span) /\ tame v = true).
  { intros x Hx. exists x. split; [now apply operand_result|].
    destruct Hx; subst; assumption. }
  destruct op;
    try (cbn [binaryFirstSwitch]; apply Hlogical;
         first [destruct (ToBoolean l) | destruct (is_nullish l)]; auto; fail);
    destruct l; try discriminate Hl; destruct r; try discriminate Hr;
    simpl; eexists; split; reflexivity.
Qed.

Lemma unary_on_tame (op : UnaryOperator) (v : Value) (s span : Span) :
  tame v = true ->
  exists r,
    evaluateUnary op (Static v s) span = Ok r /\ conforms Scalar r = true.
Proof.
  intros Hv. destruct op; destruct v; try discriminate Hv; simpl;
    eexists; split; reflexivity.
Qed.

Lemma binary_total (op : BinaryOperator) (rl rr : Result) (span : Span) :
  total_binary op = true ->
  exists r, evaluateBinary op rl rr span = Ok r.
Proof.
  intros Hop. unfold evaluateBinary.
  destruct rl as [|l s1|id s1], rr as [|r s2|id' s2]; simpl; eauto.
  destruct op; try discriminate Hop; cbn [binaryFirstSwitch];
    try (eexists; reflexivity).
  - eexists. apply operand_result. destruct (ToBoolean l); auto.
  - eexists. apply operand_result. destruct (ToBoolean l); auto.
  - eexists. apply operand_result. destruct (is_nullish l); auto.
Qed.

Lemma unary_total (op : UnaryOperator) (r : Result) (span : Span) :
  total_unary op = true ->
  exists r', evaluateUnary op r span = Ok r'.
Proof.
  intros Hop. destruct r as [|v s|id s]; simpl; eauto.
  destruct (is_nullish v); [eauto|].
  destruct op; try discriminate Hop; eauto.
Qed.

(** The loop of a template whose expressions fold to nothing but tame
    values stops early or pushes tame values only. *)
Lemma templateLoop_tame (ev : Node -> Completion Result)
      (expressions : list Node) :
  Forall (fun e => exists r, ev e = Ok r /\ conforms Scalar r = true)
         expressions ->
  forall (quasis : list TemplateElementT) (values : list Value),
    forallb tame values = true ->
    templateLoopWith ev expressions quasis values = Ok None
    \/ exists pushed_values,
        templateLoopWith ev expressions quasis values
        = Ok (Some pushed_values)
        /\ forallb tame pushed_values = true.
Proof.
  induction 1 as [|e expressions (r & Hr & Hc) _ IH];
    intros quasis values Hvalues.
  - destruct quasis as [|q quasis]; simpl; right; eexists;
      (split; [reflexivity|]); [exact Hvalues|].
    rewrite forallb_app, Hvalues. reflexivity.
  - destruct quasis as [|q quasis]; simpl.
    + right. eexists. split; [reflexivity | exact Hvalues].
    + rewrite Hr. simpl in Hc. destruct r as [|v s|id s]; [now left | |];
        apply IH; rewrite !forallb_app, Hvalues; simpl;
        [now rewrite Hc | reflexivity].
Qed.

End TotalOperators.

Section GradeFacts.
Context {H : Host}.
Variable stateManager : StateManager.

(** The statement proved of every node. *)
Local Abbreviation returns_as_graded n :=
  (safe (grade n) = true ->
   exists r, evaluate n stateManager = Ok r /\ conforms (grade n) r = true).

Lemma in_present (e : ExprOrSpread) (elements : list (option ExprOrSpread)) :
  In (Some e) elements -> In e (present elements).
Proof.
  induction elements as [|[x|] elements IH]; simpl; [tauto | |].
  - intros [E|Hin]; [injection E as ->; now left | right; auto].
  - intros [E|Hin]; [discriminate | auto].
Qed.

Lemma conforms_ref_not_value (r : Result) :
  conforms Ref r = true -> is_static r = false \/ has_id r = true.
Proof. destruct r; simpl; try discriminate; auto. Qed.

Lemma conforms_ref_scalar (g : Grade) (r : Result) :
  scalar_or_ref g = true -> conforms g r = true -> conforms Scalar r = true.
Proof. destruct g, r; simpl; try discriminate; auto. Qed.

Lemma graded_binary (op : BinaryOperator) (gl gr : Grade) (rl rr : Result)
      (span : Span) :
  safe (grade_binary op gl gr) = true ->
  conforms gl rl = true -> conforms gr rr = true ->
  exists r, evaluateBinary op rl rr span = Ok r
            /\ conforms (grade_binary op gl gr) r = true.
Proof.
  intros Hsafe Hl Hr.
  assert (Href : conforms Ref rl = true \/ conforms Ref rr = true ->
                 evaluateBinary op rl rr span = Ok NonStatic).
  { intros [E|E]; apply conforms_ref_not_value in E;
      apply binary_not_static; tauto. }
  destruct gl, gr; simpl in Hsafe; try discriminate Hsafe;
    try (exists NonStatic; split; [apply Href; auto | reflexivity]; fail);
    try (destruct (total_binary op) eqn:Hop; [|discriminate Hsafe];
         destruct (binary_total op rl rr span Hop) as [r Hev];
         exists r; simpl; rewrite Hop; auto; fail).
  destruct rl as [|l s1|i1 s1], rr as [|r s2|i2 s2];
    try (exists NonStatic; split;
         [apply binary_not_static; simpl; auto | reflexivity]; fail).
  destruct (binary_on_tame op l r s1 s2 span Hl Hr) as [v [Hev Hv]].
  exists (Static v span). auto.
Qed.

Lemma graded_unary (op : UnaryOperator) (g : Grade) (r : Result)
      (span : Span) :
  safe (grade_unary op g) = true ->
  conforms g r = true ->
  exists r', evaluateUnary op r span = Ok r'
             /\ conforms (grade_unary op g) r' = true.
Proof.
  intros Hsafe Hr. destruct g; simpl in *; try discriminate.
  - destruct (total_unary op) eqn:Hop; [|discriminate].
    destruct (unary_total op r span Hop) as [r' Hev]. eauto.
  - destruct r as [|v s|id s]; [exists NonStatic; auto | |
                                exists NonStatic; auto].
    now apply unary_on_tame.
  - destruct r; [exists NonStatic; auto | discriminate
                 | exists NonStatic; auto].
Qed.

Lemma graded_member (go gp : Grade) (o p : Result) (span : Span) :
  safe (grade_member go gp) = true ->
  conforms go o = true -> conforms gp p = true ->
  exists r,
    (if negb (is_static o) then Ok NonStatic
     else if negb (is_static p) then Ok NonStatic
          else evaluateMember o p span) = Ok r
    /\ conforms (grade_member go gp) r = true.
Proof.
  intros Hsafe Ho Hp. destruct go; simpl in Hsafe; try discriminate.
  destruct (scalar_or_ref gp) eqn:Hgp; [|discriminate].
  simpl. rewrite Hgp.
  destruct o as [|v s|id s]; [exists NonStatic; auto | discriminate |].
  pose proof (conforms_ref_scalar gp p Hgp Hp) as Hps.
  destruct p as [|k sk|id' sk]; simpl.
  - exists NonStatic; auto.
  - destruct (tame_to_string k Hps) as [text ->]. eauto.
  - eauto.
Qed.

Lemma graded_sequence (expressions : list Node) :
  Forall (fun n => returns_as_graded n) expressions ->
  returns_as_graded (SequenceExpression expressions).
Proof.
  intros Hall. rewrite evaluate_sequence. simpl grade.
  induction Hall as [|e rest He Hrest IH]; simpl; [discriminate|].
  destruct rest as [|e' rest']; [exact He | exact IH].
Qed.

Lemma graded_node (n : Node) : returns_as_graded n.
Proof.
  induction n as [n IH] using Node_children_ind.
  destruct n; simpl children in IH;
    try (intros _; eexists; split; reflexivity);
    try (intros Hbad; discriminate Hbad);
    try (inversion IH as [|x xs Hx _]; subst; exact Hx).
  - (* Identifier *)
    intros _. cbn [evaluate grade]. unfold evaluateIdentifier.
    destruct (String.eqb value "undefined"); eexists; split; reflexivity.
  - (* ArrayExpression *)
    cbn [grade]. destruct (forallb _ elements) eqn:Hall; [|discriminate].
    intros _. rewrite forallb_forall in Hall. rewrite List.Forall_forall in IH.
    destruct (reduce_array_returns (fun n => evaluate n stateManager)
                                   elements) with (acc := @nil Result)
      as [entries [Hred _]].
    + intros e He. specialize (Hall (Some e) He). simpl in Hall.
      destruct (IH (expression e)) as [r [Hr _]]; [|exact Hall|eauto].
      apply in_map. now apply in_present.
    + rewrite evaluate_array, Hred. eauto.
  - (* ObjectExpression *)
    cbn [grade]. destruct (forallb _ properties) eqn:Hall; [|discriminate].
    intros _. rewrite forallb_forall in Hall. rewrite List.Forall_forall in IH.
    destruct (reduce_object_returns (fun n => evaluate n stateManager)
                                    properties) with (acc := (∅, None)
                                                      : gmap string Value
                                                        * option Value)
      as [acc Hred].
    + intros p n Hp Hn. specialize (Hall p Hp).
      assert (Hsafe : safe (grade n) = true).
      { destruct p; simpl in Hn, Hall;
          repeat match goal with
                 | Hor : _ \/ _ |- _ => destruct Hor
                 | Hf : False |- _ => destruct Hf
                 end; subst;
          try apply andb_prop in Hall as [? ?]; assumption. }
      destruct (IH n) as [r [Hr _]]; [|exact Hsafe|eauto].
      apply in_flat_map. eauto.
    + rewrite evaluate_object, Hred. eauto.
  - (* AwaitExpression *)
    inversion IH as [|x xs Hx _]; subst. cbn [grade evaluate].
    intros Hs. destruct (Hx Hs) as [r [-> Hc]].
    destruct r; simpl; eauto using conforms_non_static.
  - (* BinaryExpression *)
    inversion IH as [|x xs Hl Hrest]; subst.
    inversion Hrest as [|y ys Hr _]; subst.
    cbn [grade]. intros Hs.
    assert (Hboth : safe (grade n1) = true /\ safe (grade n2) = true).
    { destruct (grade n1), (grade n2); simpl in Hs; auto; discriminate. }
    destruct Hboth as [H1 H2].
    destruct (Hl H1) as [rl [El Cl]]. destruct (Hr H2) as [rr [Er Cr]].
    rewrite evaluate_binary, El, Er. now apply graded_binary.
  - (* UnaryExpression *)
    inversion IH as [|x xs Hx _]; subst. cbn [grade]. intros Hs.
    assert (H1 : safe (grade n) = true).
    { destruct (grade n); simpl in Hs; auto. }
    destruct (Hx H1) as [r [Er Cr]].
    rewrite evaluate_unary, Er. now apply graded_unary.
  - (* ConditionalExpression *)
    inversion IH as [|t ts Ht Hrest]; subst.
    inversion Hrest as [|c cs Hc Hrest']; subst.
    inversion Hrest' as [|a as_ Ha _]; subst.
    cbn [grade evaluate]. intros Hs.
    assert (H1 : safe (grade n1) = true).
    { destruct (grade n1); simpl in Hs; auto. }
    destruct (Ht H1) as [rt [-> Ct]].
    destruct (grade n1) eqn:Gt; try discriminate H1.
    + apply either_safe in Hs as [Hsc Hsa].
      destruct rt as [|v s|id s]; try (eexists; split; [reflexivity|];
        apply conforms_non_static; destruct (grade n2), (grade n3);
        simpl in *; auto; fail).
      destruct (ToBoolean v).
      * destruct (Hc Hsc) as [r [-> Cr]]. eauto using conforms_either_l.
      * destruct (Ha Hsa) as [r [-> Cr]]. eauto using conforms_either_r.
    + apply either_safe in Hs as [Hsc Hsa].
      destruct rt as [|v s|id s]; try (eexists; split; [reflexivity|];
        apply conforms_non_static; destruct (grade n2), (grade n3);
        simpl in *; auto; fail).
      destruct (ToBoolean v).
      * destruct (Hc Hsc) as [r [-> Cr]]. eauto using conforms_either_l.
      * destruct (Ha Hsa) as [r [-> Cr]]. eauto using conforms_either_r.
    + destruct rt; [eauto | discriminate Ct | eauto].
  - (* TemplateLiteral *)
    cbn [grade]. destruct quasis as [quasis|]; [|intros _; eauto].
    assert (Hloop : forall es,
               Forall (fun e => exists r, evaluate e stateManager = Ok r
                                          /\ conforms Scalar r = true) es ->
               exists r,
                 match templateLoopWith (fun n => evaluate n stateManager)
                                        es quasis [] with
                 | Ok (Some values) =>
                     match join_empty values with
                     | Ok text => Ok (Static (VString text) span)
                     | Throw e => Throw e
                     end
                 | Ok None => Ok NonStatic
                 | Throw e => Throw e
                 end = Ok r /\ conforms Scalar r = true).
    { intros es Hes.
      destruct (templateLoop_tame (fun n => evaluate n stateManager) es Hes
                                  quasis [] eq_refl)
        as [-> | [values [-> Htame]]]; [eauto|].
      destruct (tame_join values Htame) as [text ->]. eauto. }
    destruct expressions as [es|].
    + destruct (forallb _ es) eqn:Hall; [|discriminate]. intros _.
      rewrite evaluate_template. apply Hloop.
      rewrite forallb_forall in Hall. rewrite List.Forall_forall in IH |- *.
      intros e He. specialize (Hall e He).
      destruct (IH e He) as [r [Hr Cr]].
      { destruct (grade e); simpl in *; auto; discriminate. }
      eauto using conforms_ref_scalar.
    + intros _. apply (Hloop []). constructor.
  - (* CallExpression *)
    cbn [grade]. destruct (forallb _ arguments) eqn:Hall; [|discriminate].
    intros _. rewrite evaluate_call.
    destruct (isFirstThatWorks stateManager n); [|eauto].
    rewrite forallb_forall in Hall.
    inversion IH as [|x xs _ Hargs]; subst. rewrite List.Forall_forall in Hargs.
    destruct (reduce_array_returns (fun n => evaluate n stateManager)
                                   (List.map Some arguments))
      with (acc := @nil Result) as [entries [Hred _]].
    + intros e He. apply in_map_iff in He as [a [Ea Ha]].
      injection Ea as ->.
      destruct (Hargs (expression e)) as [r [Hr _]]; [|now apply Hall|eauto].
      now apply in_map.
    + rewrite (reduce_map
                 (arrayCallback (fun n => evaluate n stateManager)) Some).
      match goal with
      | |- context [match ?scrutinee with Ok _ => _ | Throw _ => _ end] =>
          replace scrutinee with (Ok (A := list Result) ([] ++ entries)%list)
            by (symmetry; exact Hred)
      end.
      eauto.
  - (* MemberExpression *)
    inversion IH as [|x xs Ho Hrest]; subst.
    inversion Hrest as [|y ys Hp _]; subst.
    cbn [grade]. intros Hs.
    assert (Hboth : safe (grade n1) = true /\ safe (grade n2) = true).
    { destruct (grade n1); simpl in Hs; try discriminate.
      destruct (grade n2); simpl in Hs; auto; discriminate. }
    destruct Hboth as [H1 H2].
    destruct (Ho H1) as [ro [Eo Co]]. destruct (Hp H2) as [rp [Ep Cp]].
    rewrite evaluate_member, Eo.
    destruct (grade n1) eqn:G1; simpl in Hs; try discriminate.
    destruct ro as [|v s|id s]; [eauto | discriminate Co |].
    rewrite Ep. now apply (graded_member Ref (grade n2) (StaticId id s) rp).
  - (* SequenceExpression *)
    now apply graded_sequence.
Qed.

End GradeFacts.

(** X16. The evaluator cannot throw on an expression whose shape gives it a
    grade other than [Unsafe], whatever the engine and the import table: it
    returns a result, and the result is as the grade says. In particular it
    returns on every expression built from string, number, boolean and null
    literals, identifiers and template literals with all unary and binary
    operators, conditionals and wrappers, on member chains over
    identifiers, and on arrays, objects and calls of such expressions. *)
Theorem X16_graded_expressions_return
        (H : Host) (stateManager : StateManager) (node : Node) :
  safe (grade node) = true ->
  exists r,
    evaluate node stateManager = Ok r /\ conforms (grade node) r = true.
Proof. apply graded_node. Qed.

(** [`${-(4 + 2) * 2}px`] beside a member of [vars] in an object literal *)
Lemma X16_witness :
  let node :=
    ObjectExpression
      [KeyValueProperty
         (StringLiteral "padding" (sp 1 10))
         (TemplateLiteral
            (Some [mkTemplateElement (Some "") "" (sp 13 13);
                   mkTemplateElement (Some "px") "px" (sp 30 32)])
            (Some [BinaryExpression OpMul
                     (UnaryExpression UMinus
                        (ParenthesisExpression
                           (BinaryExpression OpAdd (number 4) (number 2)
                                             (sp 17 22)))
                        (sp 15 23))
                     (number 2) (sp 15 27)])
            (sp 12 33));
       KeyValueProperty
         (StringLiteral "color" (sp 35 42))
         (MemberExpression (Identifier "vars" (sp 44 48))
                           (Identifier "color" (sp 49 54)) (sp 44 54))]
      (sp 0 55) in
  exists r,
    evaluate (H := SampleHost.host) node stylexImported = Ok r
    /\ conforms (grade node) r = true.
Proof.
  intros node.
  apply (X16_graded_expressions_return SampleHost.host stylexImported node).
  reflexivity.
Defined.

(* ===================================================================== *)
(** * Further properties of color-logic.ts                                *)
(* ===================================================================== *)

Section TrimFacts.
Import ColorLogic.

Lemma trimStart_head (s : string) :
  match trimStart s with
  | EmptyString => True
  | String c _ => is_space c = false
  end.
Proof.
  induction s as [|c s IH]; simpl; [exact I|].
  destruct (is_space c) eqn:E; [exact IH | exact E].
Qed.

Lemma trimEnd_idempotent (s : string) : trimEnd (trimEnd s) = trimEnd s.
Proof.
  induction s as [|c s IH]; simpl; [reflexivity|].
  destruct (trimEnd s) as [|d kept] eqn:E.
  - destruct (is_space c) eqn:Ec; simpl; [reflexivity|]. now rewrite Ec.
  - cbn [trimEnd]. cbn [trimEnd] in IH. now rewrite IH.
Qed.

(** [trimEnd] keeps the first character of a string that does not start
    with a space. *)
Lemma trimEnd_head (c : ascii) (s : string) :
  is_space c = false -> exists kept, trimEnd (String c s) = String c kept.
Proof.
  intros Hc. simpl. destruct (trimEnd s); [rewrite Hc|]; eauto.
Qed.

Lemma trim_idempotent (s : string) : trim (trim s) = trim s.
Proof.
  unfold trim. pose proof (trimStart_head s) as Hhead.
  destruct (trimStart s) as [|c rest] eqn:E; [reflexivity|].
  destruct (trimEnd_head c rest Hhead) as [kept Hkept].
  rewrite Hkept. cbn [trimStart]. rewrite Hhead, <- Hkept.
  apply trimEnd_idempotent.
Qed.

End TrimFacts.

(** X17. [getColorFromValue] does not see the white space around a string:
    trimming is idempotent, and a string and its trimmed form get the same
    answer, for every table of named colours and every parser. *)
Theorem X17_getColorFromValue_ignores_outer_space
        (namedColors : list string) (Color : Type)
        (culori_parse : string -> option Color) (s : string) :
  ColorLogic.trim (ColorLogic.trim s) = ColorLogic.trim s
  /\ ColorLogic.getColorFromValue namedColors Color culori_parse
       (VString (ColorLogic.trim s))
     = ColorLogic.getColorFromValue namedColors Color culori_parse
         (VString s).
Proof.
  split; [apply trim_idempotent|].
  unfold ColorLogic.getColorFromValue. now rewrite trim_idempotent.
Qed.

(* ===================================================================== *)
(** ** The handlers of the hover walk                                     *)
(* ===================================================================== *)

Section HoverFacts.
Import HoverHandlers.


Lemma find_skips (A : Type) (p : A -> bool) (skipped rest : list A) :
  forallb (fun x => negb (p x)) skipped = true ->
  find p (skipped ++ rest) = find p rest.
Proof.
  induction skipped as [|x skipped IH]; simpl; [reflexivity|].
  intros Hall. apply andb_prop in Hall as [Hx Hall].
  apply negb_true_iff in Hx. rewrite Hx. auto.
Qed.

Lemma forallb_rev (A : Type) (p : A -> bool) (l : list A) :
  forallb p (rev l) = forallb p l.
Proof.
  induction l as [|x l IH]; simpl; [reflexivity|].
  rewrite forallb_app, IH. simpl. rewrite andb_true_r. apply andb_comm.
Qed.

Lemma openLines_indexed (ats : list string) (indentSize : nat) :
  openLines ats indentSize =
  map (fun '(depth, atInclude) =>
         repeat_string "  " depth ++ atInclude ++ " {")
      (combine (seq indentSize (List.length ats)) ats).
Proof.
  revert indentSize.
  induction ats as [|a ats IH]; intros indentSize; simpl; [reflexivity|].
  now rewrite IH.
Qed.

Lemma closeLines_indexed (indentSize : nat) :
  closeLines indentSize =
  map (fun depth => repeat_string "  " depth ++ "}")
      (rev (seq 0 indentSize)).
Proof.
  induction indentSize as [|m IH]; [reflexivity|].
  rewrite seq_S, rev_app_distr. simpl. now rewrite IH.
Qed.

End HoverFacts.

(** X18. The [CallExpression] handler of the hover walk never ends the walk
    and never touches [parentClass]; below the call, [callInside] is either
    reset or one of the four API names, whatever the callee was: a call of
    any other function, also one reached through the stylex import, switches
    the hover off for the properties in its arguments. *)
Theorem X18_hover_call_resets_or_enters
        (stateManager : StateManager) (callee : Node)
        (state : HoverHandlers.State) (parent : Parent) :
  exists below,
    (HoverHandlers.callExpression stateManager callee state parent
     = ReturnsState below
     \/ exists ignore,
         HoverHandlers.callExpression stateManager callee state parent
         = ReturnsStateIgnoring below ignore)
    /\ HoverHandlers.parentClass below = HoverHandlers.parentClass state
    /\ (HoverHandlers.callInside below = None
        \/ exists name,
            HoverHandlers.callInside below = Some name
            /\ In name HoverHandlers.apiNames
            /\ verifiedImport stateManager HoverHandlers.apiNames callee
               = Some name).
Proof.
  unfold HoverHandlers.callExpression.
  destruct (verifiedImport stateManager HoverHandlers.apiNames callee)
    as [name|] eqn:Himport.
  - destruct (String.eqb name "create" || String.eqb name "keyframes")
      eqn:Hrule.
    + eexists. split; [left; reflexivity|]. split; [reflexivity|].
      right. exists name. repeat split.
      apply orb_prop in Hrule as [Heq|Heq]; apply String.eqb_eq in Heq;
        subst; simpl; auto.
    + destruct (String.eqb name "createTheme" || String.eqb name "defineVars")
        eqn:Htheme.
      * eexists. split; [right; eexists; reflexivity|].
        split; [reflexivity|].
        right. exists name. repeat split.
        apply orb_prop in Htheme as [Heq|Heq]; apply String.eqb_eq in Heq;
          subst; simpl; auto.
      * eexists. split; [left; reflexivity|]. split; [reflexivity|].
        left. reflexivity.
  - eexists. split; [left; reflexivity|]. split; [reflexivity|].
    left. reflexivity.
Qed.


(** X20. The [KeyValueProperty] handler of the hover walk finds a hover only
    for the key under the cursor: when it assigns one, the cursor lies
    within the key's span, the range of the hover is that span, the walk
    was inside a stylex call, the value of the property has been evaluated
    to a result for which there are declaration lines, and the text is the
    rule built for that key around exactly those lines, of more than two
    lines in all. *)
Theorem X20_hover_is_for_the_key_under_the_cursor
        (H : Host) (env : HoverHandlers.Environment)
        (stateManager : StateManager) (paramByte moduleStart : Z)
        (node : KeyValueNode) (state : HoverHandlers.State)
        (found : HoverHandlers.Found) :
  HoverHandlers.keyValueProperty env stateManager paramByte moduleStart
                                 node state
  = Ok (ReturnsExit (Some found)) ->
  start (kv_key_span node) - moduleStart <= paramByte
    <= end_ (kv_key_span node) - moduleStart
  /\ HoverHandlers.range_start found = start (kv_key_span node) - moduleStart
  /\ HoverHandlers.range_end found = end_ (kv_key_span node) - moduleStart
  /\ HoverHandlers.truthy_option (HoverHandlers.callInside state) = true
  /\ exists key staticValue lines,
      HoverHandlers.keyOf env (kv_key node) = Ok (Some key)
      /\ evaluate (kv_value node) stateManager = Ok staticValue
      /\ HoverHandlers.declarations
           env
           (repeat_string
              "  " (List.length (HoverHandlers.atIncluded state key) + 1))
           (HoverHandlers.propertyName state key) staticValue
         = Ok (Some lines)
      /\ HoverHandlers.css found
         = HoverHandlers.join_lines (HoverHandlers.cssLines state key lines)
      /\ (2 < List.length (HoverHandlers.cssLines state key lines))%nat.
Proof.
  unfold HoverHandlers.keyValueProperty.
  destruct (HoverHandlers.truthy_option (HoverHandlers.callInside state));
    [|discriminate].
  destruct (HoverHandlers.keyOf env (kv_key node)) as [[key|]|];
    cbn beta iota; try discriminate.
  destruct (negb (truthy key)); [discriminate|].
  assert (Htail :
    (if HoverHandlers.isKeyframesCall stateManager (kv_value node)
     then Ok (ReturnsState
                (HoverHandlers.mkState [] (Some "keyframes")
                                       (Some ("1" ++ key))))
     else if (paramByte >? end_ (kv_key_span node) - moduleStart)
             || (paramByte <? start (kv_key_span node) - moduleStart)
     then Ok (ReturnsState state)
     else
       let indentation :=
         repeat_string
           "  " (List.length (HoverHandlers.atIncluded state key) + 1) in
       let* staticValue := evaluate (kv_value node) stateManager in
       let* lines :=
         HoverHandlers.declarations
           env indentation (HoverHandlers.propertyName state key)
           staticValue in
       match lines with
       | None => Ok (ReturnsExit None)
       | Some lines =>
           let all := HoverHandlers.cssLines state key lines in
           if (2 <? List.length all)%nat then
             Ok (ReturnsExit
                   (Some (HoverHandlers.mkFound
                            (HoverHandlers.join_lines all)
                            (start (kv_key_span node) - moduleStart)
                            (end_ (kv_key_span node) - moduleStart))))
           else Ok (ReturnsState state)
       end)
    = Ok (ReturnsExit (Some found)) ->
    start (kv_key_span node) - moduleStart <= paramByte
      <= end_ (kv_key_span node) - moduleStart
    /\ HoverHandlers.range_start found
       = start (kv_key_span node) - moduleStart
    /\ HoverHandlers.range_end found = end_ (kv_key_span node) - moduleStart
    /\ true = true
    /\ exists key0 staticValue lines,
        Ok (A := option string) (Some key) = Ok (Some key0)
        /\ evaluate (kv_value node) stateManager = Ok staticValue
        /\ HoverHandlers.declarations
             env
             (repeat_string
                "  "
                (List.length (HoverHandlers.atIncluded state key0) + 1))
             (HoverHandlers.propertyName state key0) staticValue
           = Ok (Some lines)
        /\ HoverHandlers.css found
           = HoverHandlers.join_lines
               (HoverHandlers.cssLines state key0 lines)
        /\ (2 < List.length (HoverHandlers.cssLines state key0 lines))%nat).
  { destruct (HoverHandlers.isKeyframesCall stateManager (kv_value node));
      [discriminate|].
    destruct ((paramByte >? end_ (kv_key_span node) - moduleStart)
              || (paramByte <? start (kv_key_span node) - moduleStart))
      eqn:Hrange; [discriminate|].
    apply orb_false_elim in Hrange as [Hgt Hlt].
    cbv zeta.
    destruct (evaluate (kv_value node) stateManager) as [staticValue|];
      cbn beta iota; [|discriminate].
    destruct (HoverHandlers.declarations _ _ _ staticValue)
      as [[lines|]|] eqn:Hlines; cbn beta iota; try discriminate.
    destruct (2 <? List.length (HoverHandlers.cssLines state key lines))%nat
      eqn:Hlen; [|discriminate].
    intros Hfound. injection Hfound as <-. simpl.
    repeat split; try lia.
    exists key, staticValue, lines. repeat split.
    - exact Hlines.
    - apply Nat.ltb_lt. exact Hlen. }
  destruct (kv_value node); try exact Htail; discriminate.
Qed.

(** X21. Inside [create] and [keyframes] the property a hover is about is
    the innermost key that names a property: conditions below it (keys that
    start with a colon or an at sign, and [default]) are passed over. *)
Theorem X21_property_name_is_the_innermost_property
        (state : HoverHandlers.State) (key name : string)
        (before conditions : list string) :
  HoverHandlers.inRule state = true ->
  (HoverHandlers.parentClass state ++ [key])%list
  = (before ++ name :: conditions)%list ->
  HoverHandlers.names_a_property name = true ->
  truthy name = true ->
  forallb (fun className => negb (HoverHandlers.names_a_property className))
          conditions = true ->
  HoverHandlers.propertyName state key = name.
Proof.
  intros Hrule Hpath Hname Htruthy Hconditions.
  unfold HoverHandlers.propertyName, HoverHandlers.classLine.
  rewrite Hrule. cbn [app]. rewrite Hpath.
  rewrite rev_app_distr. cbn [rev]. rewrite <- app_assoc. cbn [app].
  rewrite find_skips by (now rewrite forallb_rev).
  cbn [find]. rewrite Hname, Htruthy. reflexivity.
Qed.

(** X22. The rule of a hover is well nested: the at-rules are opened
    outermost first, one indentation step deeper each, the selector and its
    closing brace sit one step below the innermost of them, and the at-rules
    are closed in the reverse order, each at the depth it was opened at. *)
Theorem X22_at_rules_close_as_they_opened
        (state : HoverHandlers.State) (key : string) (lines : list string) :
  let ats := HoverHandlers.atIncluded state key in
  let depth := List.length ats in
  HoverHandlers.cssLines state key lines
  = (map (fun '(level, atInclude) =>
            (repeat_string "  " level ++ atInclude ++ " {")%string)
         (combine (seq 0 depth) ats)
       ++ [(repeat_string "  " depth
              ++ HoverHandlers.parentSelector state key ++ " {")%string]
       ++ lines
       ++ [(repeat_string "  " depth ++ "}")%string]
       ++ map (fun level => (repeat_string "  " level ++ "}")%string)
              (rev (seq 0 depth)))%list.
Proof.
  intros ats depth. unfold HoverHandlers.cssLines. cbv zeta.
  fold ats. fold depth.
  rewrite openLines_indexed, closeLines_indexed. reflexivity.
Qed.


(** The cursor on [color] in [base: { color: "red" }] of [stylex.create] *)
Lemma X20_witness :
  let node :=
    mkKeyValueNode (Identifier "color" (sp 10 15)) (sp 10 15)
                   (StringLiteral "red" (sp 17 22)) in
  let state :=
    HoverHandlers.mkState ["base"] (Some "create") (Some "styles") in
  let found :=
    HoverHandlers.mkFound
      (HoverHandlers.join_lines [".base {"; "  color: red;"; "}"]) 10 15 in
  HoverHandlers.keyValueProperty (H := SampleHost.host)
    SampleEnvironment.env stylexImported 12 0 node state
  = Ok (ReturnsExit (Some found))
  /\ HoverHandlers.declarations
       SampleEnvironment.env "  " "color"
       (Static (VString "red") (sp 17 22))
     = Ok (Some ["  color: red;"])
  /\ HoverHandlers.cssLines state "color" ["  color: red;"]
     = [".base {"; "  color: red;"; "}"]
  /\ (10 - 0 <= 12 <= 15 - 0
      /\ HoverHandlers.range_start found = 10 - 0
      /\ HoverHandlers.range_end found = 15 - 0
      /\ HoverHandlers.truthy_option (Some "create") = true
      /\ exists key staticValue lines,
          HoverHandlers.keyOf SampleEnvironment.env
                              (Identifier "color" (sp 10 15))
          = Ok (Some key)
          /\ evaluate (H := SampleHost.host)
                      (StringLiteral "red" (sp 17 22)) stylexImported
             = Ok staticValue
          /\ HoverHandlers.declarations
               SampleEnvironment.env
               (repeat_string
                  "  "
                  (List.length (HoverHandlers.atIncluded state key) + 1))
               (HoverHandlers.propertyName state key) staticValue
             = Ok (Some lines)
          /\ HoverHandlers.css found
             = HoverHandlers.join_lines
                 (HoverHandlers.cssLines state key lines)
          /\ (2 < List.length (HoverHandlers.cssLines state key lines))%nat).
Proof.
  intros node state found.
  split; [reflexivity|]. split; [reflexivity|]. split; [reflexivity|].
  exact (X20_hover_is_for_the_key_under_the_cursor
           SampleHost.host SampleEnvironment.env stylexImported 12 0 node state
           found eq_refl).
Defined.

(** [default] below [:hover] below [color] in the rule [base] *)
Lemma X21_witness :
  HoverHandlers.propertyName
    (HoverHandlers.mkState ["base"; "color"; ":hover"] (Some "create")
                           (Some "styles"))
    "default"
  = "color".
Proof.
  exact (X21_property_name_is_the_innermost_property
           (HoverHandlers.mkState ["base"; "color"; ":hover"] (Some "create")
                                  (Some "styles"))
           "default" "color" ["base"] [":hover"; "default"]
           eq_refl eq_refl eq_refl eq_refl eq_refl).
Defined.

(* ===================================================================== *)
(** ** The handlers of the completion walk                                *)
(* ===================================================================== *)

Section CompletionFacts.
Import CompletionHandlers.
Variable calculateKeyValue : KeyValueNode -> option string.
Variable STYLEX_CUSTOM_PROPERTY : string.

Lemma keyValueProperty_counts (node : KeyValueNode) (state : State) :
  HoverHandlers.is_one_of "create" "keyframes" (callInside state) = true ->
  propertyDeep state <> 2 ->
  keyValueProperty calculateKeyValue STYLEX_CUSTOM_PROPERTY node state
  = (state,
     ReturnsState (mkState (propertyName state) (callInside state)
                           (propertyDeep state + 1))).
Proof.
  destruct state as [name [api|] deep]; [|discriminate].
  cbn [callInside propertyDeep propertyName].
  intros Hrule Hdeep. unfold keyValueProperty.
  cbn [callInside propertyDeep propertyName].
  apply Z.eqb_neq in Hdeep. rewrite Hdeep, andb_false_r.
  simpl in Hrule.
  apply orb_prop in Hrule as [Heq|Heq]; apply String.eqb_eq in Heq;
    subst api; reflexivity.
Qed.

Lemma descend_below_the_property (path : list KeyValueNode) (state : State) :
  HoverHandlers.is_one_of "create" "keyframes" (callInside state) = true ->
  3 <= propertyDeep state ->
  descend calculateKeyValue STYLEX_CUSTOM_PROPERTY path state
  = Some (mkState (propertyName state) (callInside state)
                  (propertyDeep state + Z.of_nat (List.length path))).
Proof.
  revert state.
  induction path as [|node path IH]; intros state Hrule Hdeep.
  - destruct state. simpl. now rewrite Z.add_0_r.
  - cbn [descend]. rewrite keyValueProperty_counts by (auto; lia).
    cbn [snd]. rewrite IH; cbn [callInside propertyDeep propertyName];
      [|assumption|lia].
    f_equal. f_equal. cbn [List.length]. lia.
Qed.

End CompletionFacts.

(** X23. In the completion walk the property a completion is for is the key
    two levels below a call of [create] or [keyframes]: from the state the
    [CallExpression] handler returns at the call, the handler of the rule's
    key and then the handler of the property's key leave [propertyName] at
    the property's key, and no key nested further down replaces it; only
    the depth goes on counting. *)
Theorem X23_completion_property_is_two_levels_down
        (stateManager : StateManager)
        (calculateKeyValue : KeyValueNode -> option string)
        (STYLEX_CUSTOM_PROPERTY : string)
        (callee : Node) (name : string) (state : CompletionHandlers.State)
        (rule property : KeyValueNode) (deeper : list KeyValueNode) :
  verifiedImport stateManager CompletionHandlers.apiNames callee
  = Some name ->
  name = "create" \/ name = "keyframes" ->
  exists inside,
    CompletionHandlers.callExpression stateManager callee state
    = ReturnsState inside
    /\ CompletionHandlers.descend
         calculateKeyValue STYLEX_CUSTOM_PROPERTY
         (rule :: property :: deeper) inside
       = Some (CompletionHandlers.mkState
                 (calculateKeyValue property) (Some name)
                 (3 + Z.of_nat (List.length deeper))).
Proof.
  intros Himport Hname.
  unfold CompletionHandlers.callExpression. rewrite Himport.
  assert (Hrule : (String.eqb name "create" || String.eqb name "keyframes")
                  = true)
    by (destruct Hname as [-> | ->]; reflexivity).
  rewrite Hrule. eexists. split; [reflexivity|].
  cbn [CompletionHandlers.descend].
  rewrite keyValueProperty_counts by (simpl; (assumption || discriminate)).
  cbn [snd CompletionHandlers.callInside CompletionHandlers.propertyDeep
       CompletionHandlers.propertyName].
  unfold CompletionHandlers.keyValueProperty at 1.
  cbn [CompletionHandlers.callInside CompletionHandlers.propertyDeep
       CompletionHandlers.propertyName].
  simpl (HoverHandlers.is_one_of "create" "keyframes" (Some name)).
  rewrite Hrule.
  replace (HoverHandlers.truthy_option (Some name)) with true
    by (destruct Hname as [-> | ->]; reflexivity).
  change (1 + 1 =? 2) with true. cbn [andb snd].
  rewrite descend_below_the_property by (simpl; (assumption || lia)).
  reflexivity.
Qed.

(** [stylex.create({ base: { color: { default: _ } } })] *)
Lemma X23_witness :
  let callee :=
    MemberExpression (Identifier "stylex" (sp 0 6))
                     (Identifier "create" (sp 7 13)) (sp 0 13) in
  let key name first last value :=
    mkKeyValueNode (Identifier name (sp first last)) (sp first last) value in
  let keyName (node : KeyValueNode) :=
    match kv_key node with
    | Identifier name _ => Some name
    | _ => None
    end in
  exists inside,
    CompletionHandlers.callExpression
      stylexImported callee (CompletionHandlers.mkState None None 0)
    = ReturnsState inside
    /\ CompletionHandlers.descend
         keyName "--custom"
         [key "base" 16 20 (ObjectExpression [] (sp 22 50));
          key "color" 24 29 (ObjectExpression [] (sp 31 48));
          key "default" 33 40 (StringLiteral "red" (sp 42 47))]
         inside
       = Some (CompletionHandlers.mkState (Some "color") (Some "create") 4).
Proof.
  intros callee key keyName.
  exact (X23_completion_property_is_two_levels_down
           stylexImported keyName "--custom" callee "create"
           (CompletionHandlers.mkState None None 0)
           (key "base" 16 20 (ObjectExpression [] (sp 22 50)))
           (key "color" 24 29 (ObjectExpression [] (sp 31 48)))
           [key "default" 33 40 (StringLiteral "red" (sp 42 47))]
           eq_refl (or_introl eq_refl)).
Defined.
